(** * A shallow embedding of the file-transfer client (client.py)

    The client speaks a small text protocol (PUT / GET / LIST) over one TCP
    socket.  Its methods are embedded as computations in a state-and-exception
    monad over a [World] that holds the fields of the [FTPClient] object, the
    operating-system view of its socket, the working directory, the log file
    and the console.

    Conventions of the embedding.
    - A Python [bytes] value is a [string] (a sequence of 8-bit characters).
      A Python [str] is represented by its UTF-8 encoding, so [encode] is the
      identity and [decode] is a validity check.
    - A Python [int] is a [Z].  A Python [float] is the rational it denotes
      ([Q]); the only float operations of the client are the conversion of an
      [int] (rounded to 53 bits, modelled) and divisions by 1024 of values
      above 1024 (exact on binary floats).
    - An exception is a value of [exn]; a computation ends in [Val], in
      [Exc] or, when a loop is cut off by its fuel, in [OutOfFuel].
    - The socket is the operating system's: a send or a receive on a
      socket that was never connected raises OSError, and so does a send
      after the peer has reset the connection.  The peer is a script of the
      segments it delivers; when the script is exhausted the peer has
      closed, and [recv] returns the empty [bytes].
    - The methods run on a world that holds the fields as the constructor
      leaves them.  The constructor, the checks it makes on its arguments
      ([check_host], [check_port], [check_command]) and the program that
      calls it are embedded last, over an object that may still lack
      [self.connected].
    - The working directory is flat: a file is known by its name, which is
      also the name [os.listdir] shows.  A name with a "/" is a path that
      leaves the directory; what [open] makes of it is the answer of the
      file system beyond, which the world gives.  The directory can be
      written to.  The lines of client.log are kept apart from the
      directory, in [logfile]; the date that [log] puts before each line is
      left out. *)

From Stdlib Require Import ZArith QArith String Ascii List DecimalString DecimalPos Lia.
From stdpp Require Import gmap strings list fin_maps.

Local Open Scope string_scope.

(** ** Exceptions and results *)

(** The subclasses of [OSError] the client can meet, by cause. *)
Inductive oserror : Type :=
  | NotConnected        (* send/recv on a socket that was never connected *)
  | PeerReset           (* the peer reset the connection *)
  | BadDescriptor       (* the socket was closed locally *)
  | Refused (msg : string)    (* ConnectionRefusedError *)
  | Gaierror (msg : string)   (* socket.gaierror *)
  | DialTimedOut         (* any other failure of connect(), not caught *)
  | AlreadyConnected    (* connect() on a connected socket *)
  | NoSuchFile          (* FileNotFoundError *)
  | NameTooLong         (* a file name of more than 255 bytes *)
  | IsADirectory.       (* IsADirectoryError: open() on a directory *)

Inductive exn : Type :=
  | SystemExit (msg : string)
  | OSError (e : oserror)
  | ValueError
  | UnicodeDecodeError
  | IndexError
  | KeyError
  | OverflowError
  | TypeError
  | UnboundLocalError (var : string).

Inductive Res (A : Type) : Type :=
  | Val (a : A)
  | Exc (e : exn)
  | OutOfFuel.
Arguments Val {A} a.
Arguments Exc {A} e.
Arguments OutOfFuel {A}.

#[global] Instance Res_ret : MRet Res := fun A a => Val a.
#[global] Instance Res_bind : MBind Res := fun A B f r =>
  match r with
  | Val a => f a
  | Exc e => Exc e
  | OutOfFuel => OutOfFuel
  end.

(** ** Python values *)

Module Py.

(** [str(z)] for an [int]. *)
Definition str (z : Z) : string := NilZero.string_of_int (Z.to_int z).

(** [len(b)] for [bytes]. *)
Definition len_bytes (b : string) : Z := Z.of_nat (String.length b).

(** A UTF-8 continuation byte, 10xxxxxx. *)
Definition is_cont (c : ascii) : bool :=
  let n := N_of_ascii c in ((128 <=? n) && (n <=? 191))%N.

Definition in_range (lo hi : N) (c : ascii) : bool :=
  let n := N_of_ascii c in ((lo <=? n) && (n <=? hi))%N.

(** Well-formed UTF-8 (the byte sequences the strict decoder accepts: no
    overlong forms, no surrogates, nothing above U+10FFFF). *)
Fixpoint utf8_valid (s : string) : bool :=
  match s with
  | EmptyString => true
  | String b0 s1 =>
    if in_range 0 127 b0 then utf8_valid s1
    else match s1 with
    | EmptyString => false
    | String b1 s2 =>
      if in_range 194 223 b0 then is_cont b1 && utf8_valid s2
      else match s2 with
      | EmptyString => false
      | String b2 s3 =>
        if in_range 224 224 b0 then in_range 160 191 b1 && is_cont b2 && utf8_valid s3
        else if in_range 237 237 b0 then in_range 128 159 b1 && is_cont b2 && utf8_valid s3
        else if in_range 225 239 b0 then is_cont b1 && is_cont b2 && utf8_valid s3
        else match s3 with
        | EmptyString => false
        | String b3 s4 =>
          if in_range 240 240 b0 then
            in_range 144 191 b1 && is_cont b2 && is_cont b3 && utf8_valid s4
          else if in_range 241 243 b0 then
            is_cont b1 && is_cont b2 && is_cont b3 && utf8_valid s4
          else if in_range 244 244 b0 then
            in_range 128 143 b1 && is_cont b2 && is_cont b3 && utf8_valid s4
          else false
        end
      end
    end
  end.

(** [b.decode()]: the text, or UnicodeDecodeError. *)
Definition decode (b : string) : Res string :=
  if utf8_valid b then Val b else Exc UnicodeDecodeError.

(** [s.encode()]. *)
Definition encode (s : string) : string := s.

(** [len(s)] for a [str]: its number of code points. *)
Fixpoint len (s : string) : Z :=
  match s with
  | EmptyString => 0
  | String c s' => ((if is_cont c then 0 else 1) + len s')%Z
  end.

(** *** [int(s)] *)

(** The whitespace [int()] strips (C isspace). *)
Definition is_space (c : ascii) : bool :=
  let n := N_of_ascii c in ((n =? 32) || ((9 <=? n) && (n <=? 13)))%N.

Definition digit_value (c : ascii) : option Z :=
  let n := N_of_ascii c in
  if ((48 <=? n) && (n <=? 57))%N then Some (Z.of_N (n - 48)) else None.

Fixpoint lstrip (s : string) : string :=
  match s with
  | String c s' => if is_space c then lstrip s' else s
  | EmptyString => EmptyString
  end.

Fixpoint all_space (s : string) : bool :=
  match s with
  | EmptyString => true
  | String c s' => is_space c && all_space s'
  end.

(** The digits of a decimal literal: groups of digits separated by single
    underscores, followed by whitespace only.  [acc] is the value read so
    far, [prev_digit] tells whether the previous character was a digit. *)
Fixpoint digits (s : string) (acc : Z) (prev_digit : bool) : option Z :=
  match s with
  | EmptyString => if prev_digit then Some acc else None
  | String c s' =>
    match digit_value c with
    | Some d => digits s' (10 * acc + d)%Z true
    | None =>
      if Ascii.eqb c "_" then (if prev_digit then digits s' acc false else None)
      else if prev_digit && all_space s then Some acc
      else None
    end
  end.

(** [int(s)] in base 10, for a [str] made of ASCII characters: surrounding
    whitespace, an optional sign, then the digits.  (Python accepts also the
    decimal digits and spaces of other scripts; a response that contains them
    is outside this model.) *)
Definition int (s : string) : Res Z :=
  let body := lstrip s in
  let '(sign, rest) :=
    match body with
    | String "-" r => ((-1)%Z, r)
    | String "+" r => (1%Z, r)
    | _ => (1%Z, body)
    end in
  match digits rest 0 false with
  | Some n => Val (sign * n)%Z
  | None => Exc ValueError
  end.

(** *** Floats *)

(** [n / d] rounded to the nearest integer, ties to even ([0 <= n], [0 < d]). *)
Definition round_half_even (n d : Z) : Z :=
  let q := (n / d)%Z in
  let r := (n mod d)%Z in
  if ((d <? 2 * r) || ((d =? 2 * r) && Z.odd q))%Z then (q + 1)%Z else q.

(** The double nearest to the natural number [n], as the integer it is. *)
Definition nearest_double (n : Z) : Z :=
  if (n <? 2 ^ 53)%Z then n
  else let e := (Z.log2 n - 52)%Z in (round_half_even n (2 ^ e) * 2 ^ e)%Z.

(** [float(z)]: OverflowError when the nearest double would be infinite. *)
Definition float_of_int (z : Z) : Res Q :=
  let m := nearest_double (Z.abs z) in
  if (2 ^ 1024 <=? m)%Z then Exc OverflowError
  else Val (inject_Z (Z.sgn z * m)).

(** A number held by a variable that is first an [int] and, after a float
    division, a [float]. *)
Inductive num : Type :=
  | Int (z : Z)
  | Float (q : Q).

(** [v > 1024]. *)
Definition gt_1024 (v : num) : bool :=
  match v with
  | Int z => (1024 <? z)%Z
  | Float q => negb (Qle_bool q (1024 # 1))
  end.

(** [v / 1024.00]. *)
Definition div_1024 (v : num) : Res num :=
  match v with
  | Int z => x ← float_of_int z; Val (Float (x / (1024 # 1)))
  | Float q => Val (Float (q / (1024 # 1)))
  end.

Definition to_float (v : num) : Res Q :=
  match v with
  | Int z => float_of_int z
  | Float q => Val q
  end.

Definition two_digits (d : Z) : string := str (d / 10) ++ str (d mod 10).

(** ["%0.2f" % x]: the exact value of [x] rounded to two decimals. *)
Definition format_2f (x : Q) : string :=
  let h := round_half_even (Z.abs (Qnum x) * 100) (Zpos (Qden x)) in
  let body := str (h / 100) ++ "." ++ two_digits (h mod 100) in
  if (Qnum x <? 0)%Z then "-" ++ body else body.

End Py.

(** ** get_filesize *)

Definition sizes : list string := ["B"; "KB"; "MB"; "GB"].

(** The loop [while size_bytes > 1024 and i < 5]. *)
Fixpoint get_filesize_loop (fuel : nat) (size_bytes : Py.num) (i : nat)
  : Res (Py.num * nat) :=
  if Py.gt_1024 size_bytes && (i <? 5)%nat then
    match fuel with
    | O => OutOfFuel
    | S fuel' =>
      size_bytes' ← Py.div_1024 size_bytes;
      get_filesize_loop fuel' size_bytes' (S i)
    end
  else Val (size_bytes, i).

(** [sizes[i]]. *)
Definition sizes_at (i : nat) : Res string :=
  match sizes !! i with
  | Some s => Val s
  | None => Exc IndexError
  end.

(** ["%0.2f%s" % (size_bytes, sizes[i])]: the tuple is built first, so a
    bad index is met before the number is formatted. *)
Definition get_filesize (size_bytes : Z) : Res string :=
  '(v, i) ← get_filesize_loop 5 (Py.Int size_bytes) 0;
  suffix ← sizes_at i;
  x ← Py.to_float v;
  Val (Py.format_2f x ++ suffix).

(** ** The world the client runs in *)

(** The operating system's view of [cli_socket]. *)
Inductive sock_state : Type :=
  | Fresh     (* created, never connected *)
  | Open      (* connected *)
  | Closed.   (* closed by the client *)

(** What the network answers to [connect()]. *)
Inductive dial_result : Type :=
  | Accepts
  | Rejects (e : oserror).

(** What the peer delivers: a segment of data, or a reset of the connection.
    An exhausted inbox means that the peer has closed its end. *)
Inductive packet : Type :=
  | Data (b : string)
  | Rst.

(** The calls made on the socket, whether they succeed or not. *)
Inductive call : Type :=
  | CConnect
  | CSendall (b : string)
  | CSend (b : string)
  | CRecv (n : N)
  | CClose.

Record socket : Type := Socket {
  state : sock_state;
  dial : dial_result;
  inbox : list packet;
  outbox : list string;      (* what reached the peer, oldest first *)
  calls : list call          (* history of the calls, oldest first *)
}.

(** An entry of the working directory, as [os.path] sees it. *)
Record entry : Type := Entry {
  isdir : bool;
  st_size : Z;
  content : string
}.

Record World : Type := MkWorld {
  host : string;                 (* self.host *)
  port : Z;                      (* self.port *)
  command : list string;         (* self.command *)
  connected : bool;              (* self.connected *)
  cli_socket : socket;           (* self.cli_socket *)
  getcwd : string;               (* os.getcwd() *)
  cwd : gmap string entry;       (* the entries of the working directory *)
  logfile : list string;         (* lines appended to client.log *)
  console : list string;         (* what was printed *)
  beyond : string → option exn   (* open(path, 'wb') beyond the directory:
                                    what it raises, if it raises *)
}.

Definition set_connected (b : bool) (w : World) : World :=
  MkWorld (host w) (port w) (command w) b (cli_socket w) (getcwd w) (cwd w)
          (logfile w) (console w) (beyond w).
Definition set_cli_socket (s : socket) (w : World) : World :=
  MkWorld (host w) (port w) (command w) (connected w) s (getcwd w) (cwd w)
          (logfile w) (console w) (beyond w).
Definition set_cwd (d : gmap string entry) (w : World) : World :=
  MkWorld (host w) (port w) (command w) (connected w) (cli_socket w) (getcwd w) d
          (logfile w) (console w) (beyond w).
Definition set_logfile (l : list string) (w : World) : World :=
  MkWorld (host w) (port w) (command w) (connected w) (cli_socket w) (getcwd w)
          (cwd w) l (console w) (beyond w).
Definition set_console (l : list string) (w : World) : World :=
  MkWorld (host w) (port w) (command w) (connected w) (cli_socket w) (getcwd w)
          (cwd w) (logfile w) l (beyond w).

Definition record_call (c : call) (s : socket) : socket :=
  Socket (state s) (dial s) (inbox s) (outbox s) (calls s ++ [c]).
Definition set_state (st : sock_state) (s : socket) : socket :=
  Socket st (dial s) (inbox s) (outbox s) (calls s).
Definition set_inbox (i : list packet) (s : socket) : socket :=
  Socket (state s) (dial s) i (outbox s) (calls s).
Definition deliver (b : string) (s : socket) : socket :=
  Socket (state s) (dial s) (inbox s) (outbox s ++ [b]) (calls s).

(** ** The monad of the methods *)

Definition M (A : Type) : Type := World → Res A * World.

#[global] Instance M_ret : MRet M := fun A a w => (Val a, w).
#[global] Instance M_bind : MBind M := fun A B f c w =>
  match c w with
  | (Val a, w') => f a w'
  | (Exc e, w') => (Exc e, w')
  | (OutOfFuel, w') => (OutOfFuel, w')
  end.

Definition raise {A} (e : exn) : M A := fun w => (Exc e, w).
Definition lift {A} (r : Res A) : M A := fun w => (r, w).
Definition modify (f : World → World) : M unit := fun w => (Val tt, f w).
Definition read {A} (f : World → A) : M A := fun w => (Val (f w), w).

(** [try: c  except <the exceptions h catches>: h e] *)
Definition try_except {A} (c : M A) (h : exn → option (M A)) : M A := fun w =>
  match c w with
  | (Exc e, w') => match h e with Some k => k w' | None => (Exc e, w') end
  | r => r
  end.

(** A local variable that is assigned only inside a loop body. *)
Definition local {A} (name : string) (v : option A) : M A :=
  match v with
  | Some a => mret a
  | None => raise (UnboundLocalError name)
  end.

(** ** The socket *)

Module Sock.

(** A send on the socket: the data reaches the peer when the socket is
    connected and the peer has not reset the connection. *)
Definition transmit (c : call) (b : string) : M unit := fun w =>
  let s := record_call c (cli_socket w) in
  match state s with
  | Fresh => (Exc (OSError NotConnected), set_cli_socket s w)
  | Closed => (Exc (OSError BadDescriptor), set_cli_socket s w)
  | Open =>
    match inbox s with
    | Rst :: _ => (Exc (OSError PeerReset), set_cli_socket s w)
    | _ => (Val tt, set_cli_socket (deliver b s) w)
    end
  end.

Definition sendall (b : string) : M unit := transmit (CSendall b) b.

(** [send] of the ten bytes of the notification; they go out in one piece. *)
Definition send (b : string) : M unit := transmit (CSend b) b.

Fixpoint take (n : nat) (s : string) : string :=
  match n, s with
  | S n', String c s' => String c (take n' s')
  | _, _ => EmptyString
  end.

Fixpoint drop (n : nat) (s : string) : string :=
  match n, s with
  | S n', String _ s' => drop n' s'
  | _, _ => s
  end.

(** [recv(n)]: at most [n] bytes of the next segment; the empty [bytes] once the peer
    has closed. *)
Definition recv (n : N) : M string := fun w =>
  let s := record_call (CRecv n) (cli_socket w) in
  match state s with
  | Fresh => (Exc (OSError NotConnected), set_cli_socket s w)
  | Closed => (Exc (OSError BadDescriptor), set_cli_socket s w)
  | Open =>
    match inbox s with
    | [] => (Val EmptyString, set_cli_socket s w)
    | Rst :: _ => (Exc (OSError PeerReset), set_cli_socket s w)
    | Data b :: rest =>
      if (N.of_nat (String.length b) <=? n)%N
      then (Val b, set_cli_socket (set_inbox rest s) w)
      else (Val (take (N.to_nat n) b),
            set_cli_socket (set_inbox (Data (drop (N.to_nat n) b) :: rest) s) w)
    end
  end.

Definition connect : M unit := fun w =>
  let s := record_call CConnect (cli_socket w) in
  match state s with
  | Closed => (Exc (OSError BadDescriptor), set_cli_socket s w)
  | Open => (Exc (OSError AlreadyConnected), set_cli_socket s w)
  | Fresh =>
    match dial s with
    | Accepts => (Val tt, set_cli_socket (set_state Open s) w)
    | Rejects e => (Exc (OSError e), set_cli_socket s w)
    end
  end.

Definition close : M unit :=
  modify (fun w => set_cli_socket (set_state Closed (record_call CClose (cli_socket w))) w).

End Sock.

(** ** The working directory *)

Module Os.

(** [filename in os.listdir(os.getcwd())] *)
Definition in_listdir (filename : string) : M bool :=
  read (fun w => bool_decide (is_Some (cwd w !! filename))).

(** [os.path.isdir('%s/%s' % (os.getcwd(), filename))] *)
Definition path_isdir (filename : string) : M bool :=
  read (fun w => match cwd w !! filename with Some e => isdir e | None => false end).

(** [os.path.getsize('%s/%s' % (os.getcwd(), filename))] *)
Definition path_getsize (filename : string) : M Z := fun w =>
  match cwd w !! filename with
  | Some e => (Val (st_size e), w)
  | None => (Exc (OSError NoSuchFile), w)
  end.

End Os.

(** A file opened for reading is the part of its content not yet read; a
    file opened for writing is known by its name. *)
Module File.

(** [open(os.getcwd() + '/' + filename, 'rb')] *)
Definition open_rb (filename : string) : M string := fun w =>
  match cwd w !! filename with
  | Some e => if isdir e then (Exc (OSError IsADirectory), w) else (Val (content e), w)
  | None => (Exc (OSError NoSuchFile), w)
  end.

(** [upload.read(4096)]: the bytes read and the rest of the file. *)
Definition read_chunk (n : N) (rest : string) : string * string :=
  (Sock.take (N.to_nat n) rest, Sock.drop (N.to_nat n) rest).

(** [c in s] for a byte [c]. *)
Fixpoint has_byte (c : ascii) (s : string) : bool :=
  match s with
  | EmptyString => false
  | String c' s' => Ascii.eqb c c' || has_byte c s'
  end.

(** The names "." and "..", which are directories everywhere. *)
Definition dot_name (filename : string) : bool :=
  String.eqb filename "." || String.eqb filename "..".

(** [open(filename, 'wb')]: creates the file, or empties the one there is.
    A name with a NUL is refused by Python (ValueError), the empty name by
    the system (FileNotFoundError).  A name with a "/" is a path: the file
    system beyond the directory answers, and a file it creates is not in
    the listing.  Of the other names, "." and ".." are directories, and a
    name of more than 255 bytes is too long for an entry. *)
Definition open_wb (filename : string) : M unit := fun w =>
  if has_byte (ascii_of_nat 0) filename then (Exc ValueError, w)
  else if String.eqb filename EmptyString then (Exc (OSError NoSuchFile), w)
  else if has_byte "/" filename then
    match beyond w filename with
    | Some e => (Exc e, w)
    | None => (Val tt, w)
    end
  else if dot_name filename then (Exc (OSError IsADirectory), w)
  else if (255 <? Z.of_nat (String.length filename))%Z then (Exc (OSError NameTooLong), w)
  else
    match cwd w !! filename with
    | Some e =>
      if isdir e then (Exc (OSError IsADirectory), w)
      else (Val tt, set_cwd (<[filename := Entry false 0 EmptyString]> (cwd w)) w)
    | None => (Val tt, set_cwd (<[filename := Entry false 0 EmptyString]> (cwd w)) w)
    end.

Definition append (data : string) (e : entry) : entry :=
  Entry (isdir e) (st_size e + Py.len_bytes data) (content e ++ data).

(** [download_file.write(data)], for the file that [open_wb] opened under
    this name: the bytes are added to its entry (a file beyond the directory
    has none). *)
Definition write (filename data : string) : M unit :=
  modify (fun w => set_cwd (alter (append data) filename (cwd w)) w).

End File.

(** ** The client *)

Definition protocol_errors : gmap string string :=
  list_to_map [
    ("FileAlreadyExists", "File already exists in current directory");
    ("FileNotFound", "File could not be found in current directory");
    ("FileTooLarge", "File is too large to transfer (over 5GB in size)");
    ("FileZeroSized", "File is a zero-sized file (does not contain data)");
    ("FileNameTooLong", "Filename of file is too long (over 255 chars)");
    ("FileIsDirectory", "File is actually a directory (folder containing files)")
  ].

Definition protocol_messages : gmap string string :=
  list_to_map [
    ("FileOkTransfer", "No existing file present, OK to create new file.");
    ("FileSizeReceived",
     "The filesize of file being transferred has successfully been received.")
  ].

(** [key in d] *)
Definition contains (d : gmap string string) (key : string) : bool :=
  bool_decide (is_Some (d !! key)).

(** [d[key]] *)
Definition item (d : gmap string string) (key : string) : M string :=
  match d !! key with
  | Some v => mret v
  | None => raise KeyError
  end.

(** [logging.info]: the line goes to the log file (its date is left out). *)
Definition logging_info (line : string) : M unit :=
  modify (fun w => set_logfile (logfile w ++ [line]) w).

(** [print(line, end=e)] *)
Definition print (line e : string) : M unit :=
  modify (fun w => set_console (console w ++ [line ++ e]) w).

Definition newline : string := String (ascii_of_nat 10) EmptyString.
Definition cr : string := String (ascii_of_nat 13) EmptyString.
Definition tab : string := String (ascii_of_nat 9) EmptyString.

(** [except OSError: pass] *)
Definition except_OSError_pass (e : exn) : option (M unit) :=
  match e with
  | OSError _ => Some (mret tt)
  | _ => None
  end.

(** [log] and [disconnect] call each other.  [log_with d] is the body of
    [log] with [d] for the call of [self.disconnect()]. *)
Definition log_with (self_disconnect : M unit) (ctype message : string) : M unit :=
  let line := "[" ++ ctype ++ "] " ++ message in
  logging_info line;;
  if String.eqb ctype "ERR" then
    try_except self_disconnect except_OSError_pass;;
    raise (SystemExit ("[ERR] " ++ message))
  else print line newline.

(** In [disconnect] the call of [log] has the type "DIS", for which [log]
    does not reach its call of [disconnect]. *)
Definition disconnect : M unit :=
  c ← read connected;
  if c : bool then
    modify (set_connected false);;
    Sock.send "DISCONNECT";;
    log_with (mret tt) "DIS" "Disconnected from server."
  else mret tt.

Definition log : string → string → M unit := log_with disconnect.

Definition connect_handler (e : exn) : option (M unit) :=
  match e with
  | OSError (Gaierror msg) | OSError (Refused msg) =>
    Some (Sock.close;;
          h ← read host; p ← read port;
          log "ERR" ("An error occurred when connecting to host " ++ h ++ ":"
                     ++ Py.str p ++ newline ++ msg))
  | _ => None
  end.

Definition connect : M unit :=
  try_except
    (Sock.connect;;
     h ← read host; p ← read port;
     log "CON" ("Successfully connected to server at: " ++ h ++ ":" ++ Py.str p);;
     modify (set_connected true))
    connect_handler.

Definition dquote : string := String (ascii_of_nat 34) EmptyString.

(** Truth value of a [bytes] object. *)
Definition nonempty (b : string) : bool :=
  match b with
  | EmptyString => false
  | String _ _ => true
  end.

(** The loop [while data:] of [put_file].  [upload] is the part of the file
    not yet read; the loop returns [current_size], which is assigned only in
    its body. *)
Fixpoint upload_loop (fuel : nat) (filename max_size data upload : string)
    (bytes_sent : Z) (current_size : option string) : M (option string) :=
  if nonempty data then
    match fuel with
    | O => lift OutOfFuel
    | S fuel' =>
      let bytes_sent := (bytes_sent + Py.len_bytes data)%Z in
      current_size ← lift (get_filesize bytes_sent);
      print ("[UPL] Uploading '" ++ filename ++ "' [" ++ current_size ++ " / "
             ++ max_size ++ "]" ++ tab) cr;;
      Sock.sendall data;;
      let '(data', upload') := File.read_chunk 4096 upload in
      upload_loop fuel' filename max_size data' upload' bytes_sent (Some current_size)
    end
  else mret current_size.

(** The fuel of the upload loop is the length of the file: each turn sends
    at least one byte of it. *)
Definition put_file (filename : string) : M unit :=
  listed ← Os.in_listdir filename;
  if negb listed then
    Sock.sendall "FileNotFound";;
    d ← item protocol_errors "FileNotFound";
    log "ERR" ("FileNotFound: " ++ d ++ " (server).")
  else if (255 <? Py.len filename)%Z then
    Sock.sendall "FileNameTooLong";;
    d ← item protocol_errors "FileNameTooLong";
    log "ERR" ("FileNameTooLong: " ++ d)
  else
    is_directory ← Os.path_isdir filename;
    if is_directory : bool then
      Sock.sendall "FileIsDirectory";;
      d ← item protocol_errors "FileIsDirectory";
      log "ERR" ("FileIsDirectory: " ++ d)
    else
      size ← Os.path_getsize filename;
      if (5368709120 <? size)%Z then
        Sock.sendall "FileTooLarge";;
        d ← item protocol_errors "FileTooLarge";
        log "ERR" ("FileTooLarge: " ++ d)
      else
        size ← Os.path_getsize filename;
        if (size =? 0)%Z then
          Sock.sendall "FileZeroSized";;
          d ← item protocol_errors "FileZeroSized";
          log "ERR" ("FileZeroSized: " ++ d)
        else
          log "OK!" ("File '" ++ filename
                     ++ "' found in client directory. Sending server total file-size.");;
          connect;;
          Sock.sendall (Py.encode ("PUT " ++ filename));;
          raw ← Sock.recv 24;
          response ← lift (Py.decode raw);
          if contains protocol_errors response then
            d ← item protocol_errors response;
            log "ERR" ("Server response: " ++ dquote ++ response ++ dquote ++ " - " ++ d)
          else if contains protocol_messages response then
            size ← Os.path_getsize filename;
            let filesize := Py.str size in
            Sock.sendall (Py.encode filesize);;
            n ← lift (Py.int filesize);
            max_size ← lift (get_filesize n);
            let bytes_sent := 0%Z in
            upload ← File.open_rb filename;
            let '(data, upload') := File.read_chunk 4096 upload in
            current_size ← upload_loop (String.length upload) filename max_size
                                       data upload' bytes_sent None;
            current_size ← local "current_size" current_size;
            log "UPL" ("Upload Complete '" ++ filename ++ "' [" ++ current_size
                       ++ " / " ++ max_size ++ "]")
          else mret tt.

(** The loop [while bytes_collected < file_size] of [get_file]; it returns
    [bytes_collected] and [current_size]. *)
Fixpoint download_loop (fuel : nat) (filename max_size : string) (file_size : Z)
    (bytes_collected : Z) (current_size : option string) : M (Z * option string) :=
  if (bytes_collected <? file_size)%Z then
    match fuel with
    | O => lift OutOfFuel
    | S fuel' =>
      data ← Sock.recv 4096;
      let bytes_collected := (bytes_collected + Py.len_bytes data)%Z in
      current_size ← lift (get_filesize bytes_collected);
      File.write filename data;;
      print ("[DWN] Downloading '" ++ filename ++ "' [" ++ current_size ++ " / "
             ++ max_size ++ "]") cr;;
      download_loop fuel' filename max_size file_size bytes_collected (Some current_size)
    end
  else mret (bytes_collected, current_size).

(** [fuel] bounds the turns of the receive loop.  A write goes to the file
    at once, so [download_file.close()] has nothing left to do. *)
Definition get_file (fuel : nat) (filename : string) : M unit :=
  log "CMD" ("Invoking Server Protocol 'GET' command with filename: " ++ filename);;
  listed ← Os.in_listdir filename;
  (if listed : bool then
     d ← item protocol_errors "FileAlreadyExists";
     log "ERR" ("FileAlreadyExists: " ++ d ++ " (client).")
   else mret tt);;
  connect;;
  Sock.sendall (Py.encode ("GET " ++ filename));;
  raw ← Sock.recv 1024;
  response ← lift (Py.decode raw);
  (if contains protocol_errors response then
     d ← item protocol_errors response;
     log "ERR" ("Server response: " ++ dquote ++ response ++ dquote ++ " - " ++ d)
   else if contains protocol_messages response then
     d ← item protocol_messages response;
     log "OK!" ("Server response: " ++ dquote ++ response ++ dquote ++ " - " ++ d)
   else mret tt);;
  file_size ← lift (Py.int response);
  let bytes_collected := 0%Z in
  max_size ← lift (get_filesize file_size);
  File.open_wb filename;;
  '(bytes_collected, current_size) ←
    download_loop fuel filename max_size file_size bytes_collected None;
  current_size ← local "current_size" current_size;
  log "DWN" ("Download Complete '" ++ filename ++ "' [" ++ current_size ++ " / "
             ++ max_size ++ "]");;
  dir ← read getcwd;
  log "OK!" ("File saved to: " ++ dir ++ "/" ++ filename).

Definition show_list : M unit :=
  log "CMD" "Invoking Server Protocol 'LIST' command.";;
  connect;;
  Sock.sendall (Py.encode "LIST");;
  response ← Sock.recv 16384;
  if nonempty response then
    text ← lift (Py.decode response);
    log "OK!" ("Server responded with:" ++ newline ++ text)
  else log "ERR" "Server responded without a file list.".

(** The bound methods of [self.protocol_commands]. *)
Inductive method : Type :=
  | Bound_put_file
  | Bound_get_file
  | Bound_show_list.

Definition protocol_commands : gmap string method :=
  list_to_map [("put", Bound_put_file); ("get", Bound_get_file); ("list", Bound_show_list)].

(** [self.command[i]] *)
Definition command_at (i : nat) : M string := fun w =>
  match command w !! i with
  | Some s => (Val s, w)
  | None => (Exc IndexError, w)
  end.

(** [self.protocol_commands[name]] *)
Definition command_method (name : string) : M method :=
  match protocol_commands !! name with
  | Some m => mret m
  | None => raise KeyError
  end.

(** [start]; [fuel] bounds the receive loop of a download.  The call of
    [self.disconnect()] that ends the source of [start] is commented out
    there, and so has no counterpart here. *)
Definition start (fuel : nat) : M unit :=
  log "OK!" "Client startup initialised.";;
  name ← command_at 0;
  if String.eqb name "list" then
    m ← command_method name;
    match m with
    | Bound_show_list => show_list
    | _ => raise TypeError
    end
  else
    m ← command_method name;
    filename ← command_at 1;
    match m with
    | Bound_put_file => put_file filename
    | Bound_get_file => get_file fuel filename
    | Bound_show_list => raise TypeError
    end.

(** ** The constructor and the program

    [__init__] checks its three arguments before it assigns
    [self.connected], and the checks report a bad argument through [log],
    whose fatal branch calls [disconnect], which reads [self.connected].
    The object under construction is therefore a world together with the
    knowledge of whether that attribute exists yet; reading it before it is
    assigned raises AttributeError.  The fields of the world that are not
    assigned yet hold the values of the world the constructor starts from;
    nothing reads them before they are assigned. *)

(** Methods of [str], for a [str] made of ASCII characters.  (Python knows
    also the letters and digits of other scripts; no character outside
    ASCII has a lower-case form that occurs in "localhost", "list", "put"
    or "get".) *)
Module Str.

Definition lower_char (c : ascii) : ascii :=
  let n := N_of_ascii c in
  if ((65 <=? n) && (n <=? 90))%N then ascii_of_N (n + 32) else c.

(** [s.lower()] *)
Fixpoint lower (s : string) : string :=
  match s with
  | EmptyString => EmptyString
  | String c s' => String (lower_char c) (lower s')
  end.

Fixpoint all_digits (s : string) : bool :=
  match s with
  | EmptyString => true
  | String c s' => Py.in_range 48 57 c && all_digits s'
  end.

(** [s.isdigit()]: at least one character, and digits only. *)
Definition isdigit (s : string) : bool := nonempty s && all_digits s.

(** [c in s] for a character [c]. *)
Fixpoint has_char (c : ascii) (s : string) : bool :=
  match s with
  | EmptyString => false
  | String c' s' => Ascii.eqb c c' || has_char c s'
  end.

End Str.

(** A character of the class [[a-zA-Z0-9_.-]]. *)
Definition host_char (c : ascii) : bool :=
  Py.in_range 97 122 c || Py.in_range 65 90 c || Py.in_range 48 57 c
  || Ascii.eqb c "_" || Ascii.eqb c "." || Ascii.eqb c "-".

(** [re.match(r"^[a-zA-Z0-9_.-]*$", host)]: characters of the class up to
    the end of the string; [$] matches also before a newline that ends the
    string. *)
Fixpoint host_pattern (host : string) : bool :=
  match host with
  | EmptyString => true
  | String c rest =>
    if host_char c then host_pattern rest
    else Ascii.eqb c (ascii_of_nat 10) && negb (nonempty rest)
  end.

Definition EXAMPLE_INPUT : string :=
  newline
  ++ " - Example input: python client.py <domain/ip> <port> <put filename|get filename|list>".

(** What can end [__init__] and the program: an exception of the methods,
    or the AttributeError of an attribute that is read before it exists. *)
Inductive init_exn : Type :=
  | Raised (e : exn)
  | AttributeError (attr : string).

Inductive IRes (A : Type) : Type :=
  | IVal (a : A)
  | IExc (e : init_exn)
  | IOutOfFuel.
Arguments IVal {A} a.
Arguments IExc {A} e.
Arguments IOutOfFuel {A}.

Record object : Type := Object {
  fields : World;           (* the attributes, and the world around them *)
  has_connected : bool      (* [self.connected] has been assigned *)
}.

Definition Init (A : Type) : Type := object → IRes A * object.

#[global] Instance Init_ret : MRet Init := fun A a o => (IVal a, o).
#[global] Instance Init_bind : MBind Init := fun A B f c o =>
  match c o with
  | (IVal a, o') => f a o'
  | (IExc e, o') => (IExc e, o')
  | (IOutOfFuel, o') => (IOutOfFuel, o')
  end.

Definition init_raise {A} (e : init_exn) : Init A := fun o => (IExc e, o).

(** A computation of the methods, run on the object. *)
Definition run {A} (c : M A) : Init A := fun o =>
  match c (fields o) with
  | (Val a, w) => (IVal a, Object w (has_connected o))
  | (Exc e, w) => (IExc (Raised e), Object w (has_connected o))
  | (OutOfFuel, w) => (IOutOfFuel, Object w (has_connected o))
  end.

Definition init_try_except {A} (c : Init A) (h : init_exn → option (Init A)) : Init A :=
  fun o =>
  match c o with
  | (IExc e, o') => match h e with Some k => k o' | None => (IExc e, o') end
  | r => r
  end.

(** [except OSError: pass] *)
Definition init_except_OSError_pass (e : init_exn) : option (Init unit) :=
  match e with
  | Raised (OSError _) => Some (mret tt)
  | _ => None
  end.

(** The lookup of [self.connected]. *)
Definition self_connected : Init bool := fun o =>
  if has_connected o then (IVal (connected (fields o)), o)
  else (IExc (AttributeError "connected"), o).

(** [self.connected = b] *)
Definition assign_connected (b : bool) : Init unit := fun o =>
  (IVal tt, Object (set_connected b (fields o)) true).

(** [self.disconnect()] on the object: the test [if self.connected] looks
    the attribute up, and the method goes on as [disconnect] does. *)
Definition init_disconnect : Init unit :=
  self_connected;; run disconnect.

(** [self.log(ctype, message)] on the object. *)
Definition init_log (ctype message : string) : Init unit :=
  let line := "[" ++ ctype ++ "] " ++ message in
  run (logging_info line);;
  if String.eqb ctype "ERR" then
    init_try_except init_disconnect init_except_OSError_pass;;
    init_raise (Raised (SystemExit ("[ERR] " ++ message)))
  else run (print line newline).

Definition set_host (h : string) (w : World) : World :=
  MkWorld h (port w) (command w) (connected w) (cli_socket w) (getcwd w) (cwd w)
          (logfile w) (console w) (beyond w).
Definition set_port (p : Z) (w : World) : World :=
  MkWorld (host w) p (command w) (connected w) (cli_socket w) (getcwd w) (cwd w)
          (logfile w) (console w) (beyond w).
Definition set_command (c : list string) (w : World) : World :=
  MkWorld (host w) (port w) c (connected w) (cli_socket w) (getcwd w) (cwd w)
          (logfile w) (console w) (beyond w).

Definition check_command (command : list string) : Init (list string) :=
  first ← match command !! 0%nat with
          | Some s => mret s
          | None => init_raise (Raised IndexError)
          end;
  let cmd_type := Str.lower first in
  (if negb (bool_decide (cmd_type ∈ ["list"; "put"; "get"])) then
     init_log "ERR" ("The parameter " ++ cmd_type
                     ++ " is not supported by this client. Try: " ++ EXAMPLE_INPUT)
   else mret tt);;
  (if (String.eqb cmd_type "put" || String.eqb cmd_type "get")
      && negb (length command =? 2)%nat then
     init_log "ERR" ("The " ++ dquote ++ cmd_type ++ dquote
                     ++ " command must be followed by the <filename> field. Try: "
                     ++ EXAMPLE_INPUT)
   else mret tt);;
  mret command.

Definition check_host (host : string) : Init string :=
  (if negb (String.eqb (Str.lower host) "localhost")
      && (Str.has_char " " host || negb (host_pattern host)) then
     init_log "ERR"
       (("The domain/IP address provided contains spaces and/or special characters. "
         ++ "Allowed characters: letters, numbers, periods, dashes and underscores."))
   else mret tt);;
  mret host.

Definition check_port (port : string) : Init Z :=
  (if negb (Str.isdigit port)
      || negb ((1 <=? Py.len port)%Z && (Py.len port <=? 5)%Z) then
     init_log "ERR" ("The port parameter that has been provided is too short/long "
                     ++ "or is not a numerical value")
   else mret tt);;
  n ← run (lift (Py.int port));
  (if (n <? 0)%Z then
     init_log "ERR"
       "The port parameter that has been provided is not a positive numerical value"
   else mret tt);;
  n ← run (lift (Py.int port));
  mret n.

(** [socket.socket(socket.AF_INET, socket.SOCK_STREAM)]: a socket on which
    nothing has been called; what the network will answer to it is part of
    the world. *)
Definition new_socket (w : World) : socket :=
  Socket Fresh (dial (cli_socket w)) (inbox (cli_socket w)) [] [].

(** The listing of a directory in which client.log has been opened for
    appending: the file is created, empty, when it was not there. *)
Definition with_client_log (d : gmap string entry) : gmap string entry :=
  match d !! "client.log" with
  | Some _ => d
  | None => <["client.log" := Entry false 0 EmptyString]> d
  end.

(** [logging.basicConfig(filename='client.log', level=logging.DEBUG)]: the
    log file is opened at once, in the working directory, whose listing
    shows it from then on.  What is logged is kept in [logfile].  (An entry
    named client.log is taken to be a file.) *)
Definition logging_basicConfig : M unit :=
  modify (fun w => set_cwd (with_client_log (cwd w)) w).

(** [FTPClient(host, port, command)].  The three tables that [__init__]
    assigns last are the constants [protocol_commands], [protocol_errors]
    and [protocol_messages]. *)
Definition __init__ (host port : string) (command : list string) : Init unit :=
  run logging_basicConfig;;
  run (modify (fun w => set_cli_socket (new_socket w) w));;
  h ← check_host host;
  run (modify (set_host h));;
  p ← check_port port;
  run (modify (set_port p));;
  c ← check_command command;
  run (modify (set_command c));;
  assign_connected false.

(** [sys.argv[i]] *)
Definition argv_at (argv : list string) (i : nat) : Init string :=
  match argv !! i with
  | Some s => mret s
  | None => init_raise (Raised IndexError)
  end.

(** The program: [python client.py ...] with the command line [argv]; [fuel]
    bounds the receive loop of a download. *)
Definition main (argv : list string) (fuel : nat) : Init unit :=
  if (length argv <? 4)%nat then
    init_raise (Raised (SystemExit ("[ERR] The domain/IP and port parameters are required:"
                                    ++ newline ++ EXAMPLE_INPUT)))
  else
    host ← argv_at argv 1;
    port ← argv_at argv 2;
    __init__ host port (drop 3 argv);;
    run (start fuel).

(** * Vocabulary of the statements

    The definitions below are not part of the client: they name the worlds,
    the messages and the properties the theorems speak of. *)

(** ** Sizes *)

Local Open Scope Z_scope.

(** The integers from this limit on are too large for a float:
    [float(n)] raises OverflowError. *)
Definition float_limit : Z := 2 ^ 1024 - 2 ^ 970.

(** The number of divisions [get_filesize] makes: one for each of the
    powers 1024^1 .. 1024^5 that the byte count exceeds. *)
Definition divisions (b : Z) : nat :=
  if b <=? 1024 then 0%nat
  else if b <=? 1024 ^ 2 then 1%nat
  else if b <=? 1024 ^ 3 then 2%nat
  else if b <=? 1024 ^ 4 then 3%nat
  else if b <=? 1024 ^ 5 then 4%nat
  else 5%nat.

(** 1024^k as a denominator. *)
Fixpoint pow1024 (k : nat) : positive :=
  match k with
  | O => 1
  | S k' => pow1024 k' * 1024
  end.

(** The byte count after [k] divisions by 1024. *)
Definition scaled (b : Z) (k : nat) : Q := b # pow1024 k.

Definition is_digit (c : ascii) : bool := Py.in_range 48 57 c.

(** A text that ends in a point and two decimal digits. *)
Definition two_decimals (s : string) : Prop :=
  ∃ whole d1 d2,
    s = whole ++ "." ++ String d1 (String d2 EmptyString)
    ∧ is_digit d1 = true ∧ is_digit d2 = true.

Local Close Scope Z_scope.

(** ** Worlds reached by the methods *)

(** The world after a call of [log] that returns. *)
Definition logged (ctype message : string) (w : World) : World :=
  set_console (console w ++ [("[" ++ ctype ++ "] " ++ message) ++ newline])
    (set_logfile (logfile w ++ ["[" ++ ctype ++ "] " ++ message]) w).

(** Why a send on the socket would fail, if it would. *)
Definition send_error (s : socket) : option oserror :=
  match state s with
  | Fresh => Some NotConnected
  | Closed => Some BadDescriptor
  | Open => match inbox s with Rst :: _ => Some PeerReset | _ => None end
  end.

(** The world after [self.disconnect()] has set the flag and called [send]. *)
Definition notified (w : World) : World :=
  set_cli_socket (record_call (CSend "DISCONNECT") (cli_socket w)) (set_connected false w).

(** The world after [try: self.disconnect()  except OSError: pass]. *)
Definition hangup (w : World) : World :=
  if connected w then
    match send_error (cli_socket w) with
    | Some _ => notified w
    | None =>
      logged "DIS" "Disconnected from server."
        (set_cli_socket (deliver "DISCONNECT" (cli_socket (notified w))) (notified w))
    end
  else w.

(** The world after a [connect()] that the server accepts. *)
Definition dialled (w : World) : World :=
  set_connected true
    (logged "CON"
       ("Successfully connected to server at: " ++ host w ++ ":" ++ Py.str (port w))
       (set_cli_socket (set_state Open (record_call CConnect (cli_socket w))) w)).

(** The world after a call of [recv]. *)
Definition listened (n : N) (w : World) : World := (Sock.recv n w).2.

(** What the next [recv] returns on a connected socket: the next segment,
    or nothing when the peer has closed. *)
Definition arrives (response : string) (w : World) : Prop :=
  (∃ rest, inbox (cli_socket w) = Data response :: rest)
  ∨ (response = EmptyString ∧ inbox (cli_socket w) = []).

(** A client on which no method has run yet. *)
Definition fresh_client (w : World) : Prop :=
  connected w = false ∧ state (cli_socket w) = Fresh.

(** A name that [open] takes for an entry of the working directory: not
    empty, at most 255 bytes long, without NUL and without "/", and neither
    "." nor "..". *)
Definition plain_name (filename : string) : Prop :=
  File.has_byte (ascii_of_nat 0) filename = false
  ∧ filename ≠ EmptyString
  ∧ File.has_byte "/" filename = false
  ∧ File.dot_name filename = false
  ∧ (String.length filename <= 255)%nat.

(** ** Lines of the log and of the wire *)

Definition no_list_message : string := "Server responded without a file list.".

Definition get_cmd_line (filename : string) : string :=
  "Invoking Server Protocol 'GET' command with filename: " ++ filename.

Definition get_cmd_logged (filename : string) : string :=
  "[CMD] " ++ get_cmd_line filename.

Definition con_logged (w : World) : string :=
  "[CON] Successfully connected to server at: " ++ host w ++ ":" ++ Py.str (port w).

Definition get_request (filename : string) : string := "GET " ++ filename.

Definition exists_message : string :=
  "FileAlreadyExists: File already exists in current directory (client).".

(** The world in which [get_file] reads the answer of the server. *)
Definition requested (filename : string) (w : World) : World :=
  let w1 := dialled (logged "CMD" (get_cmd_line filename) w) in
  listened 1024
    (set_cli_socket
       (deliver ("GET " ++ filename)
          (record_call (CSendall ("GET " ++ filename)) (cli_socket w1))) w1).

(** ** The history of the calls on the socket *)

(** [ok] selects the calls a computation is allowed to make.  With
    [only_val] the runs that end in an exception are not looked at. *)
Record allows (ok : call → Prop) (only_val : bool) : Prop := Allows {
  allows_connect : ok CConnect;
  allows_close : ok CClose;
  allows_sendall : ∀ b, ok (CSendall b);
  allows_recv : ∀ n, ok (CRecv n);
  allows_notify : only_val = false → ok (CSend "DISCONNECT")
}.

(** The calls a computation adds to the history of the socket: [grows ok w w']
    when the history of [w'] extends that of [w] by calls that satisfy [ok]. *)
Definition grows (ok : call → Prop) (w w' : World) : Prop :=
  ∃ more, calls (cli_socket w') = (calls (cli_socket w) ++ more)%list ∧ Forall ok more.

(** With [only_val] the runs that end in an exception are not looked at. *)
Definition counted (only_val : bool) {A} (r : Res A) : Prop :=
  match r with
  | Val _ => True
  | _ => only_val = false
  end.

Definition emits (ok : call → Prop) (only_val : bool) {A} (c : M A) : Prop :=
  ∀ w, counted only_val (c w).1 → grows ok w (c w).2.

(** A call of [socket.send]; the client has one, in [disconnect]. *)
Definition is_send (c : call) : Prop := ∃ b, c = CSend b.

(** ** The local checks of PUT *)

(** The checks in the order of the specification, each with the token of
    its failure; [e] is the entry of the file in the working directory. *)
Definition put_checks (filename : string) (e : option entry) : list (bool * string) :=
  [ (bool_decide (is_Some e), "FileNotFound");
    ((Py.len filename <=? 255)%Z, "FileNameTooLong");
    (negb (from_option isdir false e), "FileIsDirectory");
    ((from_option st_size 1%Z e <=? 5368709120)%Z, "FileTooLarge");
    (negb (from_option st_size 1%Z e =? 0)%Z, "FileZeroSized") ].

(** The token of the first check that fails. *)
Fixpoint first_failure (checks : list (bool * string)) : option string :=
  match checks with
  | [] => None
  | (passes, token) :: rest => if passes : bool then first_failure rest else Some token
  end.

(** The message of [put_file] for a token. *)
Definition put_message (token d : string) : string :=
  token ++ ": " ++ d ++ (if String.eqb token "FileNotFound" then " (server)." else EmptyString).

(** The outcome of [sendall(token)] followed by a fatal [log], on a client
    whose [connected] flag is not set. *)
Definition rejected (token message : string) (w : World) : Res unit * World :=
  match send_error (cli_socket w) with
  | Some err =>
    (Exc (OSError err), set_cli_socket (record_call (CSendall token) (cli_socket w)) w)
  | None =>
    let w1 := set_cli_socket (deliver token (record_call (CSendall token) (cli_socket w))) w in
    (Exc (SystemExit ("[ERR] " ++ message)),
     set_logfile (logfile w1 ++ ["[ERR] " ++ message]) w1)
  end.

(** ** The chunks of a download *)

(** All the bytes of a list of chunks, and their number. *)
Fixpoint joined (chunks : list string) : string :=
  match chunks with
  | [] => EmptyString
  | c :: rest => c ++ joined rest
  end.

Definition total (chunks : list string) : Z := Py.len_bytes (joined chunks).

Definition progress_line (filename current_size max_size : string) : string :=
  "[DWN] Downloading '" ++ filename ++ "' [" ++ current_size ++ " / " ++ max_size ++ "]".

(** The world after one turn of the loop that received the chunk [c]. *)
Definition turned (filename max_size c current_size : string) (rest : list packet)
    (w : World) : World :=
  let w1 := set_cli_socket (set_inbox rest (record_call (CRecv 4096) (cli_socket w))) w in
  let w2 := set_cwd (alter (File.append c) filename (cwd w1)) w1 in
  set_console (console w2 ++ [progress_line filename current_size max_size ++ cr]) w2.

(** A chunk that one [recv(4096)] returns whole. *)
Definition small_chunk (c : string) : Prop := (N.of_nat (String.length c) <= 4096)%N.

(** The entry of a file after the chunks have been written to it, each in
    full, behind what it held. *)
Definition extended (e : entry) (chunks : list string) : entry :=
  Entry (isdir e) (st_size e + total chunks) (content e ++ joined chunks).

(** ** Concrete worlds *)

(** A file system with nothing beyond the working directory: every path
    leads into a missing directory. *)
Definition no_paths : string → option exn := fun _ => Some (OSError NoSuchFile).

(** A client just built: nothing connected, nothing logged. *)
Definition client (cmd : list string) (dir : gmap string entry) (peer : list packet)
  : World :=
  MkWorld "localhost" 8000 cmd false (Socket Fresh Accepts peer [] []) "/home/user"
          dir [] [] no_paths.

(** A regular file with the content [data]. *)
Definition file_of (data : string) : entry := Entry false (Py.len_bytes data) data.

Fixpoint repeat_char (c : ascii) (n : nat) : string :=
  match n with
  | O => EmptyString
  | S n' => String c (repeat_char c n')
  end.

(** A name of 256 characters. *)
Definition long_name : string := repeat_char "a" 256.

(** GET a.txt, with a.txt already in the directory. *)
Definition holder : World :=
  client ["get"; "a.txt"] {["a.txt" := file_of "abc"]} [Data "3"].

(** A connected client whose peer sends five of its seven bytes late. *)
Definition receiving : World :=
  MkWorld "localhost" 8000 ["get"; "a.txt"] true
          (Socket Open Accepts [Data "abc"; Data "defg"; Data "zzz"] [] [])
          "/home/user" {["a.txt" := file_of EmptyString]} [] [] no_paths.

(** A feed of 1024^4 - 1 bytes: chunks of 4096 bytes and one of 4095. *)
Definition tebibyte_feed : list string :=
  (replicate (N.to_nat 268435455) (repeat_char "a" 4096) ++ [repeat_char "a" 4095])%list.

(** A connected client that downloads a.txt, just opened, from a peer that
    sends the feed and two bytes more. *)
Definition feeding : World :=
  MkWorld "localhost" 8000 ["get"; "a.txt"] true
          (Socket Open Accepts (map Data (tebibyte_feed ++ ["ab"])) [] [])
          "/home/user" {["a.txt" := file_of EmptyString]} [] [] no_paths.

(** PUT of a file of size 0. *)
Definition empty_holder : World :=
  client ["put"; "empty.txt"] {["empty.txt" := file_of EmptyString]} [Data "FileOkTransfer"].

(** PUT of a file that is not in the directory. *)
Definition seeker : World := client ["put"; "missing.txt"] ∅ [Data "FileOkTransfer"].

(** GET a.txt, to a server that sends [answer]. *)
Definition asker (answer : list packet) : World := client ["get"; "a.txt"] ∅ answer.

(** LIST, to a server that sends [answer]. *)
Definition lister (answer : list packet) : World := client ["list"] ∅ answer.

(** PUT of a file whose name has 256 characters. *)
Definition long_holder : World :=
  client ["put"; long_name] {[long_name := file_of "abc"]} [Data "FileOkTransfer"].

(** ** The answer of the server to a request *)

(** The message of a fatal answer of the server. *)
Definition server_error_message (response d : string) : string :=
  "Server response: " ++ dquote ++ response ++ dquote ++ " - " ++ d.

(** ** Lines and worlds of PUT *)

Definition put_ok_line (filename : string) : string :=
  "File '" ++ filename ++ "' found in client directory. Sending server total file-size.".

Definition put_request (filename : string) : string := "PUT " ++ filename.

(** An entry that passes the local checks of [put_file] under the name
    [filename]. *)
Definition uploadable (filename : string) (e : entry) : Prop :=
  (Py.len filename <= 255)%Z
  ∧ isdir e = false
  ∧ (st_size e <= 5368709120)%Z
  ∧ st_size e ≠ 0%Z.

(** The world in which [put_file] reads the answer of the server. *)
Definition offered (filename : string) (w : World) : World :=
  let w1 := dialled (logged "OK!" (put_ok_line filename) w) in
  listened 24
    (set_cli_socket
       (deliver ("PUT " ++ filename)
          (record_call (CSendall ("PUT " ++ filename)) (cli_socket w1))) w1).



(** ** Decimal numerals *)


(** ** Lines of [connect] *)

(** The message of a refused connection; [cause] is the text of the
    exception. *)
Definition refusal_message (w : World) (cause : string) : string :=
  "An error occurred when connecting to host " ++ host w ++ ":" ++ Py.str (port w)
  ++ newline ++ cause.

(** The world after a [connect()] that was refused for [cause]. *)
Definition turned_away (cause : string) (w : World) : World :=
  let s := set_state Closed (record_call CClose (record_call CConnect (cli_socket w))) in
  set_logfile (logfile w ++ ["[ERR] " ++ refusal_message w cause]) (set_cli_socket s w).

(** The text of the two exceptions that [connect] catches. *)
Definition caught_cause (e : oserror) : option string :=
  match e with
  | Refused msg | Gaierror msg => Some msg
  | _ => None
  end.

(** ** The place of DISCONNECT in a run *)

(** The calls [more] of a run that ended in [r]: none of them is a [send],
    or the run ended in SystemExit and its last call, and no other, was the
    [send] of DISCONNECT. *)
Definition farewell {A} (r : Res A) (more : list call) : Prop :=
  Forall (λ c, ¬ is_send c) more
  ∨ ∃ msg pre,
      r = Exc (SystemExit msg)
      ∧ more = (pre ++ [CSend "DISCONNECT"])%list
      ∧ Forall (λ c, ¬ is_send c) pre.

Definition notifies_last {A} (c : M A) : Prop :=
  ∀ w, ∃ more,
    calls (cli_socket (c w).2) = (calls (cli_socket w) ++ more)%list
    ∧ farewell (c w).1 more.

(** ** The arguments of the program *)

(** A [str] of ASCII characters. *)
Fixpoint ascii_only (s : string) : bool :=
  match s with
  | EmptyString => true
  | String c s' => Py.in_range 0 127 c && ascii_only s'
  end.

(** A port as [check_port] accepts it: one to five decimal digits. *)
Definition port_text (port : string) : Prop :=
  Str.all_digits port = true ∧ (1 <= String.length port <= 5)%nat.

(** The object after a fatal [log] that met the missing attribute: the line
    is in client.log and nothing else has changed. *)
Definition blamed (message : string) (o : object) : object :=
  Object (set_logfile (logfile (fields o) ++ ["[ERR] " ++ message]) (fields o))
         (has_connected o).

Definition port_message : string :=
  "The port parameter that has been provided is too short/long or is not a numerical value".

Definition host_message : string :=
  "The domain/IP address provided contains spaces and/or special characters. "
  ++ "Allowed characters: letters, numbers, periods, dashes and underscores.".

Fixpoint all_host_chars (s : string) : bool :=
  match s with
  | EmptyString => true
  | String c s' => host_char c && all_host_chars s'
  end.

(** A host as the message of [check_host] describes it: letters, digits,
    periods, dashes and underscores; or "localhost" in any case. *)
Definition host_text (host : string) : Prop :=
  Str.lower host = "localhost" ∨ all_host_chars host = true.

(** A command line after the port: LIST, or PUT or GET with one file name,
    the name of the command in any case. *)
Definition command_text (command : list string) : Prop :=
  ∃ name args,
    command = name :: args
    ∧ (Str.lower name = "list"
       ∨ ((Str.lower name = "put" ∨ Str.lower name = "get") ∧ length args = 1%nat)).

(** The world in which [__init__] makes its checks: the log file is open
    and the socket is new. *)
Definition wired (w : World) : World :=
  set_cli_socket (new_socket w) (set_cwd (with_client_log (cwd w)) w).

(** The world of the client that [__init__] builds in the world [w]. *)
Definition built (h : string) (p : Z) (c : list string) (w : World) : World :=
  MkWorld h p c false (new_socket w) (getcwd w) (with_client_log (cwd w)) (logfile w)
          (console w) (beyond w).

Definition startup_line : string := "Client startup initialised.".

(** ** More concrete worlds *)

(** PUT a.txt, a file of three bytes, to a server that sends [answer]. *)
Definition uploader (answer : list packet) : World :=
  client ["put"; "a.txt"] {["a.txt" := file_of "abc"]} answer.

(** LIST, to a server whose connection fails with [e]. *)
Definition unreachable (e : oserror) : World :=
  MkWorld "localhost" 8000 ["list"] false (Socket Fresh (Rejects e) [] [] [])
          "/home/user" ∅ [] [] no_paths.

(** The object [__init__] starts from, in an empty directory and with a
    server that accepts the connection and says nothing. *)
Definition unbuilt : object := Object (client [] ∅ []) false.

(** A byte that no UTF-8 text contains. *)
Definition byte_ff : string := String (ascii_of_nat 255) EmptyString.

(** * Lemmas and theorems *)

(** ** get_filesize *)

Local Open Scope Z_scope.

Lemma nearest_double_small n : (0 <= n < 2 ^ 53)%Z → Py.nearest_double n = n.
Proof.
  intros [_ H]. unfold Py.nearest_double.
  destruct (Z.ltb_spec n (2 ^ 53)); [reflexivity | lia].
Qed.

Lemma round_half_even_bounds n d :
  (0 <= n)%Z → (0 < d)%Z →
  (n / d <= Py.round_half_even n d <= n / d + 1)%Z.
Proof.
  intros Hn Hd. unfold Py.round_half_even.
  destruct (_ || _); lia.
Qed.

(** Below the limit an integer rounds to a finite double, and rounding does
    not take an integer of at least 2^53 below 2^53. *)
Lemma nearest_double_large n :
  (2 ^ 53 <= n < float_limit)%Z →
  (2 ^ 53 <= Py.nearest_double n < 2 ^ 1024)%Z.
Proof.
  intros [Hlo Hhi]. unfold Py.nearest_double.
  destruct (Z.ltb_spec n (2 ^ 53)); [lia |].
  assert (Hn : (0 < n)%Z) by (pose proof (Z.pow_pos_nonneg 2 53); lia).
  pose proof (Z.log2_spec n Hn) as [Hl Hu].
  assert (H53 : (53 <= Z.log2 n)%Z) by (apply Z.log2_le_pow2; lia).
  assert (H1023 : (Z.log2 n <= 1023)%Z).
  { assert (Z.log2 n < 1024)%Z; [| lia].
    apply Z.log2_lt_pow2; [lia |]. unfold float_limit in Hhi.
    pose proof (Z.pow_pos_nonneg 2 970). lia. }
  set (e := (Z.log2 n - 52)%Z) in *.
  assert (He : (1 <= e <= 971)%Z) by lia.
  assert (HP : (0 < 2 ^ e)%Z) by (apply Z.pow_pos_nonneg; lia).
  replace (Z.log2 n) with (52 + e)%Z in Hl by lia.
  replace (Z.succ (Z.log2 n)) with (53 + e)%Z in Hu by lia.
  rewrite Z.pow_add_r in Hl, Hu by lia.
  pose proof (round_half_even_bounds n (2 ^ e) ltac:(lia) HP) as [Hq1 Hq2].
  pose proof (Z.div_mod n (2 ^ e) ltac:(lia)) as Hdm.
  pose proof (Z.mod_pos_bound n (2 ^ e) HP) as Hr.
  assert (Hq : (2 ^ 52 <= n / 2 ^ e < 2 ^ 53)%Z).
  { split; [apply Z.div_le_lower_bound; lia | apply Z.div_lt_upper_bound; lia]. }
  clearbody e. clear Hlo H53 H1023.
  split.
  - assert (2 ^ e >= 2)%Z.
    { change 2%Z with (2 ^ 1)%Z at 2. apply Z.le_ge, Z.pow_le_mono_r; lia. }
    change (2 ^ 53)%Z with (2 ^ 52 * 2)%Z. nia.
  - destruct (Z.eq_dec e 971%Z) as [-> | Hne].
    + unfold float_limit in Hhi. unfold Py.round_half_even.
      set (q := (n / 2 ^ 971)%Z) in *. set (r := (n mod 2 ^ 971)%Z) in *.
      destruct (Z.eq_dec q (2 ^ 53 - 1)%Z) as [Hqe | Hqne].
      * assert (Hr' : (r < 2 ^ 970)%Z).
        { rewrite Hqe in Hdm. 
          assert (2 ^ 1024 = 2 ^ 971 * 2 ^ 53)%Z by reflexivity.
          assert (2 ^ 971 = 2 * 2 ^ 970)%Z by reflexivity. lia. }
        assert (2 ^ 971 = 2 * 2 ^ 970)%Z by reflexivity.
        destruct (Z.ltb_spec (2 ^ 971) (2 * r)); [lia |].
        destruct (Z.eqb_spec (2 ^ 971) (2 * r)); [lia |]. simpl.
        assert (2 ^ 1024 = 2 ^ 971 * 2 ^ 53)%Z by reflexivity. nia.
      * assert (2 ^ 1024 = 2 ^ 971 * 2 ^ 53)%Z by reflexivity.
        destruct (_ || _); nia.
    + assert (2 ^ e <= 2 ^ 970)%Z by (apply Z.pow_le_mono_r; lia).
      assert (2 ^ 1024 = 2 ^ 970 * 2 ^ 53 * 2)%Z by reflexivity.
      nia.
Qed.

(** [float(b)] for a natural number below the limit: exact up to 2^53. *)
Lemma float_of_int_nonneg b :
  (0 <= b < float_limit)%Z →
  ∃ m, Py.float_of_int b = Val (inject_Z m)
       ∧ ((b < 2 ^ 53)%Z → m = b) ∧ ((2 ^ 53 <= b)%Z → (2 ^ 53 <= m)%Z).
Proof.
  intros [H0 Hlim]. unfold Py.float_of_int.
  rewrite Z.abs_eq by lia.
  destruct (Z_lt_le_dec b (2 ^ 53)) as [Hs | Hl].
  - exists b. rewrite nearest_double_small by lia.
    assert (2 ^ 53 < 2 ^ 1024)%Z by reflexivity.
    destruct (Z.leb_spec (2 ^ 1024) b); [lia |].
    split; [| split; [reflexivity | lia]].
    do 2 f_equal. destruct (Z.eq_dec b 0) as [-> | ]; [reflexivity |].
    rewrite Z.sgn_pos by lia. lia.
  - pose proof (nearest_double_large b ltac:(lia)) as [Hm1 Hm2].
    exists (Py.nearest_double b).
    destruct (Z.leb_spec (2 ^ 1024) (Py.nearest_double b)); [lia |].
    split; [| split; [lia | intros _; exact Hm1]].
    assert (0 < 2 ^ 53)%Z by reflexivity.
    rewrite Z.sgn_pos by lia. do 2 f_equal. lia.
Qed.

Lemma Qdiv_1024 m d : ((m # d) / (1024 # 1))%Q = (m # d * 1024).
Proof. unfold Qdiv, Qmult, Qinv. simpl. rewrite Z.mul_1_r. reflexivity. Qed.

(** One turn of the loop of [get_filesize], on an [int] and on a [float]. *)
Lemma loop_int fuel b i :
  get_filesize_loop (S fuel) (Py.Int b) i =
    if (1024 <? b)%Z && (i <? 5)%nat
    then x ← Py.float_of_int b; get_filesize_loop fuel (Py.Float (x / (1024 # 1))%Q) (S i)
    else Val (Py.Int b, i).
Proof.
  simpl. destruct (_ && _); [| reflexivity].
  destruct (Py.float_of_int b); reflexivity.
Qed.

Lemma loop_float fuel m d i :
  get_filesize_loop (S fuel) (Py.Float (m # d)) i =
    if (1024 * Zpos d <? m)%Z && (i <? 5)%nat
    then get_filesize_loop fuel (Py.Float (m # d * 1024)) (S i)
    else Val (Py.Float (m # d), i).
Proof.
  simpl. unfold Qle_bool. simpl Qnum. simpl Qden.
  rewrite Z.mul_1_r, <- Z.ltb_antisym, Qdiv_1024. reflexivity.
Qed.

Lemma loop_done v i : (5 <= i)%nat → get_filesize_loop 0 v i = Val (v, i).
Proof.
  intros H. simpl. destruct (Nat.ltb_spec i 5); [lia |].
  rewrite andb_false_r. reflexivity.
Qed.

Ltac norm_consts :=
  change (2 ^ 53) with 9007199254740992 in *;
  change (1024 ^ 2) with 1048576 in *;
  change (1024 ^ 3) with 1073741824 in *;
  change (1024 ^ 4) with 1099511627776 in *;
  change (1024 ^ 5) with 1125899906842624 in *.

Ltac decide_ltb :=
  match goal with
  | |- context [Z.ltb ?x ?y] =>
    let H := fresh in
    destruct (Z.ltb_spec x y) as [H | H]; simpl in H; [| try lia]; try lia
  end.

Ltac decide_leb :=
  match goal with
  | |- context [Z.leb ?x ?y] =>
    let H := fresh in
    destruct (Z.leb_spec x y) as [H | H]; [| try lia]; try lia
  end.

(** The loop divides [divisions b] times. *)
Lemma get_filesize_loop_index b m :
  0 <= b →
  Py.float_of_int b = Val (inject_Z m) →
  (b < 2 ^ 53 → m = b) → (2 ^ 53 <= b → 2 ^ 53 <= m) →
  get_filesize_loop 5 (Py.Int b) 0 =
    Val (match divisions b with
         | O => Py.Int b
         | k => Py.Float (scaled m k)
         end, divisions b).
Proof.
  intros H0 Hf Hs Hl. unfold divisions, scaled. norm_consts.
  rewrite loop_int.
  destruct (Z_le_gt_dec b 1024) as [G1 | G1].
  { repeat decide_ltb. repeat decide_leb. reflexivity. }
  decide_ltb. simpl andb. rewrite Hf. cbn [mbind Res_bind].
  unfold inject_Z. rewrite Qdiv_1024, loop_float.
  destruct (Z_le_gt_dec b 1048576) as [G2 | G2].
  { repeat decide_ltb. repeat decide_leb. reflexivity. }
  decide_ltb. simpl andb. rewrite loop_float.
  destruct (Z_le_gt_dec b 1073741824) as [G3 | G3].
  { repeat decide_ltb. repeat decide_leb. reflexivity. }
  decide_ltb. simpl andb. rewrite loop_float.
  destruct (Z_le_gt_dec b 1099511627776) as [G4 | G4].
  { repeat decide_ltb. repeat decide_leb. reflexivity. }
  decide_ltb. simpl andb. rewrite loop_float.
  destruct (Z_le_gt_dec b 1125899906842624) as [G5 | G5].
  { repeat decide_ltb. repeat decide_leb. reflexivity. }
  decide_ltb. simpl andb. rewrite loop_done by lia.
  repeat decide_leb. reflexivity.
Qed.

Lemma str_digit k :
  0 <= k < 10 → ∃ c, Py.str k = String c EmptyString ∧ is_digit c = true.
Proof.
  intros H.
  assert (Hk : k = 0 ∨ k = 1 ∨ k = 2 ∨ k = 3 ∨ k = 4 ∨ k = 5 ∨ k = 6 ∨ k = 7
               ∨ k = 8 ∨ k = 9) by lia.
  repeat (destruct Hk as [-> | Hk]); try subst k;
    eexists; split; reflexivity.
Qed.

Lemma format_2f_two_decimals x : two_decimals (Py.format_2f x).
Proof.
  unfold Py.format_2f, two_decimals, Py.two_digits.
  set (h := Py.round_half_even _ _).
  pose proof (Z.mod_pos_bound h 100 ltac:(lia)) as Hm.
  destruct (str_digit (h mod 100 / 10)) as (d1 & -> & Hd1).
  { split; [apply Z.div_pos; lia | apply Z.div_lt_upper_bound; lia]. }
  destruct (str_digit ((h mod 100) mod 10)) as (d2 & -> & Hd2).
  { apply Z.mod_pos_bound. lia. }
  destruct (Qnum x <? 0).
  - exists ("-" ++ Py.str (h / 100)), d1, d2. auto.
  - exists (Py.str (h / 100)), d1, d2. auto.
Qed.

(** The index leaves the table exactly above 1024^4. *)
Lemma sizes_at_divisions b :
  sizes !! divisions b = None ↔ 1024 ^ 4 < b.
Proof.
  unfold divisions. norm_consts.
  repeat decide_leb; simpl; split; intros; try lia; try discriminate; reflexivity.
Qed.

Lemma float_limit_above : 2 ^ 53 < float_limit.
Proof. reflexivity. Qed.

Lemma get_filesize_small b :
  0 <= b <= 1024 ^ 4 →
  ∃ suffix, sizes !! divisions b = Some suffix
    ∧ get_filesize b = Val (Py.format_2f (scaled b (divisions b)) ++ suffix).
Proof.
  intros Hb.
  assert (Hlim : 0 <= b < float_limit).
  { pose proof float_limit_above. norm_consts. lia. }
  destruct (float_of_int_nonneg b Hlim) as (m & Hf & Hs & Hl).
  pose proof (get_filesize_loop_index b m ltac:(lia) Hf Hs Hl) as Hloop.
  assert (m = b) as -> by (apply Hs; norm_consts; lia).
  destruct (sizes !! divisions b) as [suffix |] eqn:Hsz.
  2: { apply sizes_at_divisions in Hsz. lia. }
  exists suffix. split; [reflexivity |].
  unfold get_filesize. rewrite Hloop. cbn [mbind Res_bind].
  unfold sizes_at. rewrite Hsz.
  destruct (divisions b) eqn:Hd; cbn [mbind Res_bind Py.to_float]; [| reflexivity].
  rewrite Hf. reflexivity.
Qed.

Lemma get_filesize_large b :
  1024 ^ 4 < b < float_limit → get_filesize b = Exc IndexError.
Proof.
  intros Hb.
  destruct (float_of_int_nonneg b ltac:(norm_consts; lia)) as (m & Hf & Hs & Hl).
  pose proof (get_filesize_loop_index b m ltac:(norm_consts; lia) Hf Hs Hl) as Hloop.
  unfold get_filesize. rewrite Hloop. cbn [mbind Res_bind].
  unfold sizes_at. rewrite (proj2 (sizes_at_divisions b)) by lia. reflexivity.
Qed.

Lemma get_filesize_loop_divisions b :
  0 <= b < float_limit →
  ∃ v, get_filesize_loop 5 (Py.Int b) 0 = Val (v, divisions b).
Proof.
  intros Hb. destruct (float_of_int_nonneg b Hb) as (m & Hf & Hs & Hl).
  rewrite (get_filesize_loop_index b m ltac:(lia) Hf Hs Hl). eauto.
Qed.

(** Up to 1024^4 bytes the size is formatted. *)
Lemma get_filesize_in_table b :
  0 <= b <= 1024 ^ 4 → ∃ s, get_filesize b = Val s.
Proof. intros Hb. destruct (get_filesize_small b Hb) as (suffix & _ & ->). eauto. Qed.

(** Claim C7, as amended.  For a byte count [b] that converts to a float,
    [get_filesize] divides once for each power 1024^k, k = 1..5, that [b]
    exceeds.  Up to 1024^4 the index is inside the table of four suffixes
    and the result is the quotient with two decimal digits followed by the
    suffix.  Strictly above 1024^4 the index is 4 or 5, outside the table,
    and the lookup raises IndexError. *)
Theorem get_filesize_suffix_table (b : Z) :
  0 <= b < float_limit →
  (∃ v, get_filesize_loop 5 (Py.Int b) 0 = Val (v, divisions b))
  ∧ (b <= 1024 ^ 4 →
     ∃ suffix, sizes !! divisions b = Some suffix
       ∧ get_filesize b = Val (Py.format_2f (scaled b (divisions b)) ++ suffix)
       ∧ two_decimals (Py.format_2f (scaled b (divisions b))))
  ∧ (1024 ^ 4 < b →
     (4 <= divisions b)%nat ∧ sizes !! divisions b = None
     ∧ get_filesize b = Exc IndexError).
Proof.
  intros Hb. split; [apply get_filesize_loop_divisions, Hb |]. split.
  - intros Hle. destruct (get_filesize_small b ltac:(lia)) as (suffix & Hs & Hg).
    exists suffix. auto using format_2f_two_decimals.
  - intros Hgt. pose proof (proj2 (sizes_at_divisions b) Hgt) as Hsz.
    split; [| split; [exact Hsz | apply get_filesize_large; lia]].
    unfold divisions. norm_consts. repeat decide_leb.
Qed.

Lemma get_filesize_suffix_table_witness :
  (0 <= 1536 < float_limit)
  ∧ get_filesize 1536 = Val "1.50KB"
  ∧ get_filesize (1024 ^ 4 + 1) = Exc IndexError.
Proof.
  assert (H1 : 0 <= 1536 < float_limit) by (vm_compute; split; [discriminate | reflexivity]).
  assert (H2 : 0 <= 1024 ^ 4 + 1 < float_limit) by (vm_compute; split; [discriminate | reflexivity]).
  split; [exact H1 |]. split.
  - destruct (get_filesize_suffix_table 1536 H1) as (_ & Hok & _).
    destruct (Hok ltac:(vm_compute; discriminate)) as (s & Hs & Hg & _).
    rewrite Hg. vm_compute in Hs. injection Hs as <-. vm_compute. reflexivity.
  - destruct (get_filesize_suffix_table (1024 ^ 4 + 1) H2) as (_ & _ & Hbad).
    apply Hbad. vm_compute. reflexivity.
Defined.

(** At 1024^4 bytes the loop stops after three divisions: the index is 3,
    inside the table, and the size is formatted. *)
Lemma get_filesize_tib_in_table :
  1024 ^ 4 <= 1024 ^ 4
  ∧ get_filesize_loop 5 (Py.Int (1024 ^ 4)) 0
    = Val (Py.Float (scaled (1024 ^ 4) 3), 3%nat)
  ∧ sizes !! 3%nat = Some "GB"
  ∧ get_filesize (1024 ^ 4) = Val "1024.00GB".
Proof.
  split; [lia |]. split; [vm_compute; reflexivity |].
  split; [reflexivity | vm_compute; reflexivity].
Qed.

Local Close Scope Z_scope.

(** ** Running the methods *)

Lemma bind_val {A B} (c : M A) (f : A → M B) w a w' :
  c w = (Val a, w') → (c ≫= f) w = f a w'.
Proof. intros H. unfold mbind, M_bind. rewrite H. reflexivity. Qed.

Lemma bind_exc {A B} (c : M A) (f : A → M B) w e w' :
  c w = (Exc e, w') → (c ≫= f) w = (Exc e, w').
Proof. intros H. unfold mbind, M_bind. rewrite H. reflexivity. Qed.

Lemma lift_val {A} (r : Res A) a w : r = Val a → lift r w = (Val a, w).
Proof. intros ->. reflexivity. Qed.

Lemma lift_exc {A} (r : Res A) e w : r = Exc e → lift r w = (Exc e, w).
Proof. intros ->. reflexivity. Qed.

Ltac munfold :=
  unfold mbind, M_bind, mret, M_ret, read, modify, lift, raise, local, item.

Lemma error_description token d :
  protocol_errors !! token = Some d → item protocol_errors token = mret d.
Proof. intros H. unfold item. rewrite H. reflexivity. Qed.

Lemma log_plain d ctype message w :
  String.eqb ctype "ERR" = false →
  log_with d ctype message w = (Val tt, logged ctype message w).
Proof. intros H. unfold log_with. rewrite H. reflexivity. Qed.

(** *** The socket *)

Lemma transmit_run c b w :
  Sock.transmit c b w =
    match send_error (cli_socket w) with
    | Some e => (Exc (OSError e), set_cli_socket (record_call c (cli_socket w)) w)
    | None => (Val tt, set_cli_socket (deliver b (record_call c (cli_socket w))) w)
    end.
Proof.
  unfold Sock.transmit, send_error. cbn.
  destruct (state (cli_socket w)); try reflexivity.
  destruct (inbox (cli_socket w)) as [| [] ?]; reflexivity.
Qed.

Lemma sendall_ok b w :
  send_error (cli_socket w) = None →
  Sock.sendall b w =
    (Val tt, set_cli_socket (deliver b (record_call (CSendall b) (cli_socket w))) w).
Proof. intros H. unfold Sock.sendall. rewrite transmit_run, H. reflexivity. Qed.

Lemma sendall_fails b w e :
  send_error (cli_socket w) = Some e →
  Sock.sendall b w =
    (Exc (OSError e), set_cli_socket (record_call (CSendall b) (cli_socket w)) w).
Proof. intros H. unfold Sock.sendall. rewrite transmit_run, H. reflexivity. Qed.

Lemma recv_segment n b rest w :
  state (cli_socket w) = Open →
  inbox (cli_socket w) = Data b :: rest →
  (N.of_nat (String.length b) <= n)%N →
  Sock.recv n w =
    (Val b, set_cli_socket (set_inbox rest (record_call (CRecv n) (cli_socket w))) w).
Proof.
  intros Hs Hi Hn. unfold Sock.recv. cbn [state inbox record_call].
  rewrite Hs, Hi. destruct (N.leb_spec (N.of_nat (String.length b)) n); [reflexivity | lia].
Qed.

Lemma recv_eof n w :
  state (cli_socket w) = Open →
  inbox (cli_socket w) = [] →
  Sock.recv n w =
    (Val EmptyString, set_cli_socket (record_call (CRecv n) (cli_socket w)) w).
Proof.
  intros Hs Hi. unfold Sock.recv. cbn [state inbox record_call].
  rewrite Hs, Hi. reflexivity.
Qed.

(** *** [log], [disconnect] and [connect] *)

Lemma disconnect_idle w : connected w = false → disconnect w = (Val tt, w).
Proof. intros H. unfold disconnect. munfold. rewrite H. reflexivity. Qed.

Lemma disconnect_run w :
  connected w = true →
  disconnect w =
    match send_error (cli_socket w) with
    | Some e => (Exc (OSError e), notified w)
    | None => (Val tt, hangup w)
    end.
Proof.
  intros H. unfold disconnect, hangup. munfold. rewrite H. unfold Sock.send.
  rewrite transmit_run. cbn [cli_socket set_connected].
  destruct (send_error (cli_socket w)); [reflexivity |].
  rewrite log_plain by reflexivity. reflexivity.
Qed.

Lemma try_disconnect w :
  try_except disconnect except_OSError_pass w = (Val tt, hangup w).
Proof.
  unfold try_except. destruct (connected w) eqn:Hc.
  - rewrite disconnect_run by exact Hc.
    destruct (send_error (cli_socket w)) eqn:He; [| reflexivity].
    cbn. unfold hangup. rewrite Hc, He. reflexivity.
  - rewrite disconnect_idle by exact Hc. unfold hangup. rewrite Hc. reflexivity.
Qed.

(** A call of [log] with the type "ERR" always ends in [SystemExit]. *)
Lemma log_fatal message w :
  log "ERR" message w =
    (Exc (SystemExit ("[ERR] " ++ message)),
     hangup (set_logfile (logfile w ++ ["[ERR] " ++ message]) w)).
Proof.
  unfold log, log_with.
  erewrite bind_val by reflexivity. cbn [String.eqb Ascii.eqb Bool.eqb].
  erewrite bind_val by apply try_disconnect. reflexivity.
Qed.

Lemma log_returns ctype message w :
  String.eqb ctype "ERR" = false →
  log ctype message w = (Val tt, logged ctype message w).
Proof. apply log_plain. Qed.

Lemma hangup_idle w : connected w = false → hangup w = w.
Proof. intros H. unfold hangup. rewrite H. reflexivity. Qed.

Lemma hangup_calls w :
  calls (cli_socket (hangup w)) =
    (calls (cli_socket w) ++ if connected w then [CSend "DISCONNECT"] else [])%list.
Proof.
  unfold hangup. destruct (connected w); [| symmetry; apply app_nil_r].
  destruct (send_error (cli_socket w)); reflexivity.
Qed.

Lemma hangup_cwd w : cwd (hangup w) = cwd w.
Proof.
  unfold hangup. destruct (connected w); [| reflexivity].
  destruct (send_error (cli_socket w)); reflexivity.
Qed.

Lemma hangup_connected w : connected (hangup w) = false.
Proof.
  unfold hangup. destruct (connected w) eqn:H; [| exact H].
  destruct (send_error (cli_socket w)); reflexivity.
Qed.


Lemma connect_ok w :
  state (cli_socket w) = Fresh →
  dial (cli_socket w) = Accepts →
  connect w = (Val tt, dialled w).
Proof.
  intros Hs Hd. unfold connect, try_except, Sock.connect. munfold.
  cbn [state dial record_call]. rewrite Hs, Hd.
  cbn [host port set_cli_socket].
  rewrite log_returns by reflexivity. reflexivity.
Qed.

(** *** What [recv] returns *)

Lemma recv_arrives n response w :
  state (cli_socket w) = Open →
  arrives response w →
  (N.of_nat (String.length response) <= n)%N →
  Sock.recv n w = (Val response, listened n w).
Proof.
  intros Hs [[rest Hi] | [-> Hi]] Hn; unfold listened.
  - rewrite (recv_segment n response rest) by assumption. reflexivity.
  - rewrite recv_eof by assumption. reflexivity.
Qed.

Lemma arrives_sendable response w :
  state (cli_socket w) = Open → arrives response w → send_error (cli_socket w) = None.
Proof.
  intros Hs [[rest Hi] | [_ Hi]]; unfold send_error; rewrite Hs, Hi; reflexivity.
Qed.

Lemma listened_frame n w :
  connected (listened n w) = connected w
  ∧ cwd (listened n w) = cwd w
  ∧ logfile (listened n w) = logfile w
  ∧ console (listened n w) = console w
  ∧ getcwd (listened n w) = getcwd w
  ∧ state (cli_socket (listened n w)) = state (cli_socket w)
  ∧ outbox (cli_socket (listened n w)) = outbox (cli_socket w)
  ∧ calls (cli_socket (listened n w)) = (calls (cli_socket w) ++ [CRecv n])%list.
Proof.
  unfold listened, Sock.recv. cbn [state inbox record_call].
  repeat case_match; cbn; auto 10.
Qed.

(** ** LIST *)

Ltac proj :=
  cbn [cli_socket set_cli_socket set_connected set_logfile set_console set_cwd
       logged dialled notified state dial inbox outbox calls record_call
       set_state set_inbox deliver connected cwd logfile console host port
       getcwd command].


(** ** GET *)

(** The keys of the two tables. *)
Lemma error_tokens r :
  contains protocol_errors r = true →
  r ∈ ["FileAlreadyExists"; "FileNotFound"; "FileTooLarge"; "FileZeroSized";
       "FileNameTooLong"; "FileIsDirectory"].
Proof.
  unfold contains. intros H. apply bool_decide_eq_true in H as [d H].
  apply elem_of_list_to_map_2 in H.
  repeat (apply elem_of_cons in H as [H | H]; [injection H as -> _; set_solver |]).
  inversion H.
Qed.

Lemma message_tokens r :
  contains protocol_messages r = true →
  r ∈ ["FileOkTransfer"; "FileSizeReceived"].
Proof.
  unfold contains. intros H. apply bool_decide_eq_true in H as [d H].
  apply elem_of_list_to_map_2 in H.
  repeat (apply elem_of_cons in H as [H | H]; [injection H as -> _; set_solver |]).
  inversion H.
Qed.

(** No token of the protocol reads as a number. *)
Lemma tokens_not_numeric r n :
  Py.int r = Val n →
  contains protocol_errors r = false ∧ contains protocol_messages r = false.
Proof.
  intros Hn. split.
  - destruct (contains protocol_errors r) eqn:H; [| reflexivity].
    apply error_tokens in H.
    repeat (apply elem_of_cons in H as [-> | H]; [discriminate Hn |]). inversion H.
  - destruct (contains protocol_messages r) eqn:H; [| reflexivity].
    apply message_tokens in H.
    repeat (apply elem_of_cons in H as [-> | H]; [discriminate Hn |]). inversion H.
Qed.

(** [get_file] up to its first [recv], when the file is not there yet and
    the server accepts the connection. *)
Lemma get_file_request filename w raw (k : string → M unit) :
  fresh_client w →
  dial (cli_socket w) = Accepts →
  cwd w !! filename = None →
  arrives raw w →
  (N.of_nat (String.length raw) <= 1024)%N →
  (log "CMD" (get_cmd_line filename);;
   listed ← Os.in_listdir filename;
   (if listed : bool then
      d ← item protocol_errors "FileAlreadyExists";
      log "ERR" ("FileAlreadyExists: " ++ d ++ " (client).")
    else mret tt);;
   connect;;
   Sock.sendall (Py.encode ("GET " ++ filename));;
   raw ← Sock.recv 1024; k raw) w
  = k raw (requested filename w).
Proof.
  intros [Hc Hs] Hd Hnone Hin Hlen.
  set (w1 := logged "CMD" (get_cmd_line filename) w).
  assert (Hin2 : arrives raw (dialled w1)) by exact Hin.
  pose proof (arrives_sendable raw (dialled w1) eq_refl Hin2) as Hsend.
  erewrite bind_val by (apply log_returns; reflexivity).
  erewrite bind_val by reflexivity.
  fold w1. replace (cwd w1) with (cwd w) by reflexivity.
  rewrite bool_decide_false by (rewrite Hnone; apply is_Some_None).
  erewrite bind_val by reflexivity.
  erewrite bind_val by (apply connect_ok; assumption).
  erewrite bind_val by (apply sendall_ok; exact Hsend).
  erewrite bind_val by (apply recv_arrives; [reflexivity | exact Hin | exact Hlen]).
  unfold requested, Py.encode. fold w1. reflexivity.
Qed.

Lemma requested_frame filename w :
  connected (requested filename w) = true
  ∧ cwd (requested filename w) = cwd w
  ∧ logfile (requested filename w) =
      (logfile w ++ [get_cmd_logged filename; con_logged w])%list
  ∧ outbox (cli_socket (requested filename w)) =
      (outbox (cli_socket w) ++ [get_request filename])%list
  ∧ calls (cli_socket (requested filename w)) =
      (calls (cli_socket w) ++ [CConnect; CSendall (get_request filename); CRecv 1024])%list.
Proof.
  unfold requested.
  match goal with
  | |- context [listened 1024 ?x] =>
    destruct (listened_frame 1024 x) as (-> & -> & -> & _ & _ & _ & -> & ->)
  end.
  proj. rewrite <- !app_assoc. auto.
Qed.

Lemma download_loop_skips fuel filename max_size file_size bytes_collected cs w :
  (file_size <= bytes_collected)%Z →
  download_loop fuel filename max_size file_size bytes_collected cs w
  = (Val (bytes_collected, cs), w).
Proof.
  intros H. destruct fuel; simpl;
    (destruct (Z.ltb_spec bytes_collected file_size); [lia | reflexivity]).
Qed.

Lemma open_wb_creates filename w :
  plain_name filename →
  cwd w !! filename = None →
  File.open_wb filename w =
    (Val tt, set_cwd (<[filename := Entry false 0 EmptyString]> (cwd w)) w).
Proof.
  intros (Hnul & Hne & Hslash & Hdot & Hlen) H. unfold File.open_wb.
  rewrite Hnul, Hslash, Hdot, H.
  destruct (String.eqb_spec filename EmptyString) as [-> | _]; [contradiction |].
  destruct (Z.ltb_spec 255 (Z.of_nat (String.length filename))); [lia | reflexivity].
Qed.

Lemma get_filesize_zero : get_filesize 0 = Val "0.00B".
Proof. vm_compute. reflexivity. Qed.

(** Claim C10, as amended.  When the answer to GET reads as the integer 0
    and the requested name is one that [open] can create in the working
    directory, the local file is created empty, the receive loop makes no
    [recv], and reading [current_size] for the completion line raises
    UnboundLocalError: the command ends in that error, the empty file
    stays, and no completion is logged.  (For a name that [open] refuses,
    as the empty name, the command ends in the error of [open] and no file
    is left.) *)
Theorem get_file_zero_size fuel filename w raw response :
  fresh_client w →
  dial (cli_socket w) = Accepts →
  plain_name filename →
  cwd w !! filename = None →
  arrives raw w →
  (N.of_nat (String.length raw) <= 1024)%N →
  Py.decode raw = Val response →
  Py.int response = Val 0%Z →
  ∃ w', get_file fuel filename w = (Exc (UnboundLocalError "current_size"), w')
    ∧ cwd w' = <[filename := Entry false 0 EmptyString]> (cwd w)
    ∧ calls (cli_socket w') =
        (calls (cli_socket w)
           ++ [CConnect; CSendall (get_request filename); CRecv 1024])%list
    ∧ logfile w' = (logfile w ++ [get_cmd_logged filename; con_logged w])%list.
Proof.
  intros Hf Hd Hplain Hnone Hin Hlen Hdec Hint.
  destruct (tokens_not_numeric response 0 Hint) as [He Hm].
  destruct (requested_frame filename w) as (Fc & Fd & Fl & Fo & Fk).
  unfold get_file. fold (get_cmd_line filename).
  rewrite (get_file_request filename w raw) by assumption.
  revert Fc Fd Fl Fo Fk. generalize (requested filename w). intros w3 Fc Fd Fl Fo Fk.
  eexists. split.
  - erewrite bind_val by (apply lift_val; exact Hdec).
    rewrite He, Hm.
    erewrite bind_val by reflexivity.
    erewrite bind_val by (apply lift_val; exact Hint).
    erewrite bind_val by (apply lift_val; exact get_filesize_zero).
    erewrite bind_val by (apply open_wb_creates; [exact Hplain | rewrite Fd; exact Hnone]).
    erewrite bind_val by (apply download_loop_skips; lia).
    reflexivity.
  - proj. rewrite Fd, Fk, Fl. auto.
Qed.

(** Claim C5, as amended.  When a file of the requested name is in the
    working directory, GET logs FileAlreadyExists as an error and stops
    there with SystemExit: the socket is left as it was (no [connect()], no
    request sent) and the directory is unchanged. *)
Theorem get_file_existing_aborts fuel filename w :
  is_Some (cwd w !! filename) →
  connected w = false →
  ∃ w', get_file fuel filename w = (Exc (SystemExit ("[ERR] " ++ exists_message)), w')
    ∧ cli_socket w' = cli_socket w
    ∧ cwd w' = cwd w
    ∧ logfile w' =
        (logfile w ++ [get_cmd_logged filename; ("[ERR] " ++ exists_message)%string])%list.
Proof.
  intros Hin Hc. eexists. split.
  - unfold get_file.
    erewrite bind_val by (apply log_returns; reflexivity).
    erewrite bind_val by reflexivity.
    proj. rewrite bool_decide_true by exact Hin.
    erewrite bind_exc; [reflexivity |].
    erewrite bind_val by (rewrite (error_description "FileAlreadyExists" _ eq_refl);
                          reflexivity).
    rewrite log_fatal, hangup_idle by exact Hc. reflexivity.
  - proj. rewrite <- app_assoc. auto.
Qed.

(** ** The calls a method makes on the socket *)

Section Emits.

Variable ok : call → Prop.
Variable only_val : bool.

Lemma grows_refl w : grows ok w w.
Proof. exists []. split; [symmetry; apply app_nil_r | constructor]. Qed.

Lemma grows_trans w1 w2 w3 : grows ok w1 w2 → grows ok w2 w3 → grows ok w1 w3.
Proof.
  intros (m1 & H1 & F1) (m2 & H2 & F2). exists (m1 ++ m2)%list. split.
  - rewrite H2, H1, app_assoc. reflexivity.
  - apply Forall_app. auto.
Qed.

Lemma grows_same w w' : cli_socket w' = cli_socket w → grows ok w w'.
Proof. intros H. exists []. rewrite H. split; [symmetry; apply app_nil_r | constructor]. Qed.

Lemma grows_call c w w' :
  ok c → calls (cli_socket w') = (calls (cli_socket w) ++ [c])%list → grows ok w w'.
Proof. intros Hok H. exists [c]. split; [exact H | repeat constructor; exact Hok]. Qed.

(** The calls of [c ≫= f] are those of [c] followed by those of [f]. *)
Lemma emits_bind {A B} (c : M A) (f : A → M B) :
  emits ok only_val c → (∀ a, emits ok only_val (f a)) → emits ok only_val (c ≫= f).
Proof.
  intros Hc Hf w. unfold mbind, M_bind.
  specialize (Hc w). destruct (c w) as [[a | e |] w1]; cbn in *.
  - intros Hr. eapply grows_trans; [apply Hc; exact I | apply Hf; exact Hr].
  - exact Hc.
  - exact Hc.
Qed.

Lemma emits_ret {A} (a : A) : emits ok only_val (mret a).
Proof. intros w _. apply grows_refl. Qed.

Lemma emits_raise {A} e : emits ok only_val (raise e : M A).
Proof. intros w _. apply grows_refl. Qed.

Lemma emits_lift {A} (r : Res A) : emits ok only_val (lift r).
Proof. intros w _. apply grows_refl. Qed.

Lemma emits_read {A} (f : World → A) : emits ok only_val (read f).
Proof. intros w _. apply grows_refl. Qed.

Lemma emits_modify f :
  (∀ w, cli_socket (f w) = cli_socket w) → emits ok only_val (modify f).
Proof. intros H w _. apply grows_same, H. Qed.

Lemma emits_local {A} name (v : option A) : emits ok only_val (local name v).
Proof. destruct v; [apply emits_ret | apply emits_raise]. Qed.

Lemma emits_item d key : emits ok only_val (item d key).
Proof. unfold item. destruct (d !! key); [apply emits_ret | apply emits_raise]. Qed.

Lemma emits_try_except {A} (c : M A) h :
  (∀ w, grows ok w (c w).2) →
  (∀ e k, h e = Some k → emits ok only_val k) →
  emits ok only_val (try_except c h).
Proof.
  intros Hc Hh w. unfold try_except. specialize (Hc w).
  destruct (c w) as [[a | e |] w1]; cbn in *; intros Hr; try exact Hc.
  destruct (h e) as [k |] eqn:He; [| exact Hc].
  eapply grows_trans; [exact Hc | apply (Hh e k He); exact Hr].
Qed.

Lemma emits_logging_info line : emits ok only_val (logging_info line).
Proof. apply emits_modify. reflexivity. Qed.

Lemma emits_print line e : emits ok only_val (print line e).
Proof. apply emits_modify. reflexivity. Qed.

Lemma emits_os_in_listdir filename : emits ok only_val (Os.in_listdir filename).
Proof. apply emits_read. Qed.

Lemma emits_os_path_isdir filename : emits ok only_val (Os.path_isdir filename).
Proof. apply emits_read. Qed.

Lemma emits_os_path_getsize filename : emits ok only_val (Os.path_getsize filename).
Proof.
  intros w _. unfold Os.path_getsize. case_match; apply grows_refl.
Qed.

Lemma emits_open_rb filename : emits ok only_val (File.open_rb filename).
Proof.
  intros w _. unfold File.open_rb. repeat case_match; apply grows_refl.
Qed.

Lemma emits_open_wb filename : emits ok only_val (File.open_wb filename).
Proof.
  intros w _. unfold File.open_wb. repeat case_match; apply grows_same; reflexivity.
Qed.

Lemma emits_write filename data : emits ok only_val (File.write filename data).
Proof. apply emits_modify. reflexivity. Qed.

Lemma emits_command_at i : emits ok only_val (command_at i).
Proof. intros w _. unfold command_at. case_match; apply grows_refl. Qed.

Lemma emits_command_method name : emits ok only_val (command_method name).
Proof. unfold command_method. case_match; [apply emits_ret | apply emits_raise]. Qed.

Hypothesis Hok : allows ok only_val.

Lemma emits_sendall b : emits ok only_val (Sock.sendall b).
Proof.
  intros w _. unfold Sock.sendall. rewrite transmit_run.
  destruct (send_error (cli_socket w)); eapply grows_call;
    try apply (allows_sendall _ _ Hok); reflexivity.
Qed.

Lemma emits_recv n : emits ok only_val (Sock.recv n).
Proof.
  intros w _. eapply grows_call; [apply (allows_recv _ _ Hok n) |].
  apply (listened_frame n w).
Qed.

Lemma emits_close : emits ok only_val Sock.close.
Proof.
  intros w _. eapply grows_call; [apply (allows_close _ _ Hok) | reflexivity].
Qed.

Lemma emits_log ctype message : emits ok only_val (log ctype message).
Proof.
  intros w. destruct (String.eqb ctype "ERR") eqn:Hc.
  - apply String.eqb_eq in Hc as ->. rewrite log_fatal. cbn.
    intros Hr. unfold grows. rewrite hangup_calls. proj.
    exists (if connected w then [CSend "DISCONNECT"] else []). split; [reflexivity |].
    destruct (connected w); repeat constructor. apply (allows_notify _ _ Hok), Hr.
  - rewrite log_returns by exact Hc. intros _. apply grows_same. reflexivity.
Qed.

(** The body of the [try] in [connect] makes one call, of [connect()]. *)
Lemma connect_body_calls w :
  calls (cli_socket
    ((Sock.connect;;
      h ← read host; p ← read port;
      log "CON" ("Successfully connected to server at: " ++ h ++ ":" ++ Py.str p);;
      modify (set_connected true)) w).2)
  = (calls (cli_socket w) ++ [CConnect])%list.
Proof.
  unfold Sock.connect, mbind, M_bind, read.
  repeat case_match; simplify_eq; cbn; try reflexivity.
  all: rewrite log_returns in * by reflexivity; simplify_eq; reflexivity.
Qed.

Lemma emits_connect_handler e k : connect_handler e = Some k → emits ok only_val k.
Proof.
  intros He. unfold connect_handler in He.
  repeat case_match; simplify_eq;
    (apply emits_bind; [apply emits_close | intros ?]);
    (apply emits_bind; [apply emits_read | intros ?]);
    (apply emits_bind; [apply emits_read | intros ?]);
    apply emits_log.
Qed.

Lemma emits_connect : emits ok only_val connect.
Proof.
  apply emits_try_except; [| apply emits_connect_handler].
  intros w. eapply grows_call; [apply (allows_connect _ _ Hok) | apply connect_body_calls].
Qed.

End Emits.

Ltac emits_step :=
  lazymatch goal with
  | |- emits _ _ (log _ _) => apply emits_log; assumption
  | |- emits _ _ connect => apply emits_connect; assumption
  | |- emits _ _ (Sock.sendall _) => apply emits_sendall; assumption
  | |- emits _ _ (Sock.recv _) => apply emits_recv; assumption
  | |- emits _ _ Sock.close => apply emits_close; assumption
  | |- emits _ _ (Os.in_listdir _) => apply emits_os_in_listdir
  | |- emits _ _ (Os.path_isdir _) => apply emits_os_path_isdir
  | |- emits _ _ (Os.path_getsize _) => apply emits_os_path_getsize
  | |- emits _ _ (File.open_rb _) => apply emits_open_rb
  | |- emits _ _ (File.open_wb _) => apply emits_open_wb
  | |- emits _ _ (File.write _ _) => apply emits_write
  | |- emits _ _ (command_at _) => apply emits_command_at
  | |- emits _ _ (command_method _) => apply emits_command_method
  | |- emits _ _ (read _) => apply emits_read
  | |- emits _ _ (lift _) => apply emits_lift
  | |- emits _ _ (local _ _) => apply emits_local
  | |- emits _ _ (item _ _) => apply emits_item
  | |- emits _ _ (print _ _) => apply emits_print
  | |- emits _ _ (mret _) => apply emits_ret
  | |- emits _ _ (raise _) => apply emits_raise
  | |- emits _ _ (mbind _ _) => apply emits_bind; [| intros ?]
  | |- emits _ _ (if ?b then _ else _) => destruct b
  | |- emits _ _ (match ?x with _ => _ end) => destruct x
  end.

Section Flows.

Context {ok : call → Prop} {only_val : bool} (Hok : allows ok only_val).

Lemma emits_upload_loop fuel filename max_size data upload bytes_sent cs :
  emits ok only_val (upload_loop fuel filename max_size data upload bytes_sent cs).
Proof.
  revert data upload bytes_sent cs.
  induction fuel as [| fuel IH]; intros; simpl; repeat emits_step. apply IH.
Qed.

Lemma emits_download_loop fuel filename max_size file_size bytes_collected cs :
  emits ok only_val
    (download_loop fuel filename max_size file_size bytes_collected cs).
Proof.
  revert bytes_collected cs.
  induction fuel as [| fuel IH]; intros; simpl; repeat emits_step. apply IH.
Qed.

Lemma emits_put_file filename : emits ok only_val (put_file filename).
Proof. unfold put_file. repeat emits_step. apply emits_upload_loop. Qed.

Lemma emits_get_file fuel filename : emits ok only_val (get_file fuel filename).
Proof. unfold get_file. repeat emits_step. apply emits_download_loop. Qed.

Lemma emits_show_list : emits ok only_val show_list.
Proof. unfold show_list. repeat emits_step. Qed.

Lemma emits_start fuel : emits ok only_val (start fuel).
Proof.
  unfold start. repeat emits_step;
    auto using emits_put_file, emits_get_file, emits_show_list.
Qed.

End Flows.

(** ** DISCONNECT *)

Lemma allows_no_send : allows (λ c, ¬ is_send c) true.
Proof.
  split; unfold is_send;
    [intros [? ?] | intros [? ?] | intros ? [? ?] | intros ? [? ?] | intros ?];
    discriminate.
Qed.

Lemma allows_all : allows (λ _, True) false.
Proof. split; auto. Qed.

(** Claim C6, as amended.  A command that completes makes no call of
    [send]: no DISCONNECT goes out on clean completion.  The notification is
    sent by a fatal [log] while [connected] is set: "DISCONNECT" is passed
    to [send] before SystemExit is raised, it reaches the peer when the
    send succeeds, and when the send raises OSError the error is swallowed
    and the command still ends in SystemExit. *)
Theorem disconnect_on_fatal_only :
  (∀ fuel w w',
     start fuel w = (Val tt, w') →
     ∃ more, calls (cli_socket w') = (calls (cli_socket w) ++ more)%list
             ∧ Forall (λ c, ¬ is_send c) more)
  ∧ (∀ message w,
       connected w = true →
       ∃ w', log "ERR" message w = (Exc (SystemExit ("[ERR] " ++ message)), w')
         ∧ calls (cli_socket w') = (calls (cli_socket w) ++ [CSend "DISCONNECT"])%list
         ∧ connected w' = false
         ∧ outbox (cli_socket w') =
             match send_error (cli_socket w) with
             | None => (outbox (cli_socket w) ++ ["DISCONNECT"])%list
             | Some _ => outbox (cli_socket w)
             end).
Proof.
  split.
  - intros fuel w w' Hrun.
    pose proof (emits_start allows_no_send fuel w) as H.
    rewrite Hrun in H. apply H. exact I.
  - intros message w Hc. eexists. split; [apply log_fatal |].
    rewrite hangup_calls, hangup_connected. proj. rewrite Hc.
    split; [reflexivity |]. split; [reflexivity |].
    unfold hangup. proj. rewrite Hc.
    destruct (send_error (cli_socket w)); reflexivity.
Qed.

(** ** PUT: the local checks *)

(** A branch of [put_file] that reports a failed check. *)
Lemma reject_run token d (message : string → string) w :
  connected w = false →
  protocol_errors !! token = Some d →
  (Sock.sendall token;; d ← item protocol_errors token; log "ERR" (message d)) w
  = rejected token (message d) w.
Proof.
  intros Hc Hd. unfold rejected.
  destruct (send_error (cli_socket w)) as [err |] eqn:He.
  - erewrite bind_exc by (apply sendall_fails; exact He). reflexivity.
  - erewrite bind_val by (apply sendall_ok; exact He).
    rewrite (error_description _ _ Hd).
    erewrite bind_val by reflexivity.
    rewrite log_fatal, hangup_idle by exact Hc. reflexivity.
Qed.

Lemma rejected_calls token message w :
  calls (cli_socket (rejected token message w).2)
  = (calls (cli_socket w) ++ [CSendall token])%list.
Proof. unfold rejected. destruct (send_error (cli_socket w)); reflexivity. Qed.

Lemma rejected_fails token message w : ∃ e, (rejected token message w).1 = Exc e.
Proof. unfold rejected. destruct (send_error (cli_socket w)); cbn; eauto. Qed.

(** [put_file] stops at the first check that fails. *)
Lemma put_file_rejects filename w token :
  connected w = false →
  first_failure (put_checks filename (cwd w !! filename)) = Some token →
  ∃ d, protocol_errors !! token = Some d
       ∧ put_file filename w = rejected token (put_message token d) w.
Proof.
  intros Hc Hfirst. unfold put_file.
  erewrite bind_val by reflexivity.
  unfold put_checks, first_failure in Hfirst.
  destruct (cwd w !! filename) as [e |] eqn:He; cbn [from_option] in Hfirst.
  - rewrite bool_decide_true in * by eauto. cbn [negb].
    destruct (Py.len filename <=? 255)%Z eqn:Hlen.
    + apply Z.leb_le in Hlen.
      destruct (Z.ltb_spec 255 (Py.len filename)); [lia |].
      erewrite bind_val by (unfold Os.path_isdir, read; rewrite He; reflexivity).
      destruct (isdir e); cbn [negb] in Hfirst.
      * injection Hfirst as <-. eexists. split; [reflexivity |].
        apply (reject_run "FileIsDirectory" _ (λ d, "FileIsDirectory: " ++ d));
          [exact Hc | reflexivity].
      * erewrite bind_val by (unfold Os.path_getsize; rewrite He; reflexivity).
        destruct (Z.leb_spec (st_size e) 5368709120) as [Hle | Hgt].
        -- destruct (Z.ltb_spec 5368709120 (st_size e)); [lia |].
           erewrite bind_val by (unfold Os.path_getsize; rewrite He; reflexivity).
           destruct (st_size e =? 0)%Z; cbn [negb] in Hfirst; [| discriminate].
           injection Hfirst as <-. eexists. split; [reflexivity |].
           apply (reject_run "FileZeroSized" _ (λ d, "FileZeroSized: " ++ d));
             [exact Hc | reflexivity].
        -- destruct (Z.ltb_spec 5368709120 (st_size e)); [| lia].
           injection Hfirst as <-. eexists. split; [reflexivity |].
           apply (reject_run "FileTooLarge" _ (λ d, "FileTooLarge: " ++ d));
             [exact Hc | reflexivity].
    + apply Z.leb_gt in Hlen.
      destruct (Z.ltb_spec 255 (Py.len filename)); [| lia].
      injection Hfirst as <-. eexists. split; [reflexivity |].
      apply (reject_run "FileNameTooLong" _ (λ d, "FileNameTooLong: " ++ d));
        [exact Hc | reflexivity].
  - rewrite bool_decide_false in * by (apply is_Some_None). cbn [negb].
    injection Hfirst as <-. eexists. split; [reflexivity |].
    apply (reject_run "FileNotFound" _ (λ d, "FileNotFound: " ++ d ++ " (server)."));
      [exact Hc | reflexivity].
Qed.

Lemma connect_first_call w :
  ∃ more, calls (cli_socket (connect w).2) = (calls (cli_socket w) ++ CConnect :: more)%list.
Proof.
  unfold connect, try_except.
  pose proof (connect_body_calls w) as Hb.
  destruct ((Sock.connect;; _) w) as [[a | e |] w1]; cbn in Hb |- *;
    try (exists []; exact Hb).
  destruct (connect_handler e) as [k |] eqn:Hk; [| exists []; exact Hb].
  destruct (emits_connect_handler (λ _, True) false allows_all e k Hk w1 ltac:(
    destruct (k w1) as [[] ?]; cbn; auto)) as (more & Hm & _).
  exists more. rewrite Hm, Hb, <- app_assoc. reflexivity.
Qed.

Lemma connect_then {A} (K : M A) w :
  emits (λ _, True) false K →
  ∃ more, calls (cli_socket ((connect;; K) w).2)
          = (calls (cli_socket w) ++ CConnect :: more)%list.
Proof.
  intros HK. unfold mbind, M_bind.
  destruct (connect_first_call w) as [m1 H1].
  destruct (connect w) as [[a | e |] w1]; cbn in H1 |- *; eauto.
  destruct (HK w1 ltac:(destruct (K w1) as [[] ?]; cbn; auto)) as (m2 & H2 & _).
  exists (m1 ++ m2)%list. rewrite H2, H1, <- app_assoc. reflexivity.
Qed.

(** When every check passes, the first call on the socket is [connect()]. *)
Lemma put_file_accepts filename w :
  first_failure (put_checks filename (cwd w !! filename)) = None →
  ∃ more, calls (cli_socket (put_file filename w).2)
          = (calls (cli_socket w) ++ CConnect :: more)%list.
Proof.
  intros Hfirst. unfold put_file.
  erewrite bind_val by reflexivity.
  unfold put_checks, first_failure in Hfirst.
  destruct (cwd w !! filename) as [e |] eqn:He; cbn [from_option] in Hfirst.
  2: { rewrite bool_decide_false in Hfirst by (apply is_Some_None). discriminate. }
  rewrite bool_decide_true in * by eauto. cbn [negb].
  destruct (Py.len filename <=? 255)%Z eqn:Hlen; [| discriminate].
  apply Z.leb_le in Hlen.
  destruct (Z.ltb_spec 255 (Py.len filename)); [lia |].
  erewrite bind_val by (unfold Os.path_isdir, read; rewrite He; reflexivity).
  destruct (isdir e); cbn [negb] in Hfirst; [discriminate |].
  erewrite bind_val by (unfold Os.path_getsize; rewrite He; reflexivity).
  destruct (Z.leb_spec (st_size e) 5368709120) as [Hle | Hgt]; [| discriminate].
  destruct (Z.ltb_spec 5368709120 (st_size e)); [lia |].
  erewrite bind_val by (unfold Os.path_getsize; rewrite He; reflexivity).
  destruct (st_size e =? 0)%Z; cbn [negb] in Hfirst; [discriminate |].
  erewrite bind_val by (apply log_returns; reflexivity).
  pose proof allows_all as Hok.
  match goal with
  | |- context [(connect ≫= ?f) ?w1] =>
    destruct (connect_then (f tt) w1) as [more Hm]
  end.
  { repeat emits_step. apply emits_upload_loop. exact Hok. }
  exists more. exact Hm.
Qed.

(** Claim C2.  PUT makes its local checks in the order: present in the
    working directory, name of at most 255 characters, not a directory, size
    of at most 5368709120 bytes, size other than 0.  It stops at the first
    check that fails: one token goes to [sendall], the token of that check,
    at most one error line is logged, for that token, and the command ends
    in an exception.  When no check fails the first call on the socket is
    [connect()]. *)
Theorem put_file_first_failure filename w :
  connected w = false →
  match first_failure (put_checks filename (cwd w !! filename)) with
  | Some token =>
    ∃ e w', put_file filename w = (Exc e, w')
      ∧ calls (cli_socket w') = (calls (cli_socket w) ++ [CSendall token])%list
      ∧ (logfile w' = logfile w
         ∨ ∃ d, protocol_errors !! token = Some d
                ∧ logfile w' = (logfile w ++ [("[ERR] " ++ put_message token d)%string])%list)
  | None =>
    ∃ more, calls (cli_socket (put_file filename w).2)
            = (calls (cli_socket w) ++ CConnect :: more)%list
  end.
Proof.
  intros Hc.
  destruct (first_failure _) as [token |] eqn:Hfirst; [| apply put_file_accepts, Hfirst].
  destruct (put_file_rejects filename w token Hc Hfirst) as (d & Hd & ->).
  destruct (rejected_fails token (put_message token d) w) as [e He].
  exists e, (rejected token (put_message token d) w).2. split; [| split].
  - rewrite <- He. apply surjective_pairing.
  - apply rejected_calls.
  - unfold rejected. destruct (send_error (cli_socket w)); cbn; eauto.
Qed.

(** ** GET: the receive loop *)

Lemma append_cons x (a b : string) : String x a ++ b = String x (a ++ b).
Proof. reflexivity. Qed.

Lemma append_assoc (a b c : string) : (a ++ b) ++ c = a ++ (b ++ c).
Proof.
  induction a as [| x a IH]; [reflexivity |]. rewrite !append_cons, IH. reflexivity.
Qed.

Lemma append_nil_r (a : string) : a ++ EmptyString = a.
Proof.
  induction a as [| x a IH]; [reflexivity |]. rewrite append_cons, IH. reflexivity.
Qed.

Lemma length_append (a b : string) :
  String.length (a ++ b) = (String.length a + String.length b)%nat.
Proof.
  induction a as [| x a IH]; [reflexivity |].
  rewrite append_cons. cbn [String.length]. rewrite IH. reflexivity.
Qed.

Lemma len_bytes_append a b :
  Py.len_bytes (a ++ b) = (Py.len_bytes a + Py.len_bytes b)%Z.
Proof. unfold Py.len_bytes. rewrite length_append. lia. Qed.

Lemma total_cons c chunks : total (c :: chunks) = (Py.len_bytes c + total chunks)%Z.
Proof. unfold total. cbn [joined]. apply len_bytes_append. Qed.

Lemma total_nonneg chunks : (0 <= total chunks)%Z.
Proof. unfold total, Py.len_bytes. lia. Qed.

Lemma joined_app a b : joined (a ++ b)%list = joined a ++ joined b.
Proof.
  induction a as [| x a IH]; cbn [joined app]; [reflexivity |].
  rewrite IH, append_assoc. reflexivity.
Qed.

Lemma total_app a b : total (a ++ b)%list = (total a + total b)%Z.
Proof. unfold total. rewrite joined_app. apply len_bytes_append. Qed.

Lemma append_twice a b e : File.append b (File.append a e) = File.append (a ++ b) e.
Proof.
  unfold File.append. cbn. rewrite len_bytes_append, append_assoc. f_equal. lia.
Qed.

Lemma alter_append_twice a b filename (d : gmap string entry) :
  alter (File.append b) filename (alter (File.append a) filename d)
  = alter (File.append (a ++ b)) filename d.
Proof.
  apply map_eq. intros k. destruct (decide (filename = k)) as [<- | Hne].
  - rewrite !lookup_alter_eq. destruct (d !! filename) as [e |]; [| reflexivity].
    change (Some (File.append b (File.append a e)) = Some (File.append (a ++ b) e)).
    rewrite append_twice. reflexivity.
  - rewrite !lookup_alter_ne by exact Hne. reflexivity.
Qed.

(** One turn of the receive loop. *)
Lemma download_loop_turn fuel filename max_size file_size bytes_collected cs c rest s w :
  state (cli_socket w) = Open →
  inbox (cli_socket w) = Data c :: rest →
  (N.of_nat (String.length c) <= 4096)%N →
  (bytes_collected < file_size)%Z →
  get_filesize (bytes_collected + Py.len_bytes c) = Val s →
  download_loop (S fuel) filename max_size file_size bytes_collected cs w
  = download_loop fuel filename max_size file_size
      (bytes_collected + Py.len_bytes c) (Some s) (turned filename max_size c s rest w).
Proof.
  intros Hs Hi Hc Hlt Hsz. simpl.
  destruct (Z.ltb_spec bytes_collected file_size); [| lia].
  erewrite bind_val by (apply recv_segment; eassumption).
  erewrite bind_val by (apply lift_val; exact Hsz).
  erewrite bind_val by reflexivity.
  erewrite bind_val by reflexivity.
  reflexivity.
Qed.

(** The receive loop from any count of bytes, by induction on the chunks
    that come before the last one. *)
Lemma download_loop_run filename max_size file_size pre :
  ∀ last rest fuel w bytes_collected cs,
  state (cli_socket w) = Open →
  inbox (cli_socket w) = (map Data (pre ++ [last]) ++ rest)%list →
  Forall small_chunk (pre ++ [last]) →
  (0 <= bytes_collected)%Z →
  (bytes_collected + total pre < file_size)%Z →
  (file_size <= bytes_collected + total (pre ++ [last]))%Z →
  (bytes_collected + total (pre ++ [last]) <= 1024 ^ 4)%Z →
  (length (pre ++ [last]) <= fuel)%nat →
  ∃ s w',
    get_filesize (bytes_collected + total (pre ++ [last])) = Val s
    ∧ download_loop fuel filename max_size file_size bytes_collected cs w
      = (Val ((bytes_collected + total (pre ++ [last]))%Z, Some s), w')
    ∧ state (cli_socket w') = Open
    ∧ inbox (cli_socket w') = rest
    ∧ calls (cli_socket w') =
        (calls (cli_socket w) ++ replicate (length (pre ++ [last])) (CRecv 4096))%list
    ∧ cwd w' = alter (File.append (joined (pre ++ [last]))) filename (cwd w).
Proof.
  induction pre as [| c pre IH]; intros last rest fuel w bc cs Hs Hi Hsm H0 Hlt Hge Hmax Hfuel.
  - cbn [app] in *. rewrite total_cons in *. change (total []) with 0%Z in *.
    rewrite Z.add_0_r in *.
    destruct fuel as [| fuel]; [cbn in Hfuel; lia |].
    destruct (get_filesize_in_table (bc + Py.len_bytes last)) as [s Hsz].
    { unfold Py.len_bytes in *. lia. }
    exists s. eexists. split; [exact Hsz |]. split.
    + rewrite (download_loop_turn fuel filename max_size file_size bc cs last rest s);
        [| exact Hs | exact Hi | apply (Forall_inv Hsm) | lia | exact Hsz].
      apply download_loop_skips. lia.
    + cbn. rewrite Hs, append_nil_r. auto.
  - cbn [app] in *. rewrite !total_cons in *.
    pose proof (total_nonneg pre). pose proof (total_nonneg (pre ++ [last])).
    assert (0 <= Py.len_bytes c)%Z by (unfold Py.len_bytes; lia).
    destruct fuel as [| fuel]; [cbn in Hfuel; lia |].
    destruct (get_filesize_in_table (bc + Py.len_bytes c)) as [s0 Hsz0]; [lia |].
    rewrite (download_loop_turn fuel filename max_size file_size bc cs c
               (map Data (pre ++ [last]) ++ rest) s0);
      [| exact Hs | exact Hi | apply (Forall_inv Hsm) | lia | exact Hsz0].
    destruct (IH last rest fuel
                (turned filename max_size c s0 (map Data (pre ++ [last]) ++ rest) w)
                (bc + Py.len_bytes c)%Z (Some s0))
      as (s & w' & Hsz & Hrun & Hs' & Hi' & Hk' & Hd');
      [exact Hs | reflexivity | apply (Forall_inv_tail Hsm) | lia | lia | lia | lia
      | cbn in Hfuel; lia |].
    exists s, w'. rewrite Z.add_assoc. split; [exact Hsz |]. split; [exact Hrun |].
    split; [exact Hs' |]. split; [exact Hi' |]. split.
    + rewrite Hk'. cbn. rewrite <- app_assoc. reflexivity.
    + rewrite Hd'. cbn [turned cwd set_cwd set_console set_cli_socket joined].
      apply alter_append_twice.
Qed.

(** The receive loop through chunks that leave the count below the
    announced size. *)
Lemma download_loop_prefix filename max_size file_size pre :
  ∀ rest fuel w bytes_collected cs,
  state (cli_socket w) = Open →
  inbox (cli_socket w) = (map Data pre ++ rest)%list →
  Forall small_chunk pre →
  (0 <= bytes_collected)%Z →
  (bytes_collected + total pre < file_size)%Z →
  (bytes_collected + total pre <= 1024 ^ 4)%Z →
  ∃ cs' w',
    download_loop (length pre + fuel) filename max_size file_size bytes_collected cs w
    = download_loop fuel filename max_size file_size (bytes_collected + total pre) cs' w'
    ∧ state (cli_socket w') = Open
    ∧ inbox (cli_socket w') = rest
    ∧ cwd w' = alter (File.append (joined pre)) filename (cwd w).
Proof.
  induction pre as [| c pre IH]; intros rest fuel w bc cs Hs Hi Hsm H0 Hlt Hmax.
  - exists cs, w. change (total []) with 0%Z. rewrite Z.add_0_r.
    split; [reflexivity |]. split; [exact Hs |]. split; [exact Hi |].
    cbn [joined]. apply map_eq. intros k. destruct (decide (filename = k)) as [<- | Hne].
    + rewrite lookup_alter_eq. destruct (cwd w !! filename) as [[] |]; [| reflexivity].
      cbn. unfold File.append. cbn. rewrite append_nil_r, Z.add_0_r. reflexivity.
    + rewrite lookup_alter_ne by exact Hne. reflexivity.
  - rewrite total_cons in *. pose proof (total_nonneg pre).
    assert (0 <= Py.len_bytes c)%Z by (unfold Py.len_bytes; lia).
    destruct (get_filesize_in_table (bc + Py.len_bytes c)) as [s0 Hsz0]; [lia |].
    cbn [length Nat.add].
    rewrite (download_loop_turn (length pre + fuel) filename max_size file_size bc cs c
               (map Data pre ++ rest) s0);
      [| exact Hs | exact Hi | apply (Forall_inv Hsm) | lia | exact Hsz0].
    destruct (IH rest fuel
                (turned filename max_size c s0 (map Data pre ++ rest) w)
                (bc + Py.len_bytes c)%Z (Some s0))
      as (cs' & w' & Hrun & Hs' & Hi' & Hd');
      [exact Hs | reflexivity | apply (Forall_inv_tail Hsm) | lia | lia | lia |].
    exists cs', w'. rewrite Z.add_assoc. split; [exact Hrun |].
    split; [exact Hs' |]. split; [exact Hi' |].
    rewrite Hd'. cbn [turned cwd set_cwd set_console set_cli_socket joined].
    apply alter_append_twice.
Qed.

Lemma length_repeat_char c n : String.length (repeat_char c n) = n.
Proof. induction n as [| n IH]; cbn; [reflexivity | rewrite IH; reflexivity]. Qed.

Lemma total_replicate n c : total (replicate n c) = (Z.of_nat n * Py.len_bytes c)%Z.
Proof.
  induction n as [| n IH]; [reflexivity |].
  cbn [replicate]. rewrite total_cons, IH. lia.
Qed.

Lemma total_tebibyte_feed : total tebibyte_feed = (1024 ^ 4 - 1)%Z.
Proof.
  unfold tebibyte_feed. rewrite total_app, total_replicate, total_cons.
  change (total []) with 0%Z. unfold Py.len_bytes. rewrite !length_repeat_char.
  rewrite N_nat_Z. reflexivity.
Qed.

Lemma small_tebibyte_feed : Forall small_chunk tebibyte_feed.
Proof.
  unfold tebibyte_feed. apply Forall_app. split.
  - apply Forall_replicate. unfold small_chunk. rewrite length_repeat_char. lia.
  - repeat constructor. unfold small_chunk. rewrite length_repeat_char. lia.
Qed.

Lemma alter_present {A} (f : A → A) (k : string) (m : gmap string A) x :
  m !! k = Some x → alter f k m = <[k := f x]> m.
Proof.
  intros H. apply map_eq. intros j. destruct (decide (k = j)) as [<- | Hne].
  - rewrite lookup_alter_eq, lookup_insert_eq, H. reflexivity.
  - rewrite lookup_alter_ne, lookup_insert_ne by exact Hne. reflexivity.
Qed.

(** Claim C1, as amended.  For an announced size N > 0 and a count of bytes
    that stays within the range of the size formatter (1024^4), the receive
    loop of GET stops exactly when the count first reaches or exceeds N:
    when the chunks [pre] total less than N and [last] brings the total to N
    or more, the loop makes one [recv] per chunk of [pre ++ [last]], leaves
    what follows in the socket, and the open file holds, behind what it
    held, every chunk in full, the bytes of [last] beyond N included. *)
Theorem download_loop_boundary filename max_size file_size pre last rest fuel w e :
  (0 < file_size)%Z →
  state (cli_socket w) = Open →
  cwd w !! filename = Some e →
  inbox (cli_socket w) = (map Data (pre ++ [last]) ++ rest)%list →
  Forall small_chunk (pre ++ [last]) →
  (total pre < file_size)%Z →
  (file_size <= total (pre ++ [last]))%Z →
  (total (pre ++ [last]) <= 1024 ^ 4)%Z →
  (length (pre ++ [last]) <= fuel)%nat →
  ∃ s w',
    download_loop fuel filename max_size file_size 0 None w
      = (Val (total (pre ++ [last]), Some s), w')
    ∧ get_filesize (total (pre ++ [last])) = Val s
    ∧ inbox (cli_socket w') = rest
    ∧ calls (cli_socket w') =
        (calls (cli_socket w) ++ replicate (length (pre ++ [last])) (CRecv 4096))%list
    ∧ cwd w' = <[filename := extended e (pre ++ [last])]> (cwd w).
Proof.
  intros _ Hs He Hi Hsm Hlt Hge Hmax Hfuel.
  destruct (download_loop_run filename max_size file_size pre last rest fuel w 0 None)
    as (s & w' & Hsz & Hrun & _ & Hi' & Hk' & Hd'); try assumption; try lia.
  exists s, w'. rewrite Hd', (alter_present _ _ _ e He). auto.
Qed.

(** Property X1. When the peer closes before the announced size has arrived,
    [recv] keeps returning nothing and the loop never ends. *)
Lemma download_loop_starves fuel filename max_size file_size bytes_collected cs w :
  state (cli_socket w) = Open →
  inbox (cli_socket w) = [] →
  (0 <= bytes_collected < file_size)%Z →
  (bytes_collected <= 1024 ^ 4)%Z →
  (download_loop fuel filename max_size file_size bytes_collected cs w).1 = OutOfFuel.
Proof.
  revert w cs. induction fuel as [| fuel IH]; intros w cs Hs Hi Hb Hmax; simpl;
    (destruct (Z.ltb_spec bytes_collected file_size); [| lia]); [reflexivity |].
  destruct (get_filesize_in_table bytes_collected ltac:(lia)) as [s Hsz].
  erewrite bind_val by (apply recv_eof; assumption).
  change (Py.len_bytes EmptyString) with 0%Z. rewrite Z.add_0_r.
  erewrite bind_val by (apply lift_val; exact Hsz).
  erewrite bind_val by reflexivity.
  erewrite bind_val by reflexivity.
  apply IH; [exact Hs | exact Hi | lia | lia].
Qed.

(** Property X2. The limit of 1024^4 on the count of bytes in the theorem of
    the receive loop is the limit of the size formatter: a chunk that takes
    the count above 1024^4 is received but not written, for [get_filesize]
    raises IndexError first. *)
Lemma download_loop_formatter_limit fuel filename max_size file_size bytes_collected
    cs c rest w :
  state (cli_socket w) = Open →
  inbox (cli_socket w) = Data c :: rest →
  small_chunk c →
  (bytes_collected < file_size)%Z →
  (1024 ^ 4 < bytes_collected + Py.len_bytes c < float_limit)%Z →
  download_loop (S fuel) filename max_size file_size bytes_collected cs w
  = (Exc IndexError,
     set_cli_socket (set_inbox rest (record_call (CRecv 4096) (cli_socket w))) w).
Proof.
  intros Hs Hi Hc Hlt Hbig. simpl.
  destruct (Z.ltb_spec bytes_collected file_size); [| lia].
  erewrite bind_val by (apply recv_segment; eassumption).
  erewrite bind_exc by (apply lift_exc, get_filesize_large; exact Hbig).
  reflexivity.
Qed.

Lemma listened_segment n b rest w :
  state (cli_socket w) = Open →
  inbox (cli_socket w) = Data b :: rest →
  (N.of_nat (String.length b) <= n)%N →
  listened n w = set_cli_socket (set_inbox rest (record_call (CRecv n) (cli_socket w))) w.
Proof. intros Hs Hi Hn. unfold listened. rewrite (recv_segment n b rest); auto. Qed.

(** Property X3. A download from beginning to end: the server announces
    [file_size] and then sends the chunks; the file holds all of them and
    the command returns. *)
Lemma get_file_completes fuel filename w raw response file_size pre last rest :
  fresh_client w →
  dial (cli_socket w) = Accepts →
  plain_name filename →
  cwd w !! filename = None →
  inbox (cli_socket w) = (Data raw :: map Data (pre ++ [last]) ++ rest)%list →
  (N.of_nat (String.length raw) <= 1024)%N →
  Py.decode raw = Val response →
  Py.int response = Val file_size →
  Forall small_chunk (pre ++ [last]) →
  (total pre < file_size)%Z →
  (file_size <= total (pre ++ [last]))%Z →
  (total (pre ++ [last]) <= 1024 ^ 4)%Z →
  (length (pre ++ [last]) <= fuel)%nat →
  ∃ w', get_file fuel filename w = (Val tt, w')
    ∧ cwd w' = <[filename := file_of (joined (pre ++ [last]))]> (cwd w)
    ∧ inbox (cli_socket w') = rest.
Proof.
  intros Hf Hd Hplain Hnone Hin Hlen Hdec Hint Hsm Hlt Hge Hmax Hfuel.
  destruct (tokens_not_numeric response file_size Hint) as [He Hm].
  pose proof (total_nonneg pre) as Hpre.
  destruct (get_filesize_in_table file_size ltac:(lia)) as [max_size Hmaxs].
  destruct (requested_frame filename w) as (Fc & Fd & _ & _ & _).
  assert (Harr : arrives raw w) by (left; eauto).
  assert (Hreq : state (cli_socket (requested filename w)) = Open
                 ∧ inbox (cli_socket (requested filename w))
                   = (map Data (pre ++ [last]) ++ rest)%list).
  { unfold requested. erewrite listened_segment; [split; reflexivity | reflexivity | | exact Hlen].
    exact Hin. }
  destruct Hreq as [Hs3 Hi3].
  unfold get_file. fold (get_cmd_line filename).
  rewrite (get_file_request filename w raw) by assumption.
  revert Fc Fd Hs3 Hi3. generalize (requested filename w). intros w3 Fc Fd Hs3 Hi3.
  erewrite bind_val by (apply lift_val; exact Hdec).
  rewrite He, Hm.
  erewrite bind_val by reflexivity.
  erewrite bind_val by (apply lift_val; exact Hint).
  erewrite bind_val by (apply lift_val; exact Hmaxs).
  erewrite bind_val by (apply open_wb_creates; [exact Hplain | rewrite Fd; exact Hnone]).
  destruct (download_loop_run filename max_size file_size pre last rest fuel
              (set_cwd (<[filename := Entry false 0 EmptyString]> (cwd w3)) w3) 0 None)
    as (s & w4 & _ & Hrun & Hs4 & Hi4 & _ & Hd4); try assumption; try lia.
  erewrite bind_val by exact Hrun.
  cbv beta iota.
  erewrite bind_val by reflexivity.
  erewrite bind_val by (apply log_returns; reflexivity).
  erewrite bind_val by reflexivity.
  eexists. split; [apply log_returns; reflexivity |].
  unfold logged. cbn [cwd cli_socket connected set_console set_logfile].
  rewrite Hd4, Hi4. cbn [cwd set_cwd]. rewrite Fd.
  split; [| reflexivity].
  rewrite alter_insert_eq. reflexivity.
Qed.

(** ** PUT: what reaches the peer *)

(** Claim C3 (what the code does).  [put_file] makes its checks before
    [connect()]: the token of a failed check is passed to [sendall] on a
    socket that was never connected, which raises OSError.  Nothing reaches
    the peer, nothing is logged, and the exception that ends the command is
    that OSError, not the SystemExit of [log]. *)
Theorem put_file_token_undelivered filename w token :
  connected w = false →
  state (cli_socket w) = Fresh →
  first_failure (put_checks filename (cwd w !! filename)) = Some token →
  ∃ w', put_file filename w = (Exc (OSError NotConnected), w')
    ∧ calls (cli_socket w') = (calls (cli_socket w) ++ [CSendall token])%list
    ∧ outbox (cli_socket w') = outbox (cli_socket w)
    ∧ logfile w' = logfile w.
Proof.
  intros Hc Hs Hfirst.
  destruct (put_file_rejects filename w token Hc Hfirst) as (d & _ & ->).
  unfold rejected, send_error. rewrite Hs. eexists. split; [reflexivity |]. auto.
Qed.

(** Claim C8, as amended.  For a name longer than 255 characters the one
    token PUT passes to [sendall] is FileNameTooLong when the name is in the
    working directory, and FileNotFound when it is not; in both cases the
    command ends there, before any [connect()] or negotiation of a size. *)
Theorem put_file_long_name filename w :
  connected w = false →
  (255 < Py.len filename)%Z →
  ∃ e w', put_file filename w = (Exc e, w')
    ∧ calls (cli_socket w') =
        (calls (cli_socket w)
           ++ [CSendall (if bool_decide (is_Some (cwd w !! filename))
                         then "FileNameTooLong" else "FileNotFound")])%list.
Proof.
  intros Hc Hlen.
  set (token := if bool_decide (is_Some (cwd w !! filename))
                then "FileNameTooLong" else "FileNotFound").
  assert (Hfirst : first_failure (put_checks filename (cwd w !! filename)) = Some token).
  { unfold put_checks, first_failure, token.
    destruct (bool_decide _); [| reflexivity].
    destruct (Z.leb_spec (Py.len filename) 255); [lia | reflexivity]. }
  destruct (put_file_rejects filename w token Hc Hfirst) as (d & _ & ->).
  destruct (rejected_fails token (put_message token d) w) as [e He].
  eexists e, _. split.
  - rewrite <- He. apply surjective_pairing.
  - apply rejected_calls.
Qed.

(** ** GET: the answer of the server *)

(** Claim C4 (what the code does).  When the answer to GET is an
    informational token, [get_file] logs it and then passes the same answer
    to [int()], which raises ValueError: the parse is not kept for the
    answers that match neither table. *)
Theorem get_file_info_token fuel filename w raw response :
  fresh_client w →
  dial (cli_socket w) = Accepts →
  cwd w !! filename = None →
  arrives raw w →
  (N.of_nat (String.length raw) <= 1024)%N →
  Py.decode raw = Val response →
  contains protocol_messages response = true →
  ∃ d w', protocol_messages !! response = Some d
    ∧ get_file fuel filename w = (Exc ValueError, w')
    ∧ last (logfile w') =
        Some ("[OK!] Server response: " ++ dquote ++ response ++ dquote ++ " - " ++ d)
    ∧ cwd w' = cwd w.
Proof.
  intros Hf Hd Hnone Hin Hlen Hdec Hm.
  destruct (requested_frame filename w) as (Fc & Fd & Fl & Fo & Fk).
  unfold get_file. fold (get_cmd_line filename).
  rewrite (get_file_request filename w raw) by assumption.
  revert Fc Fd Fl Fo Fk. generalize (requested filename w). intros w3 Fc Fd Fl Fo Fk.
  erewrite bind_val by (apply lift_val; exact Hdec).
  rewrite Hm.
  apply message_tokens in Hm.
  repeat (apply elem_of_cons in Hm as [-> | Hm]); [| | inversion Hm].
  all: eexists; eexists; split; [reflexivity |].
  all: change (contains protocol_errors _) with false; cbn iota.
  all: erewrite bind_val by
         (erewrite bind_val by reflexivity; apply log_returns; reflexivity).
  all: split; [erewrite bind_exc by (apply lift_exc; reflexivity); reflexivity |].
  all: unfold logged; proj; rewrite last_snoc, Fd; auto.
Qed.

(** ** The fuel of the loops that end by themselves *)

Lemma get_filesize_loop_ends fuel v i :
  (5 <= fuel + i)%nat → get_filesize_loop fuel v i ≠ OutOfFuel.
Proof.
  revert v i. induction fuel as [| fuel IH]; intros v i H; simpl.
  - destruct (Nat.ltb_spec i 5); [lia |]. rewrite andb_false_r. discriminate.
  - destruct (_ && _); [| discriminate].
    destruct (Py.div_1024 v) as [v' | e |] eqn:Hd; cbn.
    + apply IH. lia.
    + discriminate.
    + destruct v; cbn in Hd; [| discriminate].
      unfold Py.float_of_int in Hd. destruct (_ <=? _)%Z; discriminate.
Qed.

Lemma get_filesize_ends b : get_filesize b ≠ OutOfFuel.
Proof.
  unfold get_filesize.
  pose proof (get_filesize_loop_ends 5 (Py.Int b) 0 ltac:(lia)) as H.
  destruct (get_filesize_loop 5 (Py.Int b) 0) as [[v i] | e |]; cbn;
    [| discriminate | congruence].
  unfold sizes_at. destruct (sizes !! i); cbn; [| discriminate].
  destruct v; cbn; [| discriminate].
  unfold Py.float_of_int. destruct (_ <=? _)%Z; discriminate.
Qed.

Lemma take_drop_length n s :
  (String.length (Sock.take n s) + String.length (Sock.drop n s))%nat = String.length s.
Proof.
  revert s. induction n as [| n IH]; intros [| c s]; cbn; try reflexivity.
  rewrite IH. reflexivity.
Qed.

(** The fuel [put_file] gives its loop, the length of the file, is enough. *)
Lemma upload_loop_ends fuel filename max_size data upload bytes_sent cs w :
  (String.length data + String.length upload <= fuel)%nat →
  (upload_loop fuel filename max_size data upload bytes_sent cs w).1 ≠ OutOfFuel.
Proof.
  revert data upload bytes_sent cs w.
  induction fuel as [| fuel IH]; intros data upload bytes_sent cs w H.
  - destruct data; [discriminate | cbn in H; lia].
  - destruct data as [| c data]; [discriminate |].
    cbn [upload_loop nonempty].
    unfold mbind at 1, M_bind at 1, lift.
    pose proof (get_filesize_ends (bytes_sent + Py.len_bytes (String c data))) as Hg.
    destruct (get_filesize _) as [s | e |]; [| discriminate | congruence].
    erewrite bind_val by reflexivity.
    unfold mbind at 1, M_bind at 1. unfold Sock.sendall at 1. rewrite transmit_run.
    destruct (send_error _); [discriminate |].
    apply IH. unfold File.read_chunk. cbn [fst snd].
    rewrite take_drop_length. cbn in H. lia.
Qed.

(** ** PUT: the exchange with the server *)

Lemma contains_lookup (d : gmap string string) key :
  contains d key = true → ∃ v, d !! key = Some v.
Proof. unfold contains. intros H. apply bool_decide_eq_true in H as [v H]. eauto. Qed.

Lemma item_lookup (d : gmap string string) key v :
  d !! key = Some v → item d key = mret v.
Proof. intros H. unfold item. rewrite H. reflexivity. Qed.

(** The local checks of [put_file], for an entry that passes them. *)
Ltac put_checks_pass filename e He Hup :=
  destruct Hup as (Hlen & Hdir & Hmax & Hnz);
  unfold put_file;
  erewrite bind_val by reflexivity;
  rewrite bool_decide_true by (rewrite He; eauto); cbn [negb];
  destruct (Z.ltb_spec 255 (Py.len filename)); [lia |];
  erewrite bind_val by (unfold Os.path_isdir, read; rewrite He; reflexivity);
  rewrite Hdir;
  erewrite bind_val by (unfold Os.path_getsize; rewrite He; reflexivity);
  destruct (Z.ltb_spec 5368709120 (st_size e)); [lia |];
  erewrite bind_val by (unfold Os.path_getsize; rewrite He; reflexivity);
  destruct (Z.eqb_spec (st_size e) 0); [lia |].

(** [put_file] from the end of its checks to its [recv], when the server
    accepts the connection. *)
Lemma put_file_request filename w raw (k : string → M unit) :
  fresh_client w →
  dial (cli_socket w) = Accepts →
  arrives raw w →
  (N.of_nat (String.length raw) <= 24)%N →
  (log "OK!" (put_ok_line filename);;
   connect;;
   Sock.sendall (Py.encode ("PUT " ++ filename));;
   raw ← Sock.recv 24; k raw) w
  = k raw (offered filename w).
Proof.
  intros [Hc Hs] Hd Hin Hlen.
  set (w1 := logged "OK!" (put_ok_line filename) w).
  assert (Hin2 : arrives raw (dialled w1)) by exact Hin.
  pose proof (arrives_sendable raw (dialled w1) eq_refl Hin2) as Hsend.
  erewrite bind_val by (apply log_returns; reflexivity).
  erewrite bind_val by (apply connect_ok; assumption).
  erewrite bind_val by (apply sendall_ok; exact Hsend).
  erewrite bind_val by (apply recv_arrives; [reflexivity | exact Hin | exact Hlen]).
  unfold offered, Py.encode. fold w1. reflexivity.
Qed.

Lemma offered_frame filename w :
  connected (offered filename w) = true
  ∧ cwd (offered filename w) = cwd w
  ∧ state (cli_socket (offered filename w)) = Open
  ∧ logfile (offered filename w) =
      (logfile w ++ [("[OK!] " ++ put_ok_line filename)%string; con_logged w])%list
  ∧ outbox (cli_socket (offered filename w)) =
      (outbox (cli_socket w) ++ [put_request filename])%list
  ∧ calls (cli_socket (offered filename w)) =
      (calls (cli_socket w) ++ [CConnect; CSendall (put_request filename); CRecv 24])%list.
Proof.
  unfold offered.
  match goal with
  | |- context [listened 24 ?x] =>
    destruct (listened_frame 24 x) as (-> & -> & -> & _ & _ & -> & -> & ->)
  end.
  proj. rewrite <- !app_assoc. auto 10.
Qed.


(** Property X4. PUT: an error token of the server ends the command with the
    text of the table; nothing of the file is sent and the server is told of
    the disconnection. *)
Lemma put_file_error_token filename w e raw response :
  fresh_client w →
  dial (cli_socket w) = Accepts →
  cwd w !! filename = Some e →
  uploadable filename e →
  arrives raw w →
  (N.of_nat (String.length raw) <= 24)%N →
  Py.decode raw = Val response →
  contains protocol_errors response = true →
  ∃ d w', protocol_errors !! response = Some d
    ∧ put_file filename w
      = (Exc (SystemExit ("[ERR] " ++ server_error_message response d)), w')
    ∧ connected w' = false
    ∧ calls (cli_socket w') =
        (calls (cli_socket w)
           ++ [CConnect; CSendall (put_request filename); CRecv 24;
               CSend "DISCONNECT"])%list.
Proof.
  intros Hf Hd He Hup Hin Hlen' Hdec Herr.
  destruct (contains_lookup _ _ Herr) as [d Hlook].
  destruct (offered_frame filename w) as (Fc & Fd & Fs & Fl & Fo & Fk).
  put_checks_pass filename e He Hup.
  fold (put_ok_line filename).
  rewrite (put_file_request filename w raw) by assumption.
  revert Fc Fd Fs Fl Fo Fk. generalize (offered filename w). intros w3 Fc Fd Fs Fl Fo Fk.
  erewrite bind_val by (apply lift_val; exact Hdec).
  rewrite Herr.
  exists d. eexists. split; [exact Hlook |]. split.
  - rewrite (item_lookup _ _ _ Hlook).
    erewrite bind_val by reflexivity. apply log_fatal.
  - rewrite hangup_connected, hangup_calls.
    cbn [cwd connected cli_socket set_logfile]. rewrite Fc, Fk, <- app_assoc. auto.
Qed.

(** Property X5. PUT: an answer that is in neither table ends the command
    without a word: [put_file] returns, nothing of the file has been sent,
    nothing more is logged, and the connection stays open. *)
Lemma put_file_unknown_answer filename w e raw response :
  fresh_client w →
  dial (cli_socket w) = Accepts →
  cwd w !! filename = Some e →
  uploadable filename e →
  arrives raw w →
  (N.of_nat (String.length raw) <= 24)%N →
  Py.decode raw = Val response →
  contains protocol_errors response = false →
  contains protocol_messages response = false →
  ∃ w', put_file filename w = (Val tt, w')
    ∧ connected w' = true
    ∧ outbox (cli_socket w') = (outbox (cli_socket w) ++ [put_request filename])%list
    ∧ calls (cli_socket w') =
        (calls (cli_socket w) ++ [CConnect; CSendall (put_request filename); CRecv 24])%list
    ∧ logfile w' =
        (logfile w ++ [("[OK!] " ++ put_ok_line filename)%string; con_logged w])%list.
Proof.
  intros Hf Hd He Hup Hin Hlen' Hdec Herr Hmsg.
  destruct (offered_frame filename w) as (Fc & Fd & Fs & Fl & Fo & Fk).
  put_checks_pass filename e He Hup.
  fold (put_ok_line filename).
  rewrite (put_file_request filename w raw) by assumption.
  revert Fc Fd Fs Fl Fo Fk. generalize (offered filename w). intros w3 Fc Fd Fs Fl Fo Fk.
  erewrite bind_val by (apply lift_val; exact Hdec).
  rewrite Herr, Hmsg.
  eexists. split; [reflexivity |]. auto.
Qed.

(** ** GET: the answers that end the command *)

(** Property X6. GET: an error token of the server ends the command with the
    text of the table; no file is created and the server is told of the
    disconnection. *)
Lemma get_file_error_token fuel filename w raw response :
  fresh_client w →
  dial (cli_socket w) = Accepts →
  cwd w !! filename = None →
  arrives raw w →
  (N.of_nat (String.length raw) <= 1024)%N →
  Py.decode raw = Val response →
  contains protocol_errors response = true →
  ∃ d w', protocol_errors !! response = Some d
    ∧ get_file fuel filename w
      = (Exc (SystemExit ("[ERR] " ++ server_error_message response d)), w')
    ∧ cwd w' = cwd w
    ∧ connected w' = false
    ∧ calls (cli_socket w') =
        (calls (cli_socket w)
           ++ [CConnect; CSendall (get_request filename); CRecv 1024;
               CSend "DISCONNECT"])%list.
Proof.
  intros Hf Hd Hnone Hin Hlen Hdec He.
  destruct (contains_lookup _ _ He) as [d Hlook].
  destruct (requested_frame filename w) as (Fc & Fd & Fl & Fo & Fk).
  unfold get_file. fold (get_cmd_line filename).
  rewrite (get_file_request filename w raw) by assumption.
  revert Fc Fd Fl Fo Fk. generalize (requested filename w). intros w3 Fc Fd Fl Fo Fk.
  erewrite bind_val by (apply lift_val; exact Hdec).
  rewrite He.
  exists d. eexists. split; [exact Hlook |]. split.
  - erewrite bind_exc; [reflexivity |].
    rewrite (item_lookup _ _ _ Hlook).
    erewrite bind_val by reflexivity. apply log_fatal.
  - rewrite hangup_cwd, hangup_connected, hangup_calls.
    cbn [cwd connected cli_socket set_logfile]. rewrite Fd, Fc, Fk, <- app_assoc. auto.
Qed.

(** Property X7. GET: an answer of ASCII characters that is neither a token
    nor a number ends in the ValueError of [int()], before any file is
    created; no DISCONNECT is sent, for the error does not pass through
    [log]. *)
Lemma get_file_unreadable_size fuel filename w raw response :
  fresh_client w →
  dial (cli_socket w) = Accepts →
  cwd w !! filename = None →
  arrives raw w →
  (N.of_nat (String.length raw) <= 1024)%N →
  Py.decode raw = Val response →
  ascii_only response = true →
  contains protocol_errors response = false →
  Py.int response = Exc ValueError →
  ∃ w', get_file fuel filename w = (Exc ValueError, w')
    ∧ cwd w' = cwd w
    ∧ connected w' = true
    ∧ calls (cli_socket w') =
        (calls (cli_socket w)
           ++ [CConnect; CSendall (get_request filename); CRecv 1024])%list.
Proof.
  intros Hf Hd Hnone Hin Hlen Hdec _ He Hint.
  destruct (requested_frame filename w) as (Fc & Fd & Fl & Fo & Fk).
  unfold get_file. fold (get_cmd_line filename).
  rewrite (get_file_request filename w raw) by assumption.
  revert Fc Fd Fl Fo Fk. generalize (requested filename w). intros w3 Fc Fd Fl Fo Fk.
  erewrite bind_val by (apply lift_val; exact Hdec).
  rewrite He.
  destruct (contains protocol_messages response) eqn:Hm.
  - destruct (contains_lookup _ _ Hm) as [d Hlook].
    rewrite (item_lookup _ _ _ Hlook).
    erewrite bind_val by (erewrite bind_val by reflexivity; apply log_returns; reflexivity).
    erewrite bind_exc by (apply lift_exc; exact Hint).
    eexists. split; [reflexivity |]. unfold logged.
    cbn [cwd connected cli_socket set_logfile set_console]. auto.
  - erewrite bind_val by reflexivity.
    erewrite bind_exc by (apply lift_exc; exact Hint).
    eexists. split; [reflexivity |]. auto.
Qed.

(** Property X8. GET: a size above 1024^4 is refused by the size formatter
    before the file is created. *)
Lemma get_file_size_out_of_table fuel filename w raw response file_size :
  fresh_client w →
  dial (cli_socket w) = Accepts →
  cwd w !! filename = None →
  arrives raw w →
  (N.of_nat (String.length raw) <= 1024)%N →
  Py.decode raw = Val response →
  Py.int response = Val file_size →
  (1024 ^ 4 < file_size < float_limit)%Z →
  ∃ w', get_file fuel filename w = (Exc IndexError, w')
    ∧ cwd w' = cwd w
    ∧ calls (cli_socket w') =
        (calls (cli_socket w)
           ++ [CConnect; CSendall (get_request filename); CRecv 1024])%list.
Proof.
  intros Hf Hd Hnone Hin Hlen Hdec Hint Hbig.
  destruct (tokens_not_numeric response file_size Hint) as [He Hm].
  destruct (requested_frame filename w) as (Fc & Fd & Fl & Fo & Fk).
  unfold get_file. fold (get_cmd_line filename).
  rewrite (get_file_request filename w raw) by assumption.
  revert Fc Fd Fl Fo Fk. generalize (requested filename w). intros w3 Fc Fd Fl Fo Fk.
  erewrite bind_val by (apply lift_val; exact Hdec).
  rewrite He, Hm.
  erewrite bind_val by reflexivity.
  erewrite bind_val by (apply lift_val; exact Hint).
  erewrite bind_exc by (apply lift_exc, get_filesize_large; exact Hbig).
  eexists. split; [reflexivity |]. auto.
Qed.

(** ** [int(str(n))] *)






(** ** PUT: the upload *)




Lemma nonempty_take n s : (0 < n)%nat → nonempty (Sock.take n s) = nonempty s.
Proof. destruct n, s; cbn; (lia || reflexivity). Qed.




Lemma send_error_open s :
  state s = Open → head (inbox s) ≠ Some Rst → send_error s = None.
Proof.
  intros Hs Hi. unfold send_error. rewrite Hs.
  destruct (inbox s) as [| [] ?]; try reflexivity. contradiction Hi. reflexivity.
Qed.


(** ** [connect]: a server that cannot be reached *)

Lemma connect_turned_away w e cause :
  fresh_client w →
  dial (cli_socket w) = Rejects e →
  caught_cause e = Some cause →
  connect w = (Exc (SystemExit ("[ERR] " ++ refusal_message w cause)), turned_away cause w).
Proof.
  intros [Hc Hs] Hd Hcause.
  unfold connect, try_except.
  erewrite bind_exc
    by (unfold Sock.connect; cbn [state dial record_call]; rewrite Hs, Hd; reflexivity).
  assert (Hh : connect_handler (OSError e)
               = Some (Sock.close;;
                       h ← read host; p ← read port;
                       log "ERR" ("An error occurred when connecting to host " ++ h ++ ":"
                                  ++ Py.str p ++ newline ++ cause))).
  { destruct e; try discriminate; injection Hcause as ->; reflexivity. }
  rewrite Hh.
  erewrite bind_val by reflexivity.
  erewrite bind_val by reflexivity.
  erewrite bind_val by reflexivity.
  rewrite log_fatal, hangup_idle by exact Hc. reflexivity.
Qed.

(** Property X10. A refused connection, or a host name that does not
    resolve: the socket is closed, the cause is logged and the command ends
    in SystemExit. The flag [connected] was never set, so no DISCONNECT is
    attempted. *)
Lemma connect_refused w e cause :
  fresh_client w →
  dial (cli_socket w) = Rejects e →
  caught_cause e = Some cause →
  ∃ w', connect w = (Exc (SystemExit ("[ERR] " ++ refusal_message w cause)), w')
    ∧ state (cli_socket w') = Closed
    ∧ connected w' = false
    ∧ calls (cli_socket w') = (calls (cli_socket w) ++ [CConnect; CClose])%list
    ∧ outbox (cli_socket w') = outbox (cli_socket w)
    ∧ logfile w' = (logfile w ++ [("[ERR] " ++ refusal_message w cause)%string])%list.
Proof.
  intros Hf Hd Hcause. exists (turned_away cause w).
  split; [apply (connect_turned_away w e); assumption |].
  destruct Hf as [Hc _]. unfold turned_away. proj. rewrite <- app_assoc. auto 10.
Qed.

(** Property X11. GET from a server that cannot be reached ends in the
    SystemExit of [connect]: no request is sent and no file is created. *)
Lemma get_file_unreachable fuel filename w e cause :
  fresh_client w →
  dial (cli_socket w) = Rejects e →
  caught_cause e = Some cause →
  cwd w !! filename = None →
  ∃ w', get_file fuel filename w
        = (Exc (SystemExit ("[ERR] " ++ refusal_message w cause)), w')
    ∧ cwd w' = cwd w
    ∧ outbox (cli_socket w') = outbox (cli_socket w)
    ∧ calls (cli_socket w') = (calls (cli_socket w) ++ [CConnect; CClose])%list.
Proof.
  intros Hf Hd Hcause Hnone. unfold get_file.
  erewrite bind_val by (apply log_returns; reflexivity).
  erewrite bind_val by reflexivity.
  cbn [cwd logged set_console set_logfile].
  rewrite bool_decide_false by (rewrite Hnone; apply is_Some_None).
  erewrite bind_val by reflexivity.
  erewrite bind_exc by (apply (connect_turned_away _ e cause); [exact Hf | exact Hd | exact Hcause]).
  eexists. split; [reflexivity |].
  unfold turned_away. proj. rewrite <- app_assoc. auto.
Qed.

(** Property X12. Any other failure of [connect()] is not caught: it leaves
    [connect] as the OSError it is, the socket is not closed and nothing is
    logged. *)
Lemma connect_uncaught w e :
  state (cli_socket w) = Fresh →
  dial (cli_socket w) = Rejects e →
  caught_cause e = None →
  connect w = (Exc (OSError e), set_cli_socket (record_call CConnect (cli_socket w)) w).
Proof.
  intros Hs Hd Hcause.
  unfold connect, try_except.
  erewrite bind_exc
    by (unfold Sock.connect; cbn [state dial record_call]; rewrite Hs, Hd; reflexivity).
  destruct e; try discriminate; reflexivity.
Qed.

(** ** LIST: the answers that are not a listing *)

(** [show_list] up to its [recv]. *)
Lemma show_list_request w (k : string → M unit) :
  fresh_client w →
  dial (cli_socket w) = Accepts →
  head (inbox (cli_socket w)) ≠ Some Rst →
  (log "CMD" "Invoking Server Protocol 'LIST' command.";;
   connect;; Sock.sendall (Py.encode "LIST");;
   response ← Sock.recv 16384; k response) w
  = (response ← Sock.recv 16384; k response)
      (let w1 := dialled (logged "CMD" "Invoking Server Protocol 'LIST' command." w) in
       set_cli_socket (deliver "LIST" (record_call (CSendall "LIST") (cli_socket w1))) w1).
Proof.
  intros [Hc Hs] Hd Hin.
  erewrite bind_val by (apply log_returns; reflexivity).
  erewrite bind_val by (apply connect_ok; assumption).
  erewrite bind_val by (apply sendall_ok, send_error_open; [reflexivity | exact Hin]).
  reflexivity.
Qed.

(** Property X13. An answer that is not valid UTF-8 ends LIST in
    UnicodeDecodeError: nothing is displayed, and the connection is left
    open without a DISCONNECT, for the error does not pass through [log]. *)
Lemma show_list_undecodable w response :
  fresh_client w →
  dial (cli_socket w) = Accepts →
  arrives response w →
  (N.of_nat (String.length response) <= 16384)%N →
  Py.decode response = Exc UnicodeDecodeError →
  ∃ w', show_list w = (Exc UnicodeDecodeError, w')
    ∧ connected w' = true
    ∧ calls (cli_socket w') =
        (calls (cli_socket w) ++ [CConnect; CSendall "LIST"; CRecv 16384])%list
    ∧ console w' =
        (console w ++ [("[CMD] Invoking Server Protocol 'LIST' command." ++ newline)%string;
                       (con_logged w ++ newline)%string])%list.
Proof.
  intros Hf Hd Hin Hlen Hdec.
  assert (Hne : nonempty response = true).
  { destruct response; [discriminate Hdec | reflexivity]. }
  assert (Hhead : head (inbox (cli_socket w)) ≠ Some Rst).
  { destruct Hin as [[rest ->] | [_ ->]]; discriminate. }
  unfold show_list. rewrite show_list_request by assumption.
  cbv zeta.
  match goal with
  | |- context [(Sock.recv 16384 ≫= _) ?x] =>
    destruct (listened_frame 16384 x) as (Fc & _ & _ & Fo & _ & _ & _ & Fk);
    erewrite bind_val by (apply (recv_arrives 16384 response x);
                          [reflexivity | exact Hin | exact Hlen]);
    revert Fc Fo Fk; generalize (listened 16384 x); intros w3 Fc Fo Fk
  end.
  rewrite Hne.
  erewrite bind_exc by (apply lift_exc; exact Hdec).
  eexists. split; [reflexivity |].
  rewrite Fc, Fo, Fk. unfold logged, con_logged. proj. rewrite <- !app_assoc. auto.
Qed.

(** *** A listing longer than one [recv] *)

Lemma recv_long n b rest w :
  state (cli_socket w) = Open →
  inbox (cli_socket w) = Data b :: rest →
  (n < N.of_nat (String.length b))%N →
  Sock.recv n w =
    (Val (Sock.take (N.to_nat n) b),
     set_cli_socket
       (set_inbox (Data (Sock.drop (N.to_nat n) b) :: rest)
          (record_call (CRecv n) (cli_socket w))) w).
Proof.
  intros Hs Hi Hn. unfold Sock.recv. cbn [state inbox record_call].
  rewrite Hs, Hi. destruct (N.leb_spec (N.of_nat (String.length b)) n); [lia | reflexivity].
Qed.

(** Property X14. LIST makes one [recv] of 16384 bytes. Of a longer answer
    it displays the first 16384 bytes, when they decode, and returns; the
    rest of the listing stays unread in the socket. *)
Lemma show_list_truncates w b rest text :
  fresh_client w →
  dial (cli_socket w) = Accepts →
  inbox (cli_socket w) = Data b :: rest →
  (16384 < N.of_nat (String.length b))%N →
  Py.decode (Sock.take (N.to_nat 16384) b) = Val text →
  ∃ w', show_list w = (Val tt, w')
    ∧ last (console w') =
        Some ("[OK!] Server responded with:" ++ newline ++ text ++ newline)
    ∧ inbox (cli_socket w') = Data (Sock.drop (N.to_nat 16384) b) :: rest
    ∧ calls (cli_socket w') =
        (calls (cli_socket w) ++ [CConnect; CSendall "LIST"; CRecv 16384])%list.
Proof.
  intros Hf Hd Hin Hlen Hdec.
  assert (Hhead : head (inbox (cli_socket w)) ≠ Some Rst) by (rewrite Hin; discriminate).
  assert (Hne : nonempty (Sock.take (N.to_nat 16384) b) = true).
  { rewrite nonempty_take by lia. destruct b; [cbn in Hlen; lia | reflexivity]. }
  unfold show_list. rewrite show_list_request by assumption.
  cbv zeta.
  erewrite bind_val by (apply (recv_long 16384 b rest); [reflexivity | exact Hin | exact Hlen]).
  revert Hdec Hne. generalize (Sock.take (N.to_nat 16384) b) as shown.
  generalize (Sock.drop (N.to_nat 16384) b) as unread. intros unread shown Hdec Hne.
  rewrite Hne.
  erewrite bind_val by (apply lift_val; exact Hdec).
  eexists. split; [apply log_returns; reflexivity |].
  unfold logged. proj. rewrite last_snoc, <- !app_assoc. auto.
Qed.

(** ** get_filesize: sizes shown in bytes *)

Local Open Scope Z_scope.

(** Property X15. Up to 1024 bytes, 1024 included, the size is shown in
    bytes, with two zeros after the point. *)
Lemma get_filesize_bytes b :
  0 <= b <= 1024 → get_filesize b = Val (Py.str b ++ ".00B")%string.
Proof.
  intros Hb.
  destruct (get_filesize_small b ltac:(norm_consts; lia)) as (suffix & Hs & ->).
  assert (Hd : divisions b = 0%nat).
  { unfold divisions. destruct (Z.leb_spec b 1024); [reflexivity | lia]. }
  rewrite Hd in Hs |- *. injection Hs as <-.
  unfold scaled, pow1024, Py.format_2f. cbn [Qnum Qden].
  rewrite Z.abs_eq by lia.
  assert (Py.round_half_even (b * 100) 1 = b * 100) as ->.
  { unfold Py.round_half_even. rewrite Z.div_1_r, Z.mod_1_r. reflexivity. }
  rewrite Z.div_mul, Z.mod_mul by lia.
  destruct (Z.ltb_spec b 0); [lia |].
  change (Py.two_digits 0) with "00"%string. rewrite !append_assoc. reflexivity.
Qed.

Local Close Scope Z_scope.

(** ** [log]: what is written where *)

(** Property X16. Every message goes to client.log first, whether [log]
    returns or not. A message that is not an error is also displayed, and
    [log] returns. An error is not displayed: it travels in the SystemExit,
    and the only line that may follow it, in client.log and on the console,
    is the line of the disconnection. *)
Lemma log_records ctype message w :
  ∃ more shown,
    logfile (log ctype message w).2
    = (logfile w ++ ("[" ++ ctype ++ "] " ++ message)%string :: more)%list
    ∧ console (log ctype message w).2 = (console w ++ shown)%list
    ∧ (ctype ≠ "ERR" →
       (log ctype message w).1 = Val tt
       ∧ more = []
       ∧ shown = [("[" ++ ctype ++ "] " ++ message ++ newline)%string])
    ∧ (ctype = "ERR" →
       (log ctype message w).1 = Exc (SystemExit ("[ERR] " ++ message))
       ∧ ((more = [] ∧ shown = [])
          ∨ (more = ["[DIS] Disconnected from server."]
             ∧ shown = [("[DIS] Disconnected from server." ++ newline)%string]))).
Proof.
  destruct (String.eqb ctype "ERR") eqn:Hc.
  - apply String.eqb_eq in Hc as ->. rewrite log_fatal. cbn [fst snd].
    unfold hangup. cbn [connected set_logfile cli_socket].
    destruct (connected w); [destruct (send_error (cli_socket w)) |].
    + exists [], []. split; [reflexivity |].
      split; [cbn; rewrite app_nil_r; reflexivity |]. split; [congruence | auto].
    + exists ["[DIS] Disconnected from server."],
             [("[DIS] Disconnected from server." ++ newline)%string].
      split; [unfold logged; proj; rewrite <- app_assoc; reflexivity |].
      split; [reflexivity |]. split; [congruence | auto].
    + exists [], []. split; [reflexivity |].
      split; [cbn; rewrite app_nil_r; reflexivity |]. split; [congruence | auto].
  - rewrite log_returns by exact Hc. apply String.eqb_neq in Hc.
    exists [], [("[" ++ ctype ++ "] " ++ message ++ newline)%string].
    split; [reflexivity |].
    split; [unfold logged; proj; rewrite !append_assoc; reflexivity |].
    split; [auto | congruence].
Qed.

(** ** DISCONNECT is the last call of a run *)

(** A computation that makes no [send], however it ends. *)
Lemma quiet_last {A} (c : M A) :
  emits (λ c, ¬ is_send c) false c → notifies_last c.
Proof.
  intros H w. destruct (H w) as (more & Hm & Hf).
  - destruct (c w).1; cbn; auto.
  - exists more. split; [exact Hm | left; exact Hf].
Qed.

Lemma farewell_raised {A B} (r : Res A) (r' : Res B) more :
  (∀ e, r = Exc e → r' = Exc e) → (∀ a, r ≠ Val a) →
  farewell r more → farewell r' more.
Proof.
  intros He Hv [F | (msg & pre & Hr & Hm & F)]; [left; exact F |].
  right. exists msg, pre. auto.
Qed.

Lemma last_bind {A B} (c : M A) (f : A → M B) :
  notifies_last c → (∀ a, notifies_last (f a)) → notifies_last (c ≫= f).
Proof.
  intros Hc Hf w. unfold mbind, M_bind.
  destruct (Hc w) as (m1 & H1 & F1).
  destruct (c w) as [[a | e |] w1]; cbn [fst snd] in *.
  - destruct F1 as [F1 | (msg & pre & Hr & _)]; [| discriminate Hr].
    destruct (Hf a w1) as (m2 & H2 & F2).
    exists (m1 ++ m2)%list. split; [rewrite H2, H1, app_assoc; reflexivity |].
    destruct F2 as [F2 | (msg & pre & Hr & -> & F2)].
    + left. apply Forall_app. auto.
    + right. exists msg, (m1 ++ pre)%list. split; [exact Hr |].
      split; [apply app_assoc | apply Forall_app; auto].
  - exists m1. split; [exact H1 |].
    apply (farewell_raised (Exc e : Res A)); [congruence | congruence | exact F1].
  - exists m1. split; [exact H1 |].
    apply (farewell_raised (OutOfFuel : Res A)); [congruence | congruence | exact F1].
Qed.

Lemma not_send_sendall b : ¬ is_send (CSendall b).
Proof. intros [? ?]. discriminate. Qed.

Lemma not_send_recv n : ¬ is_send (CRecv n).
Proof. intros [? ?]. discriminate. Qed.

Lemma not_send_connect : ¬ is_send CConnect.
Proof. intros [? ?]. discriminate. Qed.

Lemma not_send_close : ¬ is_send CClose.
Proof. intros [? ?]. discriminate. Qed.

Lemma last_sendall b : notifies_last (Sock.sendall b).
Proof.
  intros w. exists [CSendall b]. split.
  - unfold Sock.sendall. rewrite transmit_run.
    destruct (send_error (cli_socket w)); reflexivity.
  - left. repeat constructor. apply not_send_sendall.
Qed.

Lemma last_recv n : notifies_last (Sock.recv n).
Proof.
  intros w. exists [CRecv n]. split.
  - apply (listened_frame n w).
  - left. repeat constructor. apply not_send_recv.
Qed.

Lemma last_close : notifies_last Sock.close.
Proof.
  intros w. exists [CClose]. split; [reflexivity |].
  left. repeat constructor. apply not_send_close.
Qed.

Lemma last_log ctype message : notifies_last (log ctype message).
Proof.
  intros w. destruct (String.eqb ctype "ERR") eqn:Hc.
  - apply String.eqb_eq in Hc as ->. rewrite log_fatal. cbn [fst snd].
    rewrite hangup_calls. proj. eexists. split; [reflexivity |].
    destruct (connected w).
    + right. exists ("[ERR] " ++ message), []. split; [reflexivity |].
      split; [reflexivity | constructor].
    + left. constructor.
  - rewrite log_returns by exact Hc. exists []. split.
    + cbn. symmetry. apply app_nil_r.
    + left. constructor.
Qed.

Lemma last_connect : notifies_last connect.
Proof.
  intros w. unfold connect, try_except.
  pose proof (connect_body_calls w) as Hb.
  destruct ((Sock.connect;; _) w) as [[a | e |] w1]; cbn [fst snd] in Hb |- *;
    try (exists [CConnect]; split; [exact Hb |]; left; repeat constructor;
         apply not_send_connect).
  destruct (connect_handler e) as [k |] eqn:Hk.
  2: { exists [CConnect]. split; [exact Hb |]. left. repeat constructor.
       apply not_send_connect. }
  assert (Hlast : notifies_last k).
  { unfold connect_handler in Hk. repeat case_match; simplify_eq;
      (apply last_bind; [apply last_close | intros ?]);
      (apply last_bind; [apply quiet_last, emits_read | intros ?]);
      (apply last_bind; [apply quiet_last, emits_read | intros ?]);
      apply last_log. }
  destruct (Hlast w1) as (m2 & H2 & F2).
  exists (CConnect :: m2). split; [rewrite H2, Hb, <- app_assoc; reflexivity |].
  destruct F2 as [F2 | (msg & pre & Hr & -> & F2)].
  - left. constructor; [apply not_send_connect | exact F2].
  - right. exists msg, (CConnect :: pre). split; [exact Hr |].
    split; [reflexivity | constructor; [apply not_send_connect | exact F2]].
Qed.

Ltac last_step :=
  lazymatch goal with
  | |- notifies_last (log _ _) => apply last_log
  | |- notifies_last connect => apply last_connect
  | |- notifies_last (Sock.sendall _) => apply last_sendall
  | |- notifies_last (Sock.recv _) => apply last_recv
  | |- notifies_last (mbind _ _) => apply last_bind; [| intros ?]
  | |- notifies_last (if ?b then _ else _) => destruct b
  | |- notifies_last (match ?x with _ => _ end) => destruct x
  | |- notifies_last _ => apply quiet_last; emits_step
  end.

Lemma last_upload_loop fuel filename max_size data upload bytes_sent cs :
  notifies_last (upload_loop fuel filename max_size data upload bytes_sent cs).
Proof.
  revert data upload bytes_sent cs.
  induction fuel as [| fuel IH]; intros; simpl; repeat last_step. apply IH.
Qed.

Lemma last_download_loop fuel filename max_size file_size bytes_collected cs :
  notifies_last (download_loop fuel filename max_size file_size bytes_collected cs).
Proof.
  revert bytes_collected cs.
  induction fuel as [| fuel IH]; intros; simpl; repeat last_step. apply IH.
Qed.

Lemma last_put_file filename : notifies_last (put_file filename).
Proof. unfold put_file. repeat last_step. apply last_upload_loop. Qed.

Lemma last_get_file fuel filename : notifies_last (get_file fuel filename).
Proof. unfold get_file. repeat last_step. apply last_download_loop. Qed.

Lemma last_show_list : notifies_last show_list.
Proof. unfold show_list. repeat last_step. Qed.

(** Property X17. In every run of [start], whatever the server does and
    however the run ends: DISCONNECT is sent at most once, it is then the
    last call made on the socket, and the run ends in SystemExit. *)
Theorem start_disconnect_last fuel w :
  ∃ more,
    calls (cli_socket (start fuel w).2) = (calls (cli_socket w) ++ more)%list
    ∧ farewell (start fuel w).1 more.
Proof.
  revert w. change (notifies_last (start fuel)).
  unfold start. repeat last_step;
    auto using last_put_file, last_get_file, last_show_list.
Qed.

(** ** The constructor *)

Lemma init_bind_val {A B} (c : Init A) (f : A → Init B) o a o' :
  c o = (IVal a, o') → (c ≫= f) o = f a o'.
Proof. intros H. unfold mbind, Init_bind. rewrite H. reflexivity. Qed.

Lemma init_bind_exc {A B} (c : Init A) (f : A → Init B) o e o' :
  c o = (IExc e, o') → (c ≫= f) o = (IExc e, o').
Proof. intros H. unfold mbind, Init_bind. rewrite H. reflexivity. Qed.

(** A fatal [log] inside [__init__]: the line goes to client.log, then
    [disconnect] looks up [self.connected], which does not exist yet.  The
    AttributeError is no OSError, so it is not swallowed, and the SystemExit
    of [log] is never raised. *)
Lemma init_log_fatal message o :
  has_connected o = false →
  init_log "ERR" message o = (IExc (AttributeError "connected"), blamed message o).
Proof.
  intros H. unfold init_log.
  erewrite init_bind_val by reflexivity.
  cbn [String.eqb Ascii.eqb Bool.eqb].
  erewrite init_bind_exc; [reflexivity |].
  unfold init_try_except, init_disconnect.
  erewrite init_bind_exc by (unfold self_connected; cbn [has_connected]; rewrite H;
                             reflexivity).
  cbn [init_except_OSError_pass]. unfold blamed. rewrite H. reflexivity.
Qed.

(** *** The port *)

Lemma digit_value_range c :
  Py.in_range 48 57 c = true → ∃ d, Py.digit_value c = Some d ∧ (0 <= d <= 9)%Z.
Proof.
  unfold Py.in_range, Py.digit_value. intros H. rewrite H.
  apply andb_true_iff in H as [H1 H2].
  apply N.leb_le in H1. apply N.leb_le in H2.
  eexists. split; [reflexivity | lia].
Qed.

Lemma digits_all s : ∀ acc b,
  Str.all_digits s = true →
  nonempty s = true ∨ b = true →
  ∃ v, Py.digits s acc b = Some (acc * 10 ^ Z.of_nat (String.length s) + v)%Z
       ∧ (0 <= v < 10 ^ Z.of_nat (String.length s))%Z.
Proof.
  induction s as [| c s IH]; intros acc b Hall Hne.
  - destruct Hne as [Hne | ->]; [discriminate |].
    exists 0%Z. cbn. split; [f_equal; lia | lia].
  - cbn [Str.all_digits] in Hall. apply andb_true_iff in Hall as [Hc Hs].
    destruct (digit_value_range c Hc) as (d & Hd & Hr).
    cbn [Py.digits]. rewrite Hd.
    destruct (IH (10 * acc + d)%Z true Hs (or_intror eq_refl)) as (v & Hv & Hb).
    exists (d * 10 ^ Z.of_nat (String.length s) + v)%Z.
    rewrite Hv. cbn [String.length]. rewrite Nat2Z.inj_succ, Z.pow_succ_r by lia.
    split; [f_equal; lia | nia].
Qed.

Lemma int_digit_head c s :
  Py.in_range 48 57 c = true →
  Py.int (String c s) =
    match Py.digits (String c s) 0 false with
    | Some n => Val (1 * n)%Z
    | None => Exc ValueError
    end.
Proof.
  destruct c as [[] [] [] [] [] [] [] []]; intros H; try discriminate H; reflexivity.
Qed.

Lemma len_all_digits s : Str.all_digits s = true → Py.len s = Z.of_nat (String.length s).
Proof.
  induction s as [| c s IH]; [reflexivity |].
  cbn [Str.all_digits Py.len String.length]. intros H.
  apply andb_true_iff in H as [Hc Hs]. rewrite (IH Hs).
  assert (Py.is_cont c = false) as ->.
  { unfold Py.in_range in Hc. unfold Py.is_cont.
    apply andb_true_iff in Hc as [_ H2]. apply N.leb_le in H2.
    destruct (N.leb_spec 128 (N_of_ascii c)); [lia | reflexivity]. }
  lia.
Qed.

(** The number a port of one to five digits reads as. *)
Lemma port_text_int port :
  port_text port → ∃ n, Py.int port = Val n ∧ (0 <= n <= 99999)%Z.
Proof.
  intros [Hall Hlen]. destruct port as [| c s]; [cbn in Hlen; lia |].
  pose proof Hall as Hall'. cbn [Str.all_digits] in Hall'.
  apply andb_true_iff in Hall' as [Hc _].
  rewrite (int_digit_head c s Hc).
  destruct (digits_all (String c s) 0 false Hall (or_introl eq_refl)) as (v & -> & Hv).
  exists v. split; [f_equal; lia |].
  assert (10 ^ Z.of_nat (String.length (String c s)) <= 10 ^ 5)%Z
    by (apply Z.pow_le_mono_r; lia).
  lia.
Qed.

(** [check_port] accepts a text of one to five digits and returns the
    number it reads as, which lies between 0 and 99999: the port 0 and the
    ports above 65535 are not refused, and the test [int(port) < 0] cannot
    succeed. *)
Lemma check_port_accepts port o :
  port_text port →
  ∃ n, check_port port o = (IVal n, o)
       ∧ Py.int port = Val n
       ∧ (0 <= n <= 99999)%Z.
Proof.
  intros Hp. destruct (port_text_int port Hp) as (n & Hn & Hr).
  destruct Hp as [Hall Hlen].
  exists n. split; [| auto].
  unfold check_port, Str.isdigit.
  rewrite Hall, (len_all_digits port Hall).
  assert (nonempty port = true) as -> by (destruct port; [cbn in Hlen; lia | reflexivity]).
  destruct (Z.leb_spec 1 (Z.of_nat (String.length port))); [| lia].
  destruct (Z.leb_spec (Z.of_nat (String.length port)) 5); [| lia].
  cbn [negb orb andb].
  erewrite init_bind_val by reflexivity.
  erewrite init_bind_val by (unfold run, lift; cbn [fields]; rewrite Hn; reflexivity).
  destruct (Z.ltb_spec n 0); [lia |].
  erewrite init_bind_val by reflexivity.
  erewrite init_bind_val by (unfold run, lift; cbn [fields]; rewrite Hn; reflexivity).
  destruct o. reflexivity.
Qed.

(** Any other text of ASCII characters is refused; inside [__init__] the
    refusal ends in AttributeError instead of the SystemExit of [log]. *)
Lemma check_port_rejects port o :
  ascii_only port = true →
  ¬ port_text port →
  has_connected o = false →
  check_port port o = (IExc (AttributeError "connected"), blamed port_message o).
Proof.
  intros _ Hp Ho. unfold check_port.
  assert (Hbad : negb (Str.isdigit port)
                 || negb ((1 <=? Py.len port)%Z && (Py.len port <=? 5)%Z) = true).
  { unfold Str.isdigit. destruct (Str.all_digits port) eqn:Hall.
    - rewrite (len_all_digits port Hall).
      destruct (Z.leb_spec 1 (Z.of_nat (String.length port)));
        destruct (Z.leb_spec (Z.of_nat (String.length port)) 5);
        cbn; rewrite ?orb_true_r; try reflexivity.
      contradiction Hp. split; [exact Hall | lia].
    - rewrite andb_false_r. reflexivity. }
  rewrite Hbad.
  erewrite init_bind_exc; [reflexivity |].
  apply init_log_fatal. exact Ho.
Qed.

(** Property X18. [check_port] decides on the text of the port alone: one to
    five digits are accepted and read as a number between 0 and 99999, so
    that 0 and the ports above 65535 pass; any other text of ASCII
    characters is refused, and inside [__init__] the refusal ends in
    AttributeError instead of the SystemExit of [log]. *)
Theorem check_port_decides port o :
  ascii_only port = true →
  has_connected o = false →
  (port_text port →
     ∃ n, check_port port o = (IVal n, o) ∧ Py.int port = Val n ∧ (0 <= n <= 99999)%Z)
  ∧ (¬ port_text port →
     check_port port o = (IExc (AttributeError "connected"), blamed port_message o)).
Proof.
  intros Ha Ho. split.
  - apply check_port_accepts.
  - intros Hp. apply check_port_rejects; assumption.
Qed.

(** *** The host and the command *)

Lemma host_char_not_space c : host_char c = true → Ascii.eqb " " c = false.
Proof.
  destruct c as [[] [] [] [] [] [] [] []]; intros H; try discriminate H; reflexivity.
Qed.

Lemma all_host_chars_pattern s :
  all_host_chars s = true → host_pattern s = true ∧ Str.has_char " " s = false.
Proof.
  induction s as [| c s IH]; [split; reflexivity |].
  cbn [all_host_chars host_pattern Str.has_char]. intros H.
  apply andb_true_iff in H as [Hc Hs]. rewrite Hc, (host_char_not_space c Hc).
  exact (IH Hs).
Qed.

Lemma check_host_accepts host o :
  host_text host → check_host host o = (IVal host, o).
Proof.
  intros [Hl | Hall]; unfold check_host.
  - rewrite Hl. reflexivity.
  - destruct (all_host_chars_pattern host Hall) as [-> ->].
    rewrite andb_false_r. reflexivity.
Qed.

(** The outcome of [check_host] on an object without [self.connected]. *)
Lemma check_host_outcome host o :
  has_connected o = false →
  check_host host o = (IVal host, o)
  ∨ check_host host o = (IExc (AttributeError "connected"), blamed host_message o).
Proof.
  intros Ho. unfold check_host.
  destruct (negb _ && _); [right | left; reflexivity].
  erewrite init_bind_exc; [reflexivity |].
  apply init_log_fatal. exact Ho.
Qed.

Lemma check_command_accepts command o :
  command_text command → check_command command o = (IVal command, o).
Proof.
  intros (name & args & -> & Hn). unfold check_command. cbn [lookup list_lookup].
  erewrite init_bind_val by reflexivity. cbv zeta.
  destruct Hn as [-> | [[-> | ->] Hlen]]; [reflexivity | |];
    cbn [length]; rewrite Hlen; reflexivity.
Qed.

Lemma check_command_outcome command o :
  command ≠ [] →
  has_connected o = false →
  check_command command o = (IVal command, o)
  ∨ ∃ message,
      check_command command o = (IExc (AttributeError "connected"), blamed message o).
Proof.
  intros Hne Ho. destruct command as [| name args]; [contradiction |].
  unfold check_command. cbn [lookup list_lookup].
  erewrite init_bind_val by reflexivity. cbv zeta.
  destruct (negb (bool_decide _)).
  { right. eexists. erewrite init_bind_exc; [reflexivity |].
    apply init_log_fatal. exact Ho. }
  erewrite init_bind_val by reflexivity.
  destruct (_ && _).
  { right. eexists. erewrite init_bind_exc; [reflexivity |].
    apply init_log_fatal. exact Ho. }
  left. reflexivity.
Qed.

(** *** [__init__] *)

Lemma init_steps host port command o h p c :
  check_host host (Object (wired (fields o)) (has_connected o))
  = (IVal h, Object (wired (fields o)) (has_connected o)) →
  (∀ o', check_port port o' = (IVal p, o')) →
  (∀ o', check_command command o' = (IVal c, o')) →
  __init__ host port command o = (IVal tt, Object (built h p c (fields o)) true).
Proof.
  intros Hh Hp Hc. unfold __init__.
  erewrite init_bind_val by reflexivity.
  erewrite init_bind_val by reflexivity.
  erewrite init_bind_val by exact Hh.
  erewrite init_bind_val by reflexivity.
  erewrite init_bind_val by apply Hp.
  erewrite init_bind_val by reflexivity.
  erewrite init_bind_val by apply Hc.
  erewrite init_bind_val by reflexivity.
  reflexivity.
Qed.

Lemma init_accepts host port command o n :
  host_text host →
  port_text port →
  command_text command →
  Py.int port = Val n →
  __init__ host port command o = (IVal tt, Object (built host n command (fields o)) true).
Proof.
  intros Hh Hp Hc Hn. apply init_steps.
  - apply check_host_accepts, Hh.
  - intros o'. destruct (check_port_accepts port o' Hp) as (n' & Hrun & Hn' & _).
    rewrite Hrun. congruence.
  - intros o'. apply check_command_accepts, Hc.
Qed.

Lemma with_client_log_listing d :
  is_Some (with_client_log d !! "client.log")
  ∧ ∀ name, name ≠ "client.log" → with_client_log d !! name = d !! name.
Proof.
  unfold with_client_log. destruct (d !! "client.log") eqn:H.
  - split; [rewrite H; eauto | reflexivity].
  - split; [rewrite lookup_insert_eq; eauto |].
    intros name Hne. apply lookup_insert_ne. congruence.
Qed.

(** Property X19. With a host, a port and a command of the expected form,
    [__init__] builds a client on which no method has run: the socket is
    new, the flag [connected] is unset, the port is a number between 0 and
    99999 and the command is kept as it was typed. The working directory
    lists client.log from then on, and is otherwise as it was. *)
Theorem init_builds host port command o :
  host_text host →
  port_text port →
  command_text command →
  ∃ n, Py.int port = Val n
    ∧ (0 <= n <= 99999)%Z
    ∧ __init__ host port command o
      = (IVal tt, Object (built host n command (fields o)) true)
    ∧ fresh_client (built host n command (fields o))
    ∧ is_Some (cwd (built host n command (fields o)) !! "client.log")
    ∧ ∀ name, name ≠ "client.log" →
        cwd (built host n command (fields o)) !! name = cwd (fields o) !! name.
Proof.
  intros Hh Hp Hc.
  destruct (port_text_int port Hp) as (n & Hn & Hr).
  exists n. split; [exact Hn |]. split; [exact Hr |].
  split; [apply init_accepts; assumption |]. split; [split; reflexivity |].
  apply with_client_log_listing.
Qed.

Lemma port_text_dec port : port_text port ∨ ¬ port_text port.
Proof.
  unfold port_text. destruct (Str.all_digits port); [| right; intros [? _]; discriminate].
  destruct (le_dec 1 (String.length port)); [| right; lia].
  destruct (le_dec (String.length port) 5); [left | right]; lia.
Qed.

(** Property X20. A bad argument never gives the SystemExit that [log] is
    written to raise: [__init__] either builds the client, or ends in the
    AttributeError of [self.connected] with the error line in client.log and
    nothing displayed. *)
Theorem init_bad_argument host port command o :
  has_connected o = false →
  ascii_only port = true →
  command ≠ [] →
  (∃ n, __init__ host port command o
        = (IVal tt, Object (built host n command (fields o)) true))
  ∨ (∃ message o',
       __init__ host port command o = (IExc (AttributeError "connected"), o')
       ∧ logfile (fields o') = (logfile (fields o) ++ [("[ERR] " ++ message)%string])%list
       ∧ console (fields o') = console (fields o)
       ∧ calls (cli_socket (fields o')) = []).
Proof.
  intros Ho Hascii Hne.
  set (o1 := Object (wired (fields o)) (has_connected o)).
  assert (Ho1 : has_connected o1 = false) by exact Ho.
  destruct (check_host_outcome host o1 Ho1) as [Hh | Hh].
  2: { right. exists host_message. eexists. split.
       - unfold __init__. erewrite init_bind_val by reflexivity.
         erewrite init_bind_val by reflexivity.
         erewrite init_bind_exc by exact Hh. reflexivity.
       - auto. }
  destruct (port_text_dec port) as [Hp | Hp].
  2: { right. exists port_message. eexists. split.
       - unfold __init__. erewrite init_bind_val by reflexivity.
         erewrite init_bind_val by reflexivity.
         erewrite init_bind_val by exact Hh.
         erewrite init_bind_val by reflexivity.
         erewrite init_bind_exc by (apply check_port_rejects; [exact Hascii | exact Hp | exact Ho]).
         reflexivity.
       - auto. }
  destruct (check_port_accepts port o Hp) as (n & _ & Hn & _).
  assert (Hport : ∀ o', check_port port o' = (IVal n, o')).
  { intros o'. destruct (check_port_accepts port o' Hp) as (n' & Hrun & Hn' & _).
    rewrite Hrun. congruence. }
  set (o3 := Object (set_port n (set_host host (fields o1))) (has_connected o)).
  destruct (check_command_outcome command o3 Hne Ho) as [Hc | [message Hc]].
  - left. exists n. apply init_steps; [exact Hh | exact Hport |].
    intros o'. unfold check_command in Hc |- *.
    destruct command as [| name args]; [contradiction |].
    cbn [lookup list_lookup] in Hc |- *.
    erewrite init_bind_val in Hc |- * by reflexivity. cbv zeta in Hc |- *.
    destruct (negb (bool_decide _)).
    { erewrite init_bind_exc in Hc by (apply init_log_fatal; exact Ho). discriminate Hc. }
    erewrite init_bind_val in Hc |- * by reflexivity.
    destruct (_ && _); [| reflexivity].
    erewrite init_bind_exc in Hc by (apply init_log_fatal; exact Ho). discriminate Hc.
  - right. exists message. eexists. split.
    + unfold __init__. erewrite init_bind_val by reflexivity.
      erewrite init_bind_val by reflexivity.
      erewrite init_bind_val by exact Hh.
      erewrite init_bind_val by reflexivity.
      erewrite init_bind_val by apply Hport.
      erewrite init_bind_val by reflexivity.
      erewrite init_bind_exc by exact Hc. reflexivity.
    + auto.
Qed.

(** ** The program *)

(** The names of [protocol_commands] are in lower case. *)
Lemma command_names name :
  is_Some (protocol_commands !! name) → Str.lower name = name.
Proof.
  intros [m H]. apply elem_of_list_to_map_2 in H.
  repeat (apply elem_of_cons in H as [H | H]; [injection H as -> _; reflexivity |]).
  inversion H.
Qed.

(** [start] looks the command up under the name as it was typed. *)
Lemma start_unknown_name fuel w name args :
  command w = name :: args →
  Str.lower name ≠ name →
  start fuel w = (Exc KeyError, logged "OK!" startup_line w).
Proof.
  intros Hc Hn. unfold start.
  erewrite bind_val by (apply log_returns; reflexivity).
  erewrite bind_val by (unfold command_at; cbn [command logged set_console set_logfile];
                        rewrite Hc; reflexivity).
  assert (Hnone : protocol_commands !! name = None).
  { destruct (protocol_commands !! name) eqn:H; [| reflexivity].
    contradiction Hn. apply command_names. eauto. }
  assert (Hlist : String.eqb name "list" = false).
  { apply String.eqb_neq. intros ->. contradiction Hn. reflexivity. }
  rewrite Hlist. unfold command_method. rewrite Hnone. reflexivity.
Qed.

Lemma main_constructs argv fuel o prog host port command :
  argv = prog :: host :: port :: command →
  command ≠ [] →
  main argv fuel o = (__init__ host port command;; run (start fuel)) o.
Proof.
  intros -> Hne. unfold main.
  destruct command as [| name args]; [contradiction |].
  reflexivity.
Qed.

(** With arguments of the expected form the program runs [start] on the
    client that [__init__] builds. *)
Lemma main_starts argv fuel o prog host port command :
  argv = prog :: host :: port :: command →
  host_text host →
  port_text port →
  command_text command →
  ∃ n, Py.int port = Val n
    ∧ fresh_client (built host n command (fields o))
    ∧ main argv fuel o
      = run (start fuel) (Object (built host n command (fields o)) true).
Proof.
  intros Hargv Hh Hp Hc.
  destruct (port_text_int port Hp) as (n & Hn & _).
  exists n. split; [exact Hn |]. split; [split; reflexivity |].
  rewrite (main_constructs argv fuel o prog host port command Hargv).
  - erewrite init_bind_val by (apply init_accepts; eassumption). reflexivity.
  - destruct Hc as (name & args & -> & _). discriminate.
Qed.

(** Property X21. The constructor accepts the name of the command in any
    case, and keeps it as typed; [start] looks it up as typed, in a table
    whose keys are in lower case. A command that is not typed in lower case
    passes the checks and then ends the program in KeyError, before any call
    on the socket. *)
Theorem main_name_case argv fuel o prog host port name args :
  argv = prog :: host :: port :: name :: args →
  host_text host →
  port_text port →
  command_text (name :: args) →
  Str.lower name ≠ name →
  ∃ o', main argv fuel o = (IExc (Raised KeyError), o')
    ∧ calls (cli_socket (fields o')) = []
    ∧ console (fields o')
      = (console (fields o) ++ [("[OK!] " ++ startup_line ++ newline)%string])%list.
Proof.
  intros Hargv Hh Hp Hc Hn.
  destruct (main_starts argv fuel o prog host port (name :: args) Hargv Hh Hp Hc)
    as (n & _ & _ & ->).
  unfold run. cbn [fields].
  rewrite (start_unknown_name fuel (built host n (name :: args) (fields o)) name args
             eq_refl Hn).
  eexists. split; [reflexivity |]. auto.
Qed.

(** ** Concrete runs *)

Lemma get_file_existing_aborts_witness :
  ∃ w', get_file 1 "a.txt" holder = (Exc (SystemExit ("[ERR] " ++ exists_message)), w')
    ∧ cli_socket w' = cli_socket holder
    ∧ cwd w' = cwd holder
    ∧ logfile w' =
        (logfile holder
           ++ [get_cmd_logged "a.txt"; ("[ERR] " ++ exists_message)%string])%list.
Proof.
  apply (get_file_existing_aborts 1 "a.txt" holder).
  - vm_compute. eauto.
  - reflexivity.
Defined.

(** The file is there: [get_file] stops before any call on the socket. *)
Lemma get_file_existing_sends_nothing :
  let r := get_file 1 "a.txt" holder in
  r.1 = Exc (SystemExit ("[ERR] " ++ exists_message))
  ∧ calls (cli_socket r.2) = []
  ∧ outbox (cli_socket r.2) = []
  ∧ connected r.2 = false.
Proof. vm_compute. auto. Qed.

Lemma download_loop_boundary_witness :
  ∃ s w',
    download_loop 2 "a.txt" "5.00B" 5 0 None receiving
      = (Val (total (["abc"] ++ ["defg"]), Some s), w')
    ∧ get_filesize (total (["abc"] ++ ["defg"])) = Val s
    ∧ inbox (cli_socket w') = [Data "zzz"]
    ∧ calls (cli_socket w') =
        (calls (cli_socket receiving)
           ++ replicate (length (["abc"] ++ ["defg"])) (CRecv 4096))%list
    ∧ cwd w' =
        <["a.txt" := extended (file_of EmptyString) (["abc"] ++ ["defg"])]> (cwd receiving).
Proof.
  apply (download_loop_boundary "a.txt" "5.00B" 5 ["abc"] "defg" [Data "zzz"] 2 receiving
           (file_of EmptyString)).
  - lia.
  - reflexivity.
  - reflexivity.
  - reflexivity.
  - repeat constructor; vm_compute; discriminate.
  - vm_compute. reflexivity.
  - vm_compute. discriminate.
  - vm_compute. discriminate.
  - cbn. lia.
Defined.

(** Beyond the range of the size formatter the loop does not stop as
    above.  The announced size is 1024^4; the chunks of the feed total one
    byte less, and the next chunk, of two bytes, brings the total to the
    size and beyond.  The loop takes every chunk from the socket, but it
    ends in IndexError on the last one, which is not written: the file
    holds the bytes of the feed only. *)
Lemma download_loop_beyond_formatter :
  (total tebibyte_feed < 1024 ^ 4 <= total (tebibyte_feed ++ ["ab"]))%Z
  ∧ Forall small_chunk (tebibyte_feed ++ ["ab"])
  ∧ ∃ e w',
      download_loop (length tebibyte_feed + 1) "a.txt" "1024.00GB" (1024 ^ 4) 0 None feeding
      = (Exc IndexError, w')
      ∧ inbox (cli_socket w') = []
      ∧ cwd w' !! "a.txt" = Some e
      ∧ content e = joined tebibyte_feed.
Proof.
  pose proof total_tebibyte_feed as Ht. pose proof small_tebibyte_feed as Hsm.
  split; [rewrite total_app, Ht; change (total ["ab"]) with 2%Z; lia |].
  split; [apply Forall_app; split; [exact Hsm | repeat constructor; vm_compute; discriminate] |].
  destruct (download_loop_prefix "a.txt" "1024.00GB" (1024 ^ 4) tebibyte_feed
              [Data "ab"] 1 feeding 0 None)
    as (cs' & w1 & Hrun & Hs1 & Hi1 & Hd1).
  - reflexivity.
  - unfold feeding. cbn [cli_socket inbox]. rewrite map_app. reflexivity.
  - exact Hsm.
  - lia.
  - rewrite Ht. lia.
  - rewrite Ht. lia.
  - rewrite Hrun, Ht. cbn [download_loop].
    destruct (Z.ltb_spec (0 + (1024 ^ 4 - 1)) (1024 ^ 4)); [| lia].
    erewrite bind_val by (apply (recv_segment 4096 "ab" []); [exact Hs1 | exact Hi1 |
                          vm_compute; discriminate]).
    erewrite bind_exc by (apply lift_exc, get_filesize_large;
                          change (Py.len_bytes "ab") with 2%Z; vm_compute; split; reflexivity).
    eexists. eexists. split; [reflexivity |].
    split; [reflexivity |]. cbn [cwd set_cli_socket]. rewrite Hd1.
    rewrite lookup_alter_eq. unfold feeding. cbn [cwd].
    rewrite lookup_singleton_eq. cbn. split; reflexivity.
Qed.

Lemma put_file_first_failure_witness :
  match first_failure (put_checks "empty.txt" (cwd empty_holder !! "empty.txt")) with
  | Some token =>
    ∃ e w', put_file "empty.txt" empty_holder = (Exc e, w')
      ∧ calls (cli_socket w') = (calls (cli_socket empty_holder) ++ [CSendall token])%list
      ∧ (logfile w' = logfile empty_holder
         ∨ ∃ d, protocol_errors !! token = Some d
                ∧ logfile w' =
                    (logfile empty_holder ++ [("[ERR] " ++ put_message token d)%string])%list)
  | None =>
    ∃ more, calls (cli_socket (put_file "empty.txt" empty_holder).2)
            = (calls (cli_socket empty_holder) ++ CConnect :: more)%list
  end.
Proof. apply (put_file_first_failure "empty.txt" empty_holder). reflexivity. Defined.

Lemma put_file_token_undelivered_witness :
  ∃ w', put_file "missing.txt" seeker = (Exc (OSError NotConnected), w')
    ∧ calls (cli_socket w') = (calls (cli_socket seeker) ++ [CSendall "FileNotFound"])%list
    ∧ outbox (cli_socket w') = outbox (cli_socket seeker)
    ∧ logfile w' = logfile seeker.
Proof.
  apply (put_file_token_undelivered "missing.txt" seeker "FileNotFound");
    vm_compute; reflexivity.
Defined.

Lemma get_file_info_token_witness :
  ∃ d w', protocol_messages !! "FileOkTransfer" = Some d
    ∧ get_file 1 "a.txt" (asker [Data "FileOkTransfer"]) = (Exc ValueError, w')
    ∧ last (logfile w') =
        Some ("[OK!] Server response: " ++ dquote ++ "FileOkTransfer" ++ dquote
              ++ " - " ++ d)
    ∧ cwd w' = cwd (asker [Data "FileOkTransfer"]).
Proof.
  apply (get_file_info_token 1 "a.txt" (asker [Data "FileOkTransfer"])
           "FileOkTransfer" "FileOkTransfer").
  - split; reflexivity.
  - reflexivity.
  - reflexivity.
  - left. exists []. reflexivity.
  - vm_compute. discriminate.
  - reflexivity.
  - vm_compute. reflexivity.
Defined.

Lemma get_file_zero_size_witness :
  ∃ w', get_file 1 "a.txt" (asker [Data "0"]) = (Exc (UnboundLocalError "current_size"), w')
    ∧ cwd w' = <["a.txt" := Entry false 0 EmptyString]> (cwd (asker [Data "0"]))
    ∧ calls (cli_socket w') =
        (calls (cli_socket (asker [Data "0"]))
           ++ [CConnect; CSendall (get_request "a.txt"); CRecv 1024])%list
    ∧ logfile w' =
        (logfile (asker [Data "0"])
           ++ [get_cmd_logged "a.txt"; con_logged (asker [Data "0"])])%list.
Proof.
  apply (get_file_zero_size 1 "a.txt" (asker [Data "0"]) "0" "0").
  - split; reflexivity.
  - reflexivity.
  - unfold plain_name. repeat split; try reflexivity; try discriminate. cbn. lia.
  - reflexivity.
  - left. exists []. reflexivity.
  - vm_compute. discriminate.
  - reflexivity.
  - reflexivity.
Defined.



(** A name that [open] refuses: with the empty name and the answer 0, the
    command ends in FileNotFoundError before the loop; no file is created
    and [current_size] is never read. *)
Lemma get_file_zero_size_no_name :
  let r := get_file 1 EmptyString (client ["get"; EmptyString] ∅ [Data "0"]) in
  Py.int "0" = Val 0%Z
  ∧ r.1 = Exc (OSError NoSuchFile)
  ∧ cwd r.2 = ∅.
Proof. vm_compute. auto. Qed.

Lemma put_file_long_name_witness :
  ∃ e w', put_file long_name long_holder = (Exc e, w')
    ∧ calls (cli_socket w') =
        (calls (cli_socket long_holder)
           ++ [CSendall (if bool_decide (is_Some (cwd long_holder !! long_name))
                         then "FileNameTooLong" else "FileNotFound")])%list.
Proof.
  apply (put_file_long_name long_name long_holder).
  - reflexivity.
  - vm_compute. reflexivity.
Defined.

(** A name of 256 characters that is not in the directory: the token is
    FileNotFound. *)
Lemma put_file_long_name_unlisted :
  let r := put_file long_name (client ["put"; long_name] ∅ [Data "FileOkTransfer"]) in
  (255 < Py.len long_name)%Z
  ∧ r.1 = Exc (OSError NotConnected)
  ∧ calls (cli_socket r.2) = [CSendall "FileNotFound"].
Proof. vm_compute. auto. Qed.

(** A LIST that completes: the connection is open at the end and no
    DISCONNECT went out. *)
Lemma list_completes_without_disconnect :
  let r := start 0 (lister [Data "a.txt b.txt"]) in
  r.1 = Val tt
  ∧ connected r.2 = true
  ∧ outbox (cli_socket r.2) = ["LIST"]
  ∧ calls (cli_socket r.2) = [CConnect; CSendall "LIST"; CRecv 16384].
Proof. vm_compute. auto. Qed.

Lemma disconnect_on_fatal_only_witness :
  (∃ more, calls (cli_socket (start 0 (lister [Data "a.txt b.txt"])).2)
           = (calls (cli_socket (lister [Data "a.txt b.txt"])) ++ more)%list
           ∧ Forall (λ c, ¬ is_send c) more)
  ∧ (∃ w', log "ERR" no_list_message (dialled (lister []))
           = (Exc (SystemExit ("[ERR] " ++ no_list_message)), w')
       ∧ calls (cli_socket w') =
           (calls (cli_socket (dialled (lister []))) ++ [CSend "DISCONNECT"])%list
       ∧ connected w' = false
       ∧ outbox (cli_socket w') =
           match send_error (cli_socket (dialled (lister []))) with
           | None => (outbox (cli_socket (dialled (lister []))) ++ ["DISCONNECT"])%list
           | Some _ => outbox (cli_socket (dialled (lister [])))
           end).
Proof.
  destruct disconnect_on_fatal_only as [Hclean Hfatal]. split.
  - apply (Hclean 0%nat (lister [Data "a.txt b.txt"])).
    vm_compute. reflexivity.
  - apply (Hfatal no_list_message (dialled (lister []))). reflexivity.
Defined.

(** ** More concrete runs *)

Lemma get_file_completes_witness :
  ∃ w', get_file 2 "a.txt" (asker [Data "7"; Data "abc"; Data "defg"]) = (Val tt, w')
    ∧ cwd w' = <["a.txt" := file_of (joined (["abc"] ++ ["defg"]))]>
                 (cwd (asker [Data "7"; Data "abc"; Data "defg"]))
    ∧ inbox (cli_socket w') = [].
Proof.
  apply (get_file_completes 2 "a.txt" (asker [Data "7"; Data "abc"; Data "defg"])
           "7" "7" 7 ["abc"] "defg" []).
  - split; reflexivity.
  - reflexivity.
  - unfold plain_name. repeat split; try reflexivity; try discriminate. cbn. lia.
  - reflexivity.
  - reflexivity.
  - vm_compute. discriminate.
  - reflexivity.
  - reflexivity.
  - repeat constructor; vm_compute; discriminate.
  - vm_compute. reflexivity.
  - vm_compute. discriminate.
  - vm_compute. discriminate.
  - cbn. lia.
Defined.

Lemma download_loop_starves_witness :
  (download_loop 3 "a.txt" "5.00B" 5 0 None (dialled (asker []))).1 = OutOfFuel.
Proof.
  apply (download_loop_starves 3 "a.txt" "5.00B" 5 0 None (dialled (asker []))).
  - reflexivity.
  - reflexivity.
  - lia.
  - vm_compute. discriminate.
Defined.

Lemma download_loop_formatter_limit_witness :
  download_loop 1 "a.txt" "1.00GB" 1099511627777 1099511627776 None receiving
  = (Exc IndexError,
     set_cli_socket
       (set_inbox [Data "defg"; Data "zzz"] (record_call (CRecv 4096) (cli_socket receiving)))
       receiving).
Proof.
  apply (download_loop_formatter_limit 0 "a.txt" "1.00GB" 1099511627777 1099511627776
           None "abc" [Data "defg"; Data "zzz"] receiving).
  - reflexivity.
  - reflexivity.
  - vm_compute. discriminate.
  - lia.
  - vm_compute. split; reflexivity.
Defined.

Lemma get_file_error_token_witness :
  ∃ d w', protocol_errors !! "FileNotFound" = Some d
    ∧ get_file 1 "a.txt" (asker [Data "FileNotFound"])
      = (Exc (SystemExit ("[ERR] " ++ server_error_message "FileNotFound" d)), w')
    ∧ cwd w' = cwd (asker [Data "FileNotFound"])
    ∧ connected w' = false
    ∧ calls (cli_socket w') =
        (calls (cli_socket (asker [Data "FileNotFound"]))
           ++ [CConnect; CSendall (get_request "a.txt"); CRecv 1024;
               CSend "DISCONNECT"])%list.
Proof.
  apply (get_file_error_token 1 "a.txt" (asker [Data "FileNotFound"])
           "FileNotFound" "FileNotFound").
  - split; reflexivity.
  - reflexivity.
  - reflexivity.
  - left. exists []. reflexivity.
  - vm_compute. discriminate.
  - reflexivity.
  - vm_compute. reflexivity.
Defined.

(** The server closes without an answer: the empty answer does not read as
    a number. *)
Lemma get_file_unreadable_size_witness :
  ∃ w', get_file 1 "a.txt" (asker []) = (Exc ValueError, w')
    ∧ cwd w' = cwd (asker [])
    ∧ connected w' = true
    ∧ calls (cli_socket w') =
        (calls (cli_socket (asker []))
           ++ [CConnect; CSendall (get_request "a.txt"); CRecv 1024])%list.
Proof.
  apply (get_file_unreadable_size 1 "a.txt" (asker []) EmptyString EmptyString).
  - split; reflexivity.
  - reflexivity.
  - reflexivity.
  - right. split; reflexivity.
  - vm_compute. discriminate.
  - reflexivity.
  - reflexivity.
  - vm_compute. reflexivity.
  - reflexivity.
Defined.

Lemma get_file_size_out_of_table_witness :
  ∃ w', get_file 1 "a.txt" (asker [Data "1099511627777"]) = (Exc IndexError, w')
    ∧ cwd w' = cwd (asker [Data "1099511627777"])
    ∧ calls (cli_socket w') =
        (calls (cli_socket (asker [Data "1099511627777"]))
           ++ [CConnect; CSendall (get_request "a.txt"); CRecv 1024])%list.
Proof.
  apply (get_file_size_out_of_table 1 "a.txt" (asker [Data "1099511627777"])
           "1099511627777" "1099511627777" 1099511627777).
  - split; reflexivity.
  - reflexivity.
  - reflexivity.
  - left. exists []. reflexivity.
  - vm_compute. discriminate.
  - reflexivity.
  - vm_compute. reflexivity.
  - vm_compute. split; reflexivity.
Defined.

Lemma put_file_error_token_witness :
  ∃ d w', protocol_errors !! "FileAlreadyExists" = Some d
    ∧ put_file "a.txt" (uploader [Data "FileAlreadyExists"])
      = (Exc (SystemExit ("[ERR] " ++ server_error_message "FileAlreadyExists" d)), w')
    ∧ connected w' = false
    ∧ calls (cli_socket w') =
        (calls (cli_socket (uploader [Data "FileAlreadyExists"]))
           ++ [CConnect; CSendall (put_request "a.txt"); CRecv 24;
               CSend "DISCONNECT"])%list.
Proof.
  apply (put_file_error_token "a.txt" (uploader [Data "FileAlreadyExists"])
           (file_of "abc") "FileAlreadyExists" "FileAlreadyExists").
  - split; reflexivity.
  - reflexivity.
  - reflexivity.
  - unfold uploadable. cbn. repeat split; (lia || discriminate).
  - left. exists []. reflexivity.
  - vm_compute. discriminate.
  - reflexivity.
  - vm_compute. reflexivity.
Defined.

Lemma put_file_unknown_answer_witness :
  ∃ w', put_file "a.txt" (uploader [Data "OK"]) = (Val tt, w')
    ∧ connected w' = true
    ∧ outbox (cli_socket w') =
        (outbox (cli_socket (uploader [Data "OK"])) ++ [put_request "a.txt"])%list
    ∧ calls (cli_socket w') =
        (calls (cli_socket (uploader [Data "OK"]))
           ++ [CConnect; CSendall (put_request "a.txt"); CRecv 24])%list
    ∧ logfile w' =
        (logfile (uploader [Data "OK"])
           ++ [("[OK!] " ++ put_ok_line "a.txt")%string; con_logged (uploader [Data "OK"])])%list.
Proof.
  apply (put_file_unknown_answer "a.txt" (uploader [Data "OK"]) (file_of "abc") "OK" "OK").
  - split; reflexivity.
  - reflexivity.
  - reflexivity.
  - unfold uploadable. cbn. repeat split; (lia || discriminate).
  - left. exists []. reflexivity.
  - vm_compute. discriminate.
  - reflexivity.
  - vm_compute. reflexivity.
  - vm_compute. reflexivity.
Defined.


Lemma connect_refused_witness :
  ∃ w', connect (unreachable (Refused "[Errno 111] Connection refused"))
        = (Exc (SystemExit
                  ("[ERR] " ++ refusal_message
                                 (unreachable (Refused "[Errno 111] Connection refused"))
                                 "[Errno 111] Connection refused")), w')
    ∧ state (cli_socket w') = Closed
    ∧ connected w' = false
    ∧ calls (cli_socket w') =
        (calls (cli_socket (unreachable (Refused "[Errno 111] Connection refused")))
           ++ [CConnect; CClose])%list
    ∧ outbox (cli_socket w') =
        outbox (cli_socket (unreachable (Refused "[Errno 111] Connection refused")))
    ∧ logfile w' =
        (logfile (unreachable (Refused "[Errno 111] Connection refused"))
           ++ [("[ERR] " ++ refusal_message
                              (unreachable (Refused "[Errno 111] Connection refused"))
                              "[Errno 111] Connection refused")%string])%list.
Proof.
  apply (connect_refused (unreachable (Refused "[Errno 111] Connection refused"))
           (Refused "[Errno 111] Connection refused") "[Errno 111] Connection refused").
  - split; reflexivity.
  - reflexivity.
  - reflexivity.
Defined.

Lemma get_file_unreachable_witness :
  ∃ w', get_file 1 "a.txt" (unreachable (Gaierror "[Errno -2] Name or service not known"))
        = (Exc (SystemExit
                  ("[ERR] " ++ refusal_message
                                 (unreachable (Gaierror "[Errno -2] Name or service not known"))
                                 "[Errno -2] Name or service not known")), w')
    ∧ cwd w' = cwd (unreachable (Gaierror "[Errno -2] Name or service not known"))
    ∧ outbox (cli_socket w') =
        outbox (cli_socket (unreachable (Gaierror "[Errno -2] Name or service not known")))
    ∧ calls (cli_socket w') =
        (calls (cli_socket (unreachable (Gaierror "[Errno -2] Name or service not known")))
           ++ [CConnect; CClose])%list.
Proof.
  apply (get_file_unreachable 1 "a.txt"
           (unreachable (Gaierror "[Errno -2] Name or service not known"))
           (Gaierror "[Errno -2] Name or service not known")
           "[Errno -2] Name or service not known").
  - split; reflexivity.
  - reflexivity.
  - reflexivity.
  - reflexivity.
Defined.

Lemma connect_uncaught_witness :
  connect (unreachable DialTimedOut)
  = (Exc (OSError DialTimedOut),
     set_cli_socket (record_call CConnect (cli_socket (unreachable DialTimedOut)))
       (unreachable DialTimedOut)).
Proof.
  apply (connect_uncaught (unreachable DialTimedOut) DialTimedOut); reflexivity.
Defined.

Lemma show_list_undecodable_witness :
  ∃ w', show_list (lister [Data byte_ff]) = (Exc UnicodeDecodeError, w')
    ∧ connected w' = true
    ∧ calls (cli_socket w') =
        (calls (cli_socket (lister [Data byte_ff]))
           ++ [CConnect; CSendall "LIST"; CRecv 16384])%list
    ∧ console w' =
        (console (lister [Data byte_ff])
           ++ [("[CMD] Invoking Server Protocol 'LIST' command." ++ newline)%string;
               (con_logged (lister [Data byte_ff]) ++ newline)%string])%list.
Proof.
  apply (show_list_undecodable (lister [Data byte_ff]) byte_ff).
  - split; reflexivity.
  - reflexivity.
  - left. exists []. reflexivity.
  - vm_compute. discriminate.
  - reflexivity.
Defined.

Lemma show_list_truncates_witness :
  ∃ w', show_list (lister [Data (repeat_char "a" (N.to_nat 16385))]) = (Val tt, w')
    ∧ last (console w') =
        Some ("[OK!] Server responded with:" ++ newline
              ++ repeat_char "a" (N.to_nat 16384) ++ newline)
    ∧ inbox (cli_socket w') =
        Data (Sock.drop (N.to_nat 16384) (repeat_char "a" (N.to_nat 16385))) :: []
    ∧ calls (cli_socket w') =
        (calls (cli_socket (lister [Data (repeat_char "a" (N.to_nat 16385))]))
           ++ [CConnect; CSendall "LIST"; CRecv 16384])%list.
Proof.
  apply (show_list_truncates (lister [Data (repeat_char "a" (N.to_nat 16385))])
           (repeat_char "a" (N.to_nat 16385)) [] (repeat_char "a" (N.to_nat 16384))).
  - split; reflexivity.
  - reflexivity.
  - reflexivity.
  - vm_compute. reflexivity.
  - vm_compute. reflexivity.
Defined.

Lemma get_filesize_bytes_witness :
  get_filesize 1024 = Val (Py.str 1024 ++ ".00B").
Proof. apply (get_filesize_bytes 1024). lia. Defined.

Lemma check_port_decides_witness :
  (∃ n, check_port "8000" unbuilt = (IVal n, unbuilt)
        ∧ Py.int "8000" = Val n ∧ (0 <= n <= 99999)%Z)
  ∧ check_port "80a" unbuilt = (IExc (AttributeError "connected"), blamed port_message unbuilt).
Proof.
  split.
  - apply (check_port_decides "8000" unbuilt); [reflexivity | reflexivity |].
    split; [reflexivity | cbn; lia].
  - apply (check_port_decides "80a" unbuilt); [reflexivity | reflexivity |].
    intros [H _]. discriminate H.
Defined.

Lemma init_builds_witness :
  ∃ n, Py.int "8000" = Val n
    ∧ (0 <= n <= 99999)%Z
    ∧ __init__ "localhost" "8000" ["list"] unbuilt
      = (IVal tt, Object (built "localhost" n ["list"] (fields unbuilt)) true)
    ∧ fresh_client (built "localhost" n ["list"] (fields unbuilt))
    ∧ is_Some (cwd (built "localhost" n ["list"] (fields unbuilt)) !! "client.log")
    ∧ ∀ name, name ≠ "client.log" →
        cwd (built "localhost" n ["list"] (fields unbuilt)) !! name
        = cwd (fields unbuilt) !! name.
Proof.
  apply (init_builds "localhost" "8000" ["list"] unbuilt).
  - left. reflexivity.
  - split; [reflexivity | cbn; lia].
  - exists "list", []. split; [reflexivity | left; reflexivity].
Defined.

(** A host with a space in it. *)
Lemma init_bad_argument_witness :
  (∃ n, __init__ "my host" "8000" ["list"] unbuilt
        = (IVal tt, Object (built "my host" n ["list"] (fields unbuilt)) true))
  ∨ (∃ message o',
       __init__ "my host" "8000" ["list"] unbuilt = (IExc (AttributeError "connected"), o')
       ∧ logfile (fields o')
         = (logfile (fields unbuilt) ++ [("[ERR] " ++ message)%string])%list
       ∧ console (fields o') = console (fields unbuilt)
       ∧ calls (cli_socket (fields o')) = []).
Proof.
  apply (init_bad_argument "my host" "8000" ["list"] unbuilt).
  - reflexivity.
  - reflexivity.
  - discriminate.
Defined.

Lemma main_name_case_witness :
  ∃ o', main ["client.py"; "localhost"; "8000"; "LIST"] 0 unbuilt
        = (IExc (Raised KeyError), o')
    ∧ calls (cli_socket (fields o')) = []
    ∧ console (fields o')
      = (console (fields unbuilt) ++ [("[OK!] " ++ startup_line ++ newline)%string])%list.
Proof.
  apply (main_name_case ["client.py"; "localhost"; "8000"; "LIST"] 0 unbuilt
           "client.py" "localhost" "8000" "LIST" []).
  - reflexivity.
  - left. reflexivity.
  - split; [reflexivity | cbn; lia].
  - exists "LIST", []. split; [reflexivity | left; reflexivity].
  - discriminate.
Defined.
